(** * Leaderboard route and profile hooks of builder-score-miniapp

    A shallow embedding of the [GET] handler of the leaderboard API route
    (the route document of [src/app/layout.tsx]) and the properties of its
    request parsing, query construction, score extraction, sorting, rank
    assignment and statistics; and of the callbacks of the profile hooks
    ([useScoreRefresh], [useProfileActions], [useProfileCreatorScore]) and
    of the [ProfileScreen] component: what they set, what they call and
    when.

    Conventions of the embedding.
    - A JavaScript string is a [string]; a character stands for the code
      unit of the same number, so the strings of the model are those over
      the code units 0..255.
    - A JavaScript number the handler computes with is an integer, [Z]:
      the counts and scores of a provider body are taken as integers a
      double holds exactly.  The result of [parseInt] is a [JS.number]:
      [NaN], an infinity, or the integer nearest to the numeral that a
      double holds (53 significant bits, ties to even); [JS.toString]
      prints it as a template literal does, the shortest digits that
      round to it and the exponent form from [1e21].  The one
      floating-point product of the handler, [totalCreators * 0.3], is
      computed on the binary64 value of [0.3] with round-to-nearest-even
      ([JS.floor_times_0_3]).
    - [NextResponse.json] with a [status] throws where the [Response]
      constructor does: a status outside 200..599, or one that allows no
      body.
    - [undefined] and [null] are [None].  The body of a provider response
      is read as the handler's types read it: an object with optional
      [profiles] and [pagination].
    - The outbound calls ([fetch], [console.error]) are the nodes of a
      program tree, [Prog]; [run] executes a tree against a provider and
      records every call.
    - The body of a hook callback is a tree of events, [Eff]: the state
      setters and the calls to services that are not part of these files;
      [exec] runs it against a world that answers the calls. *)

From Stdlib Require Import ZArith List String Ascii Bool Lia.
From Stdlib Require Import Sorted Permutation DecimalString DecimalPos.
Import ListNotations.

Set Warnings "-register-all".

Local Open Scope string_scope.
Local Open Scope Z_scope.

(** ** JavaScript primitives used by the handler *)

Module JS.

(** A number: [NaN], an integer (one a double holds: at most 53
    significant bits), or [Infinity] / [-Infinity]. *)
Inductive number : Type :=
| NaN
| Num (z : Z)
| Inf (negative : bool).

(** Truthiness of a [string | undefined] value: [undefined] and the empty
    string are falsy. *)
Definition truthy (v : option string) : bool :=
  match v with
  | None => false
  | Some s => negb (String.eqb s "")
  end.

(** [a || b] on [string | null] operands. *)
Definition or (a b : option string) : option string :=
  if truthy a then a else b.

(** [a || d] where [d] is a string literal. *)
Definition or_lit (a : option string) (d : string) : string :=
  match or a (Some d) with
  | Some s => s
  | None => d
  end.

(** [n || d] on [number | undefined]: [undefined] and [0] are falsy. *)
Definition or_num (n : option Z) (d : Z) : Z :=
  match n with
  | Some t => if t =? 0 then d else t
  | None => d
  end.

(** [p ?? 0]. *)
Definition nullish (p : option Z) (d : Z) : Z :=
  match p with
  | Some v => v
  | None => d
  end.

(** *** Rounding to binary64 *)

(** [m / 2^s] rounded to the nearest integer, ties to even ([0 <= m]). *)
Definition round_shift (m s : Z) : Z :=
  if s <=? 0 then m
  else
    let q := Z.shiftr m s in
    let r := m - Z.shiftl q s in
    let half := Z.shiftl 1 (s - 1) in
    if r <? half then q
    else if half <? r then q + 1
    else if Z.even q then q else q + 1.

(** The integer [0 <= m] rounded to 53 significant bits, ties to even. *)
Definition round53 (m : Z) : Z :=
  let s := Z.max 0 (Z.log2 m - 52) in
  round_shift m s * 2 ^ s.

(** The number of sign [sign] and of the magnitude nearest to the integer
    [0 <= m]; what rounds to [2^1024] is past the largest double. *)
Definition of_integer (sign m : Z) : number :=
  let r := round53 m in
  if 2 ^ 1024 <=? r then Inf (sign <? 0) else Num (sign * r).

(** *** [parseInt(s, 10)] *)

Definition code (c : ascii) : Z := Z.of_nat (nat_of_ascii c).

(** White space and line terminators among the code units 0..255. *)
Definition is_space (c : ascii) : bool :=
  let n := code c in
  ((9 <=? n) && (n <=? 13)) || (n =? 32) || (n =? 160).

Fixpoint trim_start (s : string) : string :=
  match s with
  | String c r => if is_space c then trim_start r else s
  | EmptyString => s
  end.

Definition digit (c : ascii) : option Z :=
  let n := code c in
  if (48 <=? n) && (n <=? 57) then Some (n - 48) else None.

(** The value of the longest prefix of decimal digits; [acc] is [None]
    until a digit has been read. *)
Fixpoint digits (s : string) (acc : option Z) : option Z :=
  match s with
  | String c r =>
      match digit c with
      | Some d => digits r (Some (10 * nullish acc 0 + d))
      | None => acc
      end
  | EmptyString => acc
  end.

(** [parseInt(s, 10)]: white space, a sign, the longest prefix of digits;
    [NaN] without a digit, else the double nearest to the integer read. *)
Definition parseInt (s : string) : number :=
  let t := trim_start s in
  let '(sign, t) :=
    match t with
    | String "-" r => (-1, r)
    | String "+" r => (1, r)
    | _ => (1, t)
    end in
  match digits t None with
  | None => NaN
  | Some m => of_integer sign m
  end.

(** *** Number to string, as a template literal does it *)

(** The decimal numeral of an integer. *)
Definition decimal (z : Z) : string := NilEmpty.string_of_int (Z.to_int z).

(** For a double [x] above [2^53] the digits printed are the fewest, [k] of
    them, of an integer [s] such that [s * 10^(n-k)] rounds to [x]; of
    several such [s] the one nearest to [x], of two as near the even one.
    The candidates for [k] digits are the two multiples of [10^(n-k)]
    around [x], for [n] the number of digits of [x] or one more. *)
Definition digit_candidates (x k nx : Z) : list (Z * Z) :=
  flat_map (fun n => let p := 10 ^ (n - k) in [(x / p, n); (x / p + 1, n)])
           [nx; nx + 1].

Definition represents (x k : Z) (c : Z * Z) : bool :=
  let '(s, n) := c in
  (10 ^ (k - 1) <=? s) && (s <? 10 ^ k) && (round53 (s * 10 ^ (n - k)) =? x).

Definition nearer (x k : Z) (a b : Z * Z) : Z * Z :=
  let d := fun c : Z * Z => Z.abs (fst c * 10 ^ (snd c - k) - x) in
  if d a <? d b then a
  else if d b <? d a then b
  else if Z.even (fst a) then a else b.

(** The digits [s], the position [n] of the decimal point and the number
    [k] of digits, trying [k], [k + 1], ... *)
Fixpoint shortest (fuel : nat) (x k nx : Z) : Z * Z * Z :=
  match fuel with
  | O => (x, nx, nx)
  | S fuel' =>
      match filter (represents x k) (digit_candidates x k nx) with
      | [] => shortest fuel' x (k + 1) nx
      | c :: cs =>
          let '(s, n) := fold_left (nearer x k) cs c in (s, n, k)
      end
  end.

Fixpoint zeros (n : nat) : string :=
  match n with
  | O => ""
  | S n' => String "0" (zeros n')
  end.

(** Up to 21 digits the numeral is written out; beyond, the exponent is. *)
Definition format (s n k : Z) : string :=
  let d := decimal s in
  if n <=? 21 then d ++ zeros (Z.to_nat (n - k))
  else
    let e := "e+" ++ decimal (n - 1) in
    if k =? 1 then d ++ e
    else
      match d with
      | String c r => String c ("." ++ r) ++ e
      | EmptyString => e
      end.

(** An integer up to [2^53] is printed exactly. *)
Definition toString (n : number) : string :=
  match n with
  | NaN => "NaN"
  | Inf false => "Infinity"
  | Inf true => "-Infinity"
  | Num z =>
      if Z.abs z <=? 2 ^ 53 then decimal z
      else
        let x := Z.abs z in
        let nx := Z.of_nat (String.length (decimal x)) in
        let '(s, n, k) := shortest (Z.to_nat nx) x 1 nx in
        (if z <? 0 then "-" else "") ++ format s n k
  end.

(** *** [encodeURIComponent] *)

Definition is_alnum (c : ascii) : bool :=
  let n := code c in
  ((48 <=? n) && (n <=? 57)) || ((65 <=? n) && (n <=? 90))
  || ((97 <=? n) && (n <=? 122)).

Fixpoint mem_char (c : ascii) (s : string) : bool :=
  match s with
  | String d r => Ascii.eqb c d || mem_char c r
  | EmptyString => false
  end.

Definition unreserved (c : ascii) : bool :=
  is_alnum c || mem_char c "-_.!~*'()".

Definition hex_char (upper : bool) (n : Z) : ascii :=
  match get (Z.to_nat n)
          (if upper then "0123456789ABCDEF" else "0123456789abcdef") with
  | Some c => c
  | None => "0"%char
  end.

Definition percent (b : Z) : string :=
  String "%" (String (hex_char true (b / 16))
                     (String (hex_char true (b mod 16)) "")).

(** A code unit below 128 is one UTF-8 byte, one in 128..255 is two. *)
Definition encode_char (c : ascii) : string :=
  if unreserved c then String c ""
  else
    let n := code c in
    if n <? 128 then percent n
    else percent (192 + n / 64) ++ percent (128 + n mod 64).

Fixpoint encodeURIComponent (s : string) : string :=
  match s with
  | String c r => encode_char c ++ encodeURIComponent r
  | EmptyString => ""
  end.

(** *** [JSON.stringify] on the values the handler serialises *)

Inductive value : Type :=
| VNumber (n : number)
| VString (s : string)
| VObject (members : list (string * value)).

Definition escape_char (c : ascii) : string :=
  let n := code c in
  if n =? 34 then "\" ++ String c ""
  else if n =? 92 then "\\"
  else if n =? 8 then "\b"
  else if n =? 9 then "\t"
  else if n =? 10 then "\n"
  else if n =? 12 then "\f"
  else if n =? 13 then "\r"
  else if n <? 32 then
    "\u00" ++ String (hex_char false (n / 16))
                     (String (hex_char false (n mod 16)) "")
  else String c "".

Fixpoint escape (s : string) : string :=
  match s with
  | String c r => escape_char c ++ escape r
  | EmptyString => ""
  end.

Definition quote (s : string) : string :=
  String (ascii_of_nat 34) (escape s) ++ String (ascii_of_nat 34) "".

Fixpoint stringify (v : value) : string :=
  match v with
  | VNumber NaN => "null"
  | VNumber (Inf _) => "null"
  | VNumber n => toString n
  | VString s => quote s
  | VObject ms =>
      "{" ++
      (fix members (l : list (string * value)) : string :=
         match l with
         | [] => ""
         | [(k, x)] => quote k ++ ":" ++ stringify x
         | (k, x) :: r => quote k ++ ":" ++ stringify x ++ "," ++ members r
         end) ms
      ++ "}"
  end.

(** *** [Math.max(...xs)] *)

(** [None] stands for [-Infinity], the value on no argument. *)
Definition Math_max (xs : list Z) : option Z :=
  fold_left
    (fun acc x => Some (match acc with Some a => Z.max a x | None => x end))
    xs None.

(** *** [Math.floor(t * 0.3)] in binary64 *)

(** The literal [0.3] denotes the double [c_0_3 * 2^-54]. *)
Definition c_0_3 : Z := 5404319552844595.

(** The product of the integer [t] (of magnitude below [2^53], so a double)
    and [0.3] is the exact product [t * c_0_3 * 2^-54] rounded to 53
    significant bits: [sgn t * r * 2^(s-54)].  [Math.floor] of it is an
    arithmetic shift. *)
Definition floor_times_0_3 (t : Z) : Z :=
  let m := Z.abs t * c_0_3 in
  let s := Z.max 0 (Z.log2 m - 52) in
  let r := round_shift m s in
  Z.shiftr (Z.sgn t * r) (54 - s).

End JS.


(** ** Data model *)

(** One scoring dimension of a profile: [{ slug: string; points?: number }]. *)
Record ScoreEntry : Type := {
  slug : string;
  points : option Z
}.

(** The [Profile] type of the route. *)
Module Profile.
Record t : Type := {
  id : string;
  display_name : option string;
  name : option string;
  image_url : option string;
  scores : option (list ScoreEntry)
}.
End Profile.

(** The body of a provider response, as far as the handler reads it:
    [json.profiles] and [json.pagination?.total]. *)
Record Pagination : Type := {
  total : option Z
}.

Record ProviderJson : Type := {
  profiles : option (list Profile.t);
  pagination : option Pagination
}.

(** The object built for each profile in step 1 of the handler. *)
Module Entry.
Record t : Type := {
  name : string;
  pfp : option string;
  score : Z;
  rewards : string;
  id : string;
  talent_protocol_id : string
}.
End Entry.

(** [{ ...entry, rank }]. *)
Module Ranked.
Record t : Type := {
  entry : Entry.t;
  rank : Z
}.
End Ranked.

(** ** The outside world: provider calls and the console *)

Inductive Exn : Type :=
| FetchFailed        (* [fetch] rejected: no response was received *)
| JsonSyntaxError    (* [res.json()] rejected: the body is not JSON *)
| RangeError         (* a response of a status outside 200..599 *)
| TypeError.         (* a body on a status that allows none *)

Record Request : Type := {
  url : string;
  headers : list (string * string)
}.

Module Response.
Record t : Type := {
  status : Z;
  text : string;                 (* the body, as [res.text()] gives it *)
  json : option ProviderJson     (* the body parsed; [None]: not JSON *)
}.

Definition ok (r : t) : bool := (200 <=? status r) && (status r <=? 299).
End Response.

Inductive FetchOutcome : Type :=
| Rejected (e : Exn)
| Resolved (r : Response.t).

(** What the handler answers with. *)
Inductive Body : Type :=
| ErrorBody (error : string)
| StatsBody (minScore totalCreators eligibleCreators : Z)
| ListingBody (entries : list Ranked.t) (minScore totalCreators : Z).

Module NextResponse.
Record t : Type := {
  body : Body;
  status : Z
}.

(** [NextResponse.json(body)]: the status is 200. *)
Definition json (b : Body) : t := {| body := b; status := 200 |}.

(** The statuses of a response that has no body. *)
Definition null_body_status (s : Z) : bool :=
  existsb (Z.eqb s) [101; 103; 204; 205; 304].

(** [NextResponse.json(body, { status })] builds a [Response] with that
    status and a JSON body before anything is returned: the constructor
    throws a [RangeError] for a status outside 200..599, and a [TypeError]
    for a body on a null body status. *)
Definition json_init (b : Body) (s : Z) : Exn + t :=
  if negb ((200 <=? s) && (s <=? 599)) then inl RangeError
  else if null_body_status s then inl TypeError
  else inr {| body := b; status := s |}.
End NextResponse.

(** A handler is a tree: it returns, throws, or performs an outbound call
    and goes on with what the call gave. *)
Inductive Prog (A : Type) : Type :=
| Ret (a : A)
| Throw (e : Exn)
| Fetch (rq : Request) (k : FetchOutcome -> Prog A)
| ConsoleError (msg : string) (e : Exn) (k : Prog A).

Arguments Ret {A} a.
Arguments Throw {A} e.
Arguments Fetch {A} rq k.
Arguments ConsoleError {A} msg e k.

Fixpoint bind {A B : Type} (p : Prog A) (f : A -> Prog B) : Prog B :=
  match p with
  | Ret a => f a
  | Throw e => Throw e
  | Fetch rq k => Fetch rq (fun o => bind (k o) f)
  | ConsoleError msg e k => ConsoleError msg e (bind k f)
  end.

(** [try { p } catch (error) { h error }]. *)
Fixpoint try_catch {A : Type} (p : Prog A) (h : Exn -> Prog A) : Prog A :=
  match p with
  | Ret a => Ret a
  | Throw e => h e
  | Fetch rq k => Fetch rq (fun o => try_catch (k o) h)
  | ConsoleError msg e k => ConsoleError msg e (try_catch k h)
  end.

Declare Scope prog_scope.
Delimit Scope prog_scope with prog.
Notation "x <- p ;; q" := (bind p (fun x => q))
  (at level 100, p at next level, right associativity) : prog_scope.

(** [await fetch(url, { headers })]. *)
Definition fetch (u : string) (hs : list (string * string)) : Prog Response.t :=
  Fetch {| url := u; headers := hs |}
        (fun o => match o with
                  | Rejected e => Throw e
                  | Resolved r => Ret r
                  end).

(** [return NextResponse.json(body, { status })]: what the constructor
    throws, the handler throws. *)
Definition construct {A : Type} (r : Exn + A) : Prog A :=
  match r with
  | inl e => Throw e
  | inr a => Ret a
  end.

(** [await res.json()]. *)
Definition res_json (r : Response.t) : Prog ProviderJson :=
  match Response.json r with
  | Some j => Ret j
  | None => Throw JsonSyntaxError
  end.

(** [await res.text()]. *)
Definition res_text (r : Response.t) : Prog string := Ret (Response.text r).

(** *** Running a handler *)

(** A provider answers the [n]-th call of a request by an outcome. *)
Definition Provider : Type := nat -> Request -> FetchOutcome.

Inductive Completion (A : Type) : Type :=
| Returned (a : A)
| Thrown (e : Exn).

Arguments Returned {A} a.
Arguments Thrown {A} e.

Record Run (A : Type) : Type := {
  result : Completion A;
  calls : list Request;            (* provider calls, in order *)
  logged : list (string * Exn)     (* console.error lines, in order *)
}.

Arguments result {A} r.
Arguments calls {A} r.
Arguments logged {A} r.

Fixpoint run_from {A : Type} (p : Prog A) (provider : Provider) (n : nat)
  : Run A :=
  match p with
  | Ret a => {| result := Returned a; calls := []; logged := [] |}
  | Throw e => {| result := Thrown e; calls := []; logged := [] |}
  | Fetch rq k =>
      let r := run_from (k (provider n rq)) provider (S n) in
      {| result := result r; calls := rq :: calls r; logged := logged r |}
  | ConsoleError msg e k =>
      let r := run_from k provider n in
      {| result := result r; calls := calls r; logged := (msg, e) :: logged r |}
  end.

Definition run {A : Type} (p : Prog A) (provider : Provider) : Run A :=
  run_from p provider 0.

(** ** The handler [GET] *)

(** [process.env], as far as the handler reads it. *)
Record Env : Type := {
  TALENT_API_KEY : option string
}.

(** [req.nextUrl.searchParams]: the pairs of the query string, in order. *)
Definition SearchParams : Type := list (string * string).

(** [searchParams.get(key)]: the first value of the name, or [null]. *)
Fixpoint get (searchParams : SearchParams) (key : string) : option string :=
  match searchParams with
  | [] => None
  | (k, v) :: r => if String.eqb k key then Some v else get r key
  end.

Definition parse_page (searchParams : SearchParams) : JS.number :=
  JS.parseInt (JS.or_lit (get searchParams "page") "1").

Definition parse_perPage (searchParams : SearchParams) : JS.number :=
  JS.parseInt
    (JS.or_lit (JS.or (get searchParams "per_page") (get searchParams "perPage"))
               "25").

Definition parse_statsOnly (searchParams : SearchParams) : bool :=
  match get searchParams "statsOnly" with
  | Some v => String.eqb v "true"
  | None => false
  end.

Definition baseUrl : string :=
  "https://api.talentprotocol.com/search/advanced/profiles".

Definition query : JS.value :=
  JS.VObject
    [("score",
      JS.VObject [("min", JS.VNumber (JS.Num 1));
                  ("scorer", JS.VString "Creator Score")])].

Module Data.
Record t : Type := {
  query : JS.value;
  sort : JS.value;
  page : JS.number;
  per_page : JS.number
}.
End Data.

Definition data (page perPage : JS.number) : Data.t :=
  {| Data.query := query;
     Data.sort :=
       JS.VObject
         [("score",
           JS.VObject [("order", JS.VString "desc");
                       ("scorer", JS.VString "Creator Score")]);
          ("id", JS.VObject [("order", JS.VString "desc")])];
     Data.page := page;
     Data.per_page := perPage |}.

(** [parts.join(sep)]. *)
Fixpoint join (sep : string) (parts : list string) : string :=
  match parts with
  | [] => ""
  | [p] => p
  | p :: r => p ++ sep ++ join sep r
  end.

Definition queryString (page perPage : JS.number) : string :=
  let data := data page perPage in
  join "&"
    ["query=" ++ JS.encodeURIComponent (JS.stringify (Data.query data));
     "sort=" ++ JS.encodeURIComponent (JS.stringify (Data.sort data));
     "page=" ++ JS.toString page;
     "per_page=" ++ JS.toString perPage].

Definition request_headers (apiKey : string) : list (string * string) :=
  [("Accept", "application/json"); ("X-API-KEY", apiKey)].

Definition eligibleQuery : JS.value :=
  JS.VObject
    [("score",
      JS.VObject [("min", JS.VNumber (JS.Num 80));
                  ("scorer", JS.VString "Creator Score")])].

Definition eligibleQueryString : string :=
  join "&"
    ["query=" ++ JS.encodeURIComponent (JS.stringify eligibleQuery);
     "page=1";
     "per_page=1"].

(** [json.pagination?.total]. *)
Definition pagination_total (json : ProviderJson) : option Z :=
  match pagination json with
  | Some p => total p
  | None => None
  end.

(** *** Statistics ([statsOnly]) *)

Definition stats (apiKey : string) (json : ProviderJson)
  : Prog NextResponse.t :=
  let totalCreators := JS.or_num (pagination_total json) 0 in
  let minScore := 100 in
  try_catch
    (eligibleRes <- fetch (baseUrl ++ "?" ++ eligibleQueryString)
                          (request_headers apiKey) ;;
     eligibleCreators <-
       (if Response.ok eligibleRes
        then eligibleJson <- res_json eligibleRes ;;
             Ret (JS.or_num (pagination_total eligibleJson) 0)
        else Ret 0) ;;
     Ret (NextResponse.json
            (StatsBody minScore totalCreators eligibleCreators)))%prog
    (fun error =>
       ConsoleError "Failed to fetch eligible creators count:" error
         (Ret (NextResponse.json
                 (StatsBody minScore totalCreators
                            (JS.floor_times_0_3 totalCreators))))).

(** *** Step 1: each profile and its highest Creator Score *)

Definition creatorScores (p : Profile.t) : list Z :=
  match Profile.scores p with
  | Some ss =>
      map (fun s => JS.nullish (points s) 0)
          (filter (fun s => String.eqb (slug s) "creator_score") ss)
  | None => []
  end.

(** [creatorScores.length > 0 ? Math.max(...creatorScores) : 0]; the maximum
    of a non-empty list is a number ([Math_max_cons]), so the inner default
    is never taken. *)
Definition profile_score (p : Profile.t) : Z :=
  let creatorScores := creatorScores p in
  if 0 <? Z.of_nat (List.length creatorScores)
  then match JS.Math_max creatorScores with Some m => m | None => 0 end
  else 0.

Definition map_profile (p : Profile.t) : Entry.t :=
  {| Entry.name :=
       JS.or_lit (JS.or (Profile.display_name p) (Profile.name p)) "Unknown";
     Entry.pfp := JS.or (Profile.image_url p) None;
     Entry.score := profile_score p;
     Entry.rewards := "-";
     Entry.id := Profile.id p;
     Entry.talent_protocol_id := Profile.id p |}.

(** *** Step 2: sort by score descending *)

(** [Array.prototype.sort(compareFn)] is stable and, for a consistent
    comparator, leaves the elements ordered by it: [a] stays before [b]
    unless [compareFn(a, b) > 0].  The engine's algorithm is not part of the
    source; insertion from the right computes that same array. *)
Section ArraySort.
Context {A : Type} (compareFn : A -> A -> Z).

Fixpoint insert (x : A) (l : list A) : list A :=
  match l with
  | [] => [x]
  | y :: r => if 0 <? compareFn x y then y :: insert x r else x :: l
  end.

Fixpoint Array_sort (l : list A) : list A :=
  match l with
  | [] => []
  | x :: r => insert x (Array_sort r)
  end.
End ArraySort.

(** [(a, b) => b.score - a.score]. *)
Definition by_score_desc (a b : Entry.t) : Z := Entry.score b - Entry.score a.

(** *** Step 3: assign ranks *)

(** The three variables the callback of [mapped.map] updates. *)
Record RankState : Type := {
  lastScore : option Z;
  lastRank : Z;
  ties : Z
}.

Definition rank_init : RankState :=
  {| lastScore := None; lastRank := 0; ties := 0 |}.

(** [entry.score === lastScore]. *)
Definition same_score (entry : Entry.t) (st : RankState) : bool :=
  match lastScore st with
  | Some s => Entry.score entry =? s
  | None => false
  end.

(** One call of the callback: the ranked entry and the variables after. *)
Definition rank_entry (st : RankState) (entry : Entry.t) (idx : Z)
  : Ranked.t * RankState :=
  if same_score entry st then
    ({| Ranked.entry := entry; Ranked.rank := lastRank st |},
     {| lastScore := lastScore st;
        lastRank := lastRank st;
        ties := ties st + 1 |})
  else
    let rank := idx + 1 in
    let rank := if 0 <? ties st then lastRank st + ties st else rank in
    ({| Ranked.entry := entry; Ranked.rank := rank |},
     {| lastScore := Some (Entry.score entry);
        lastRank := rank;
        ties := 1 |}).

Fixpoint map_rank (st : RankState) (idx : Z) (mapped : list Entry.t)
  : list Ranked.t :=
  match mapped with
  | [] => []
  | entry :: r =>
      let '(ranked, st') := rank_entry st entry idx in
      ranked :: map_rank st' (idx + 1) r
  end.

Definition assign_ranks (mapped : list Entry.t) : list Ranked.t :=
  map_rank rank_init 0 mapped.

(** *** The listing *)

Definition listing (json : ProviderJson) : NextResponse.t :=
  let mapped :=
    map map_profile
        (match profiles json with Some ps => ps | None => [] end) in
  let mapped := Array_sort by_score_desc mapped in
  let ranked := assign_ranks mapped in
  let minScore := 100 in
  let totalCreators :=
    JS.or_num (pagination_total json) (Z.of_nat (List.length ranked)) in
  NextResponse.json (ListingBody ranked minScore totalCreators).

(** *** [GET] *)

Definition GET (env : Env) (searchParams : SearchParams)
  : Prog NextResponse.t :=
  if negb (JS.truthy (TALENT_API_KEY env)) then
    construct
      (NextResponse.json_init (ErrorBody "Missing Talent API key") 500)
  else
    let apiKey := JS.or_lit (TALENT_API_KEY env) "" in
    let page := parse_page searchParams in
    let perPage := parse_perPage searchParams in
    let statsOnly := parse_statsOnly searchParams in
    (res <- fetch (baseUrl ++ "?" ++ queryString page perPage)
                  (request_headers apiKey) ;;
     if negb (Response.ok res) then
       errorText <- res_text res ;;
       construct (NextResponse.json_init (ErrorBody errorText)
                                         (Response.status res))
     else
       json <- res_json res ;;
       if statsOnly then stats apiKey json
       else Ret (listing json))%prog.

(** ** Vocabulary of the properties *)

(** The ranks as a function of the scores alone: an entry of the score of
    its predecessor takes the predecessor's rank, any other its position.
    [map_rank_competition] shows that [map_rank] computes it. *)
Fixpoint competition (prevScore : option Z) (prevRank idx : Z)
  (scores : list Z) : list Z :=
  match scores with
  | [] => []
  | s :: r =>
      let rank :=
        if match prevScore with Some p => s =? p | None => false end
        then prevRank else idx + 1 in
      rank :: competition (Some s) rank (idx + 1) r
  end.

(** Non-increasing by score. *)
Definition score_desc (a b : Entry.t) : Prop := Entry.score b <= Entry.score a.

Definition ranked_desc (a b : Ranked.t) : Prop :=
  Entry.score (Ranked.entry b) <= Entry.score (Ranked.entry a).

(** How the handler completes when the last thing it does is to build the
    response it returns. *)
Definition completed {A : Type} (r : Exn + A) : Completion A :=
  match r with
  | inl e => Thrown e
  | inr a => Returned a
  end.

(** The entries a response carries (none unless it is a listing). *)
Definition response_entries (r : NextResponse.t) : list Ranked.t :=
  match NextResponse.body r with
  | ListingBody entries _ _ => entries
  | _ => []
  end.

(** The [totalCreators] field of a response, when it has one. *)
Definition response_totalCreators (r : NextResponse.t) : option Z :=
  match NextResponse.body r with
  | ListingBody _ _ t => Some t
  | StatsBody _ t _ => Some t
  | ErrorBody _ => None
  end.

(** What the variables of the rank callback satisfy before index [idx]. *)
Definition rank_inv (st : RankState) (idx : Z) : Prop :=
  (0 < ties st -> lastRank st + ties st = idx + 1)
  /\ (lastScore st <> None -> 0 < ties st).

(** ** Sample data *)

Definition sample_entry (id : string) (score : Z) : Entry.t :=
  {| Entry.name := "Unknown";
     Entry.pfp := None;
     Entry.score := score;
     Entry.rewards := "-";
     Entry.id := id;
     Entry.talent_protocol_id := id |}.

(** Scores [90, 90, 80, 70]. *)
Definition sample_mapped : list Entry.t :=
  [sample_entry "a" 90; sample_entry "b" 90;
   sample_entry "c" 80; sample_entry "d" 70].

Definition sample_profile (id : string) (scores : option (list ScoreEntry))
  : Profile.t :=
  {| Profile.id := id;
     Profile.display_name := None;
     Profile.name := None;
     Profile.image_url := None;
     Profile.scores := scores |}.

(** Entries [creator_score: 50], [creator_score: 80], [other: 999]. *)
Definition profile_50_80 : Profile.t :=
  sample_profile "p"
    (Some [ {| slug := "creator_score"; points := Some 50 |};
            {| slug := "creator_score"; points := Some 80 |};
            {| slug := "other"; points := Some 999 |} ]).

(** No entry of the slug [creator_score]. *)
Definition profile_other : Profile.t :=
  sample_profile "q" (Some [ {| slug := "other"; points := Some 999 |} ]).


(** The points that count for profile [p]: [v] is the points value (0 when
    missing) of an entry of [p] of slug [creator_score]. *)
Definition matching_points (p : Profile.t) (v : Z) : Prop :=
  exists ss s, Profile.scores p = Some ss /\ In s ss
               /\ slug s = "creator_score"
               /\ v = match points s with Some x => x | None => 0 end.

(** The two requests of the handler. *)
Definition primary_request (apiKey : string) (searchParams : SearchParams)
  : Request :=
  {| url := baseUrl ++ "?"
            ++ queryString (parse_page searchParams)
                           (parse_perPage searchParams);
     headers := request_headers apiKey |}.

Definition eligible_request (apiKey : string) : Request :=
  {| url := baseUrl ++ "?" ++ eligibleQueryString;
     headers := request_headers apiKey |}.

(** The error caught around the second call, by the outcome of the call. *)
Definition eligible_error (o : FetchOutcome) : option Exn :=
  match o with
  | Rejected e => Some e
  | Resolved r =>
      if Response.ok r then
        match Response.json r with
        | Some _ => None
        | None => Some JsonSyntaxError
        end
      else None
  end.

(** [eligibleCreators] as [stats] reports it, by the outcome of the second
    call ([run_stats]). *)
Definition eligible_count (totalCreators : Z) (o : FetchOutcome) : Z :=
  match o with
  | Rejected _ => JS.floor_times_0_3 totalCreators
  | Resolved r =>
      if Response.ok r then
        match Response.json r with
        | Some j => JS.or_num (pagination_total j) 0
        | None => JS.floor_times_0_3 totalCreators
        end
      else 0
  end.

(** A provider given by its answers to the first and to later calls. *)
Definition provider_of (first second : FetchOutcome) : Provider :=
  fun n _ => match n with O => first | S _ => second end.

Definition ok_response (j : ProviderJson) : Response.t :=
  {| Response.status := 200; Response.text := ""; Response.json := Some j |}.

Definition error_response (status : Z) (text : string) : Response.t :=
  {| Response.status := status; Response.text := text;
     Response.json := None |}.

Definition json_of (ps : list Profile.t) (total : option Z) : ProviderJson :=
  {| profiles := Some ps; pagination := Some {| total := total |} |}.

Definition env_with_key : Env := {| TALENT_API_KEY := Some "secret" |}.

(** The number of entries of a score strictly above [s]. *)
Definition higher (mapped : list Entry.t) (s : Z) : Z :=
  Z.of_nat (List.length (filter (fun e => s <? Entry.score e) mapped)).

(** ** React hooks: effects of a callback *)

(** What a [catch] clause receives: an [Error] with its message, or a value
    that is not an [Error]. *)
Inductive Exception : Type :=
| ErrorObject (message : string)
| NonError.

(** The body of a hook callback over the events [E] (state setters and
    outside calls), an event [ev] answering in [R ev]: it finishes, throws,
    or performs an event and goes on with the answer. *)
Section Effects.
Context {E : Type} (R : E -> Type).

Inductive Eff (A : Type) : Type :=
| Done (a : A)
| Raise (e : Exception)
| Perform (ev : E) (k : R ev -> Eff A).

Arguments Done {A} a.
Arguments Raise {A} e.
Arguments Perform {A} ev k.

Fixpoint eff_bind {A B : Type} (p : Eff A) (f : A -> Eff B) : Eff B :=
  match p with
  | Done a => f a
  | Raise e => Raise e
  | Perform ev k => Perform ev (fun x => eff_bind (k x) f)
  end.

(** [try { p } catch (err) { h err }]. *)
Fixpoint eff_catch {A : Type} (p : Eff A) (h : Exception -> Eff A) : Eff A :=
  match p with
  | Done a => Done a
  | Raise e => h e
  | Perform ev k => Perform ev (fun x => eff_catch (k x) h)
  end.

(** [try { p } finally { f }]: [f] runs however [p] ends, then [p]'s
    completion stands. *)
Fixpoint eff_finally {A : Type} (p : Eff A) (f : Eff unit) : Eff A :=
  match p with
  | Done a => eff_bind f (fun _ => Done a)
  | Raise e => eff_bind f (fun _ => Raise e)
  | Perform ev k => Perform ev (fun x => eff_finally (k x) f)
  end.

(** An event with nothing to wait for. *)
Definition perform (ev : E) : Eff (R ev) := Perform ev (fun x => Done x).

(** [await] of a call that resolves or rejects. *)
Definition await {A : Type} (ev : E) (out : R ev -> A + Exception) : Eff A :=
  Perform ev (fun x => match out x with
                       | inl a => Done a
                       | inr e => Raise e
                       end).

(** Running a body: [handle] answers each event and updates the state. *)
Fixpoint exec {S A : Type} (handle : forall ev : E, S -> R ev * S)
  (p : Eff A) (s : S) : (A + Exception) * S :=
  match p with
  | Done a => (inl a, s)
  | Raise e => (inr e, s)
  | Perform ev k =>
      let '(x, s') := handle ev s in exec handle (k x) s'
  end.
End Effects.

Arguments Done {E R A} a.
Arguments Raise {E R A} e.
Arguments Perform {E R A} ev k.
Arguments eff_bind {E R A B} p f.
Arguments eff_catch {E R A} p h.
Arguments eff_finally {E R A} p f.
Arguments perform {E R} ev.
Arguments await {E R A} ev out.
Arguments exec {E R S A} handle p s.

Declare Scope eff_scope.
Delimit Scope eff_scope with eff.
Notation "x <- p ;; q" := (eff_bind p (fun x => q))
  (at level 100, p at next level, right associativity) : eff_scope.
Notation "p ;;; q" := (eff_bind p (fun _ => q))
  (at level 100, q at level 200, right associativity) : eff_scope.

(** ** [useScoreRefresh] *)

Module ScoreRefresh.

(** What [triggerScoreCalculation] resolves to. *)
Record TriggerResult : Type := {
  success : bool;
  error : option string
}.

(** The two timer callbacks of [refreshScore]: the refetch set for 1000 ms
    and, inside it, the reset set for 500 ms. *)
Inductive Callback : Type :=
| Refetch
| Reset.

Inductive Event : Type :=
| setIsRefreshing (b : bool)
| setError (e : option string)
| setSuccessMessage (m : option string)
| setHasCalledSuccess (b : bool)     (* hasCalledSuccessRef.current = b *)
| getHasCalledSuccess                (* hasCalledSuccessRef.current *)
| triggerScoreCalculation (talentUUID : string)
| onSuccess
| console_error (msg : string) (e : Exception)
| setTimeout (cb : Callback) (ms : Z).

Definition Resp (ev : Event) : Type :=
  match ev with
  | getHasCalledSuccess => bool
  | triggerScoreCalculation _ => (TriggerResult + Exception)%type
  | onSuccess => (unit + Exception)%type
  | _ => unit
  end.

Definition Body : Type -> Type := Eff Resp.

Definition emit (ev : Event) : Body (Resp ev) := @perform Event Resp ev.

Definition call {A : Type} (ev : Event) (out : Resp ev -> A + Exception)
  : Body A :=
  @await Event Resp A ev out.

(** [refreshScore], as built by a render that saw [isRefreshing];
    [has_onSuccess] tells whether the hook was given the callback. *)
Definition refreshScore (talentUUID : string) (isRefreshing : bool)
  (has_onSuccess : bool) : Body unit :=
  if negb (JS.truthy (Some talentUUID)) || isRefreshing then Done tt
  else
    eff_catch
      (emit (setIsRefreshing true) ;;;
       emit (setError None) ;;;
       emit (setSuccessMessage None) ;;;
       emit (setHasCalledSuccess false) ;;;
       result <- call (triggerScoreCalculation talentUUID) (fun x => x) ;;
       if success result then
         emit (setSuccessMessage (Some "Calculation enqueued")) ;;;
         called <- emit getHasCalledSuccess ;;
         if has_onSuccess && negb called then
           emit (setHasCalledSuccess true) ;;;
           emit (setTimeout Refetch 1000)
         else emit (setIsRefreshing false)
       else
         let errorMessage :=
           JS.or_lit (error result) "Failed to trigger calculation" in
         emit (setError (Some errorMessage)) ;;;
         emit (setIsRefreshing false))%eff
      (fun err =>
         let errorMessage :=
           match err with
           | ErrorObject message => message
           | NonError => "Failed to trigger calculation"
           end in
         emit (setError (Some errorMessage)) ;;;
         emit (setIsRefreshing false))%eff.

(** The body of a timer callback. *)
Definition callback (cb : Callback) : Body unit :=
  match cb with
  | Refetch =>
      eff_finally
        (eff_catch
           (call onSuccess (fun x => x))
           (fun error => emit (console_error "Error during score refetch:"
                                                error)))
        (emit (setTimeout Reset 500))
  | Reset => emit (setIsRefreshing false)
  end.

(** The state of the hook, the timers set and not yet run, and the events
    so far (latest first). *)
Record State : Type := {
  isRefreshing : bool;
  successMessage : option string;
  error_state : option string;
  hasCalledSuccessRef : bool;
  timers : list (Callback * Z);
  events : list Event
}.

(** [useState(false)], [useState(null)], [useRef(false)]. *)
Definition initial : State :=
  {| isRefreshing := false; successMessage := None; error_state := None;
     hasCalledSuccessRef := false; timers := []; events := [] |}.

(** The outside: what the service and the refetch answer. *)
Record World : Type := {
  trigger : string -> TriggerResult + Exception;
  refetch : unit + Exception
}.

Definition note (ev : Event) (s : State) : State :=
  {| isRefreshing := isRefreshing s; successMessage := successMessage s;
     error_state := error_state s;
     hasCalledSuccessRef := hasCalledSuccessRef s;
     timers := timers s; events := ev :: events s |}.

Definition handle (w : World) (ev : Event) (s : State) : Resp ev * State :=
  let s := note ev s in
  match ev return Resp ev * State with
  | setIsRefreshing b =>
      (tt, {| isRefreshing := b; successMessage := successMessage s;
              error_state := error_state s;
              hasCalledSuccessRef := hasCalledSuccessRef s;
              timers := timers s; events := events s |})
  | setError e =>
      (tt, {| isRefreshing := isRefreshing s;
              successMessage := successMessage s; error_state := e;
              hasCalledSuccessRef := hasCalledSuccessRef s;
              timers := timers s; events := events s |})
  | setSuccessMessage m =>
      (tt, {| isRefreshing := isRefreshing s; successMessage := m;
              error_state := error_state s;
              hasCalledSuccessRef := hasCalledSuccessRef s;
              timers := timers s; events := events s |})
  | setHasCalledSuccess b =>
      (tt, {| isRefreshing := isRefreshing s;
              successMessage := successMessage s;
              error_state := error_state s; hasCalledSuccessRef := b;
              timers := timers s; events := events s |})
  | getHasCalledSuccess => (hasCalledSuccessRef s, s)
  | triggerScoreCalculation talentUUID => (trigger w talentUUID, s)
  | onSuccess => (refetch w, s)
  | console_error _ _ => (tt, s)
  | setTimeout cb ms =>
      (tt, {| isRefreshing := isRefreshing s;
              successMessage := successMessage s;
              error_state := error_state s;
              hasCalledSuccessRef := hasCalledSuccessRef s;
              timers := (timers s ++ [(cb, ms)])%list; events := events s |})
  end.

(** The timers run one after the other, each callback to its end. *)
Fixpoint run_timers (w : World) (fuel : nat) (s : State) : State :=
  match fuel with
  | O => s
  | S n =>
      match timers s with
      | [] => s
      | (cb, _) :: rest =>
          let s1 := {| isRefreshing := isRefreshing s;
                       successMessage := successMessage s;
                       error_state := error_state s;
                       hasCalledSuccessRef := hasCalledSuccessRef s;
                       timers := rest; events := events s |} in
          run_timers w n (snd (exec (handle w) (callback cb) s1))
      end
  end.

(** A call of [refreshScore] in state [s] and all that follows from it. *)
Definition refresh (w : World) (fuel : nat) (talentUUID : string)
  (has_onSuccess : bool) (s : State) : State :=
  run_timers w fuel
    (snd (exec (handle w)
               (refreshScore talentUUID (isRefreshing s) has_onSuccess) s)).

(** The outside calls among events given latest first, earliest first. *)
Definition outside_calls (evs : list Event) : list Event :=
  filter (fun ev => match ev with
                    | triggerScoreCalculation _ | onSuccess => true
                    | _ => false
                    end)
         (rev evs).

End ScoreRefresh.

(** ** [useProfileActions] *)

Module ProfileActions.

(** A prop of type [string | null] that may also be left out. *)
Inductive nullable : Type :=
| Undefined
| Null
| Str (s : string).

(** Truthiness of such a value. *)
Definition truthy (v : nullable) : bool :=
  match v with
  | Str s => JS.truthy (Some s)
  | _ => false
  end.

(** [a + b], [a - b] and [a < b] on numbers that may be [NaN] or
    infinite. *)
Definition add (a b : JS.number) : JS.number :=
  match a, b with
  | JS.Num x, JS.Num y => JS.Num (x + y)
  | JS.Inf n, JS.Num _ | JS.Num _, JS.Inf n => JS.Inf n
  | JS.Inf n, JS.Inf n' => if Bool.eqb n n' then JS.Inf n else JS.NaN
  | _, _ => JS.NaN
  end.

Definition sub (a b : JS.number) : JS.number :=
  match a, b with
  | JS.Num x, JS.Num y => JS.Num (x - y)
  | JS.Inf n, JS.Num _ => JS.Inf n
  | JS.Num _, JS.Inf n => JS.Inf (negb n)
  | JS.Inf n, JS.Inf n' => if Bool.eqb n n' then JS.NaN else JS.Inf n
  | _, _ => JS.NaN
  end.

Definition lt (a b : JS.number) : bool :=
  match a, b with
  | JS.Num x, JS.Num y => x <? y
  | JS.Num _, JS.Inf n => negb n
  | JS.Inf n, JS.Num _ => n
  | JS.Inf n, JS.Inf n' => n && negb n'
  | _, _ => false
  end.

(** [a / b] rounded to the nearest integer, ties to even
    ([0 <= a], [0 < b]). *)
Definition round_div (a b : Z) : Z :=
  let q := a / b in
  let r := a mod b in
  if 2 * r <? b then q
  else if b <? 2 * r then q + 1
  else if Z.even q then q else q + 1.

(** The binary64 quotient [p / q] of two integers [0 < p, q < 2^53]: the
    mantissa [m] and the shift [s] of the double [m * 2^-s] nearest to the
    exact quotient, with [2^52 <= m <= 2^53] and [0 <= s]. *)
Definition quotient (p q : Z) : Z * Z :=
  let s0 := 52 + Z.log2 q - Z.log2 p in
  let s := if p * 2 ^ s0 <? q * 2 ^ 52 then s0 + 1 else s0 in
  (round_div (p * 2 ^ s) q, s).

(** [Math.ceil(p / q)] for integers [p] and [0 < q] of magnitude below
    [2^53]. *)
Definition Math_ceil_div (p q : Z) : Z :=
  if p =? 0 then 0
  else
    let '(m, s) := quotient (Z.abs p) q in
    if 0 <? p then - ((- m) / 2 ^ s) else - (m / 2 ^ s).

Section Hook.
(** [new Date(s).getTime()]: the time value of the date, [NaN] when [s]
    is not a date. *)
Variable Date_getTime : string -> JS.number.

(** [calculateCooldownTime] at the instant [currentTime]
    ([new Date().getTime()]): the value it gives to [setCooldownMinutes]. *)
Definition calculateCooldownTime (lastCalculatedAt : nullable)
  (currentTime : Z) : option Z :=
  if negb (truthy lastCalculatedAt) then None
  else
    let lastRefreshTime :=
      match lastCalculatedAt with
      | Str s => Date_getTime s
      | _ => JS.NaN
      end in
    let oneHourInMs := 60 * 60 * 1000 in
    let cooldownEndTime := add lastRefreshTime (JS.Num oneHourInMs) in
    if lt (JS.Num currentTime) cooldownEndTime then
      match sub cooldownEndTime (JS.Num currentTime) with
      | JS.Num remainingMs => Some (Math_ceil_div remainingMs (60 * 1000))
      | _ => None
      end
    else None.
End Hook.

(** [calculating || isRefreshing], as a condition. *)
Definition isCalculatingOrRefreshing (calculating : option bool)
  (isRefreshing : bool) : bool :=
  match calculating with
  | Some true => true
  | _ => isRefreshing
  end.

(** [lastCalculatedAt === null]. *)
Definition hasNeverCalculated (lastCalculatedAt : nullable) : bool :=
  match lastCalculatedAt with
  | Null => true
  | _ => false
  end.

(** [cooldownMinutes !== null && cooldownMinutes > 0]. *)
Definition isInCooldown (cooldownMinutes : option Z) : bool :=
  match cooldownMinutes with
  | Some m => 0 <? m
  | None => false
  end.

Definition buttonText (lastCalculatedAt : nullable)
  (cooldownMinutes : option Z) : string :=
  if hasNeverCalculated lastCalculatedAt then "Calculate Score"
  else if isInCooldown cooldownMinutes then
    "Refresh in "
    ++ match cooldownMinutes with
       | Some m => JS.toString (JS.Num m)
       | None => "null"
       end
    ++ "min"
  else "Refresh Score".

(** [handleRefreshScore]: the hook's [refreshScore] unless a calculation or
    a refresh is under way or the cooldown holds. *)
Definition handleRefreshScore (talentUUID : string)
  (calculating : option bool) (isRefreshing : bool)
  (cooldownMinutes : option Z) (has_refetchScore : bool)
  : ScoreRefresh.Body unit :=
  if isCalculatingOrRefreshing calculating isRefreshing
     || isInCooldown cooldownMinutes
  then Done tt
  else ScoreRefresh.refreshScore talentUUID isRefreshing has_refetchScore.

End ProfileActions.

(** ** [useProfileCreatorScore] *)

Module ProfileCreatorScore.

(** What the cache holds for a talent id. *)
Module Cache.
Record t : Type := {
  score : Z;
  lastCalculatedAt : option string
}.
End Cache.

(** What [getCreatorScoreForTalentId] resolves to. *)
Record ScoreData : Type := {
  score : Z;
  lastCalculatedAt : option string;
  error : option string
}.

Inductive Event : Type :=
| getCachedData (cacheKey : string) (duration : Z)
| setCachedData (cacheKey : string) (data : Cache.t)
| getCreatorScoreForTalentId (talentUUID : string)
| setCreatorScore (v : option Z)
| setLastCalculatedAt (v : option string)
| setLoading (b : bool)
| setError (e : option string)
| console_error (msg : string) (e : Exception).

Definition Resp (ev : Event) : Type :=
  match ev with
  | getCachedData _ _ => option Cache.t
  | getCreatorScoreForTalentId _ => (ScoreData + Exception)%type
  | _ => unit
  end.

Definition Body : Type -> Type := Eff Resp.

Definition emit (ev : Event) : Body (Resp ev) := @perform Event Resp ev.

Definition call {A : Type} (ev : Event) (out : Resp ev -> A + Exception)
  : Body A :=
  @await Event Resp A ev out.

Section Hook.
(** [CACHE_DURATIONS.SCORE_BREAKDOWN], a constant of [lib/utils]. *)
Variable SCORE_BREAKDOWN : Z.

Definition fetchScore (talentUUID : string) : Body unit :=
  let cacheKey := "creator_score_data_" ++ talentUUID in
  (cachedData <- emit (getCachedData cacheKey SCORE_BREAKDOWN) ;;
   match cachedData with
   | Some c =>
       emit (setCreatorScore (Some (Cache.score c))) ;;;
       emit (setLastCalculatedAt (Cache.lastCalculatedAt c)) ;;;
       emit (setLoading false)
   | None =>
       eff_finally
         (eff_catch
            (emit (setLoading true) ;;;
             emit (setError None) ;;;
             scoreData <- call (getCreatorScoreForTalentId talentUUID)
                               (fun x => x) ;;
             if JS.truthy (error scoreData) then
               emit (setError (error scoreData)) ;;;
               emit (setCreatorScore None) ;;;
               emit (setLastCalculatedAt None)
             else
               emit (setCreatorScore (Some (score scoreData))) ;;;
               emit (setLastCalculatedAt (lastCalculatedAt scoreData)) ;;;
               emit (setCachedData cacheKey
                       {| Cache.score := score scoreData;
                          Cache.lastCalculatedAt :=
                            lastCalculatedAt scoreData |}))
            (fun err =>
               emit (console_error "Error fetching creator score:" err) ;;;
               emit (setError
                       (Some match err with
                             | ErrorObject message => message
                             | NonError => "Failed to fetch creator score"
                             end)) ;;;
               emit (setCreatorScore None) ;;;
               emit (setLastCalculatedAt None)))
         (emit (setLoading false))
   end)%eff.

(** The effect of the hook, run when [talentUUID] changes. *)
Definition effect (talentUUID : string) : Body unit :=
  if JS.truthy (Some talentUUID) then fetchScore talentUUID else Done tt.
End Hook.

(** The state of the hook and the events so far (latest first). *)
Record State : Type := {
  creatorScore : option Z;
  lastCalculatedAt_state : option string;
  loading : bool;
  error_state : option string;
  events : list Event
}.

(** [useState(null)], [useState(null)], [useState(true)],
    [useState(null)]. *)
Definition initial : State :=
  {| creatorScore := None; lastCalculatedAt_state := None; loading := true;
     error_state := None; events := [] |}.

(** The outside: what the cache holds and what the service answers. *)
Record World : Type := {
  cache : string -> Z -> option Cache.t;
  service : string -> ScoreData + Exception
}.

Definition handle (w : World) (ev : Event) (s : State) : Resp ev * State :=
  let evs := ev :: events s in
  match ev return Resp ev * State with
  | getCachedData cacheKey duration =>
      (cache w cacheKey duration,
       {| creatorScore := creatorScore s;
          lastCalculatedAt_state := lastCalculatedAt_state s;
          loading := loading s; error_state := error_state s;
          events := evs |})
  | getCreatorScoreForTalentId talentUUID =>
      (service w talentUUID,
       {| creatorScore := creatorScore s;
          lastCalculatedAt_state := lastCalculatedAt_state s;
          loading := loading s; error_state := error_state s;
          events := evs |})
  | setCreatorScore v =>
      (tt, {| creatorScore := v;
              lastCalculatedAt_state := lastCalculatedAt_state s;
              loading := loading s; error_state := error_state s;
              events := evs |})
  | setLastCalculatedAt v =>
      (tt, {| creatorScore := creatorScore s; lastCalculatedAt_state := v;
              loading := loading s; error_state := error_state s;
              events := evs |})
  | setLoading b =>
      (tt, {| creatorScore := creatorScore s;
              lastCalculatedAt_state := lastCalculatedAt_state s;
              loading := b; error_state := error_state s; events := evs |})
  | setError e =>
      (tt, {| creatorScore := creatorScore s;
              lastCalculatedAt_state := lastCalculatedAt_state s;
              loading := loading s; error_state := e; events := evs |})
  | setCachedData _ _ | console_error _ _ =>
      (tt, {| creatorScore := creatorScore s;
              lastCalculatedAt_state := lastCalculatedAt_state s;
              loading := loading s; error_state := error_state s;
              events := evs |})
  end.

(** The calls to the service and the writes to the cache among events given
    latest first, earliest first. *)
Definition outside_calls (evs : list Event) : list Event :=
  filter (fun ev => match ev with
                    | getCreatorScoreForTalentId _ | setCachedData _ _ => true
                    | _ => false
                    end)
         (rev evs).

End ProfileCreatorScore.

(** ** [ProfileScreen] *)

Module ProfileScreen.

(** An identifier: a number or a string ([fid?: number | string]). *)
Inductive Id : Type :=
| IdNumber (n : JS.number)
| IdString (s : string).

(** Truthiness of [Id | undefined]: [0], [NaN], the empty string and
    [undefined] are falsy. *)
Definition truthy (v : option Id) : bool :=
  match v with
  | Some (IdNumber (JS.Num z)) => negb (z =? 0)
  | Some (IdNumber JS.NaN) => false
  | Some (IdNumber (JS.Inf _)) => true
  | Some (IdString s) => JS.truthy (Some s)
  | None => false
  end.

(** [a || b]. *)
Definition or (a b : option Id) : option Id := if truthy a then a else b.

(** [a ?? b]. *)
Definition nullish (a b : option Id) : option Id :=
  match a with
  | Some _ => a
  | None => b
  end.

Definition of_string (s : option string) : option Id := option_map IdString s.

(** The identifier in a template literal. *)
Definition to_string (i : option Id) : string :=
  match i with
  | Some (IdNumber n) => JS.toString n
  | Some (IdString s) => s
  | None => "undefined"
  end.

(** [!!(fidProp || walletProp || githubProp)]. *)
Definition hasIdentifier (fidProp : option Id)
  (walletProp githubProp : option string) : bool :=
  truthy (or (or fidProp (of_string walletProp)) (of_string githubProp)).

(** [hasIdentifier ? (fidProp ?? walletProp ?? githubProp) : user?.fid]. *)
Definition identifier (fidProp : option Id)
  (walletProp githubProp : option string) (user_fid : option JS.number)
  : option Id :=
  if hasIdentifier fidProp walletProp githubProp
  then nullish (nullish fidProp (of_string walletProp))
               (of_string githubProp)
  else option_map IdNumber user_fid.

(** The profile the page loads from [/api/talent-user]. *)
Record ProfileData : Type := {
  display_name : option string;
  image_url : option string;
  fid : option JS.number;
  wallet : option string;
  github : option string
}.

(** A response of [fetch], as far as the page reads it: [res.ok] and what
    [res.json()] gives ([None] for a body that is [null]). *)
Record FetchResponse : Type := {
  ok : bool;
  json : option ProfileData + Exception
}.

(** What the wallet lookups resolve to. *)
Record WalletData : Type := {
  addresses : list string;
  error : option string
}.

(** What [getCreatorScore] resolves to. *)
Record ScoreResult : Type := {
  score : option Z
}.

Inductive Event : Type :=
| setProfile (p : option ProfileData)
| setProfileLoading (b : bool)
| setProfileError (e : option string)
| setCreatorScore (v : option string)
| setScoreLoading (b : bool)
| fetch (url : string)
| getUserWalletAddresses (fid : JS.number)
| getUserWalletAddressesByWallet (wallet : string)
| getCreatorScore (addresses : list string).

Definition Resp (ev : Event) : Type :=
  match ev with
  | fetch _ => (FetchResponse + Exception)%type
  | getUserWalletAddresses _ | getUserWalletAddressesByWallet _ =>
      (WalletData + Exception)%type
  | getCreatorScore _ => (ScoreResult + Exception)%type
  | _ => unit
  end.

Definition Body : Type -> Type := Eff Resp.

Definition emit (ev : Event) : Body (Resp ev) := @perform Event Resp ev.

Definition call {A : Type} (ev : Event) (out : Resp ev -> A + Exception)
  : Body A :=
  @await Event Resp A ev out.

(** The effect that loads the profile of [identifier]. *)
Definition loadProfile (identifier : option Id) : Body unit :=
  if negb (truthy identifier) then Done tt
  else
    (emit (setProfileLoading true) ;;;
     emit (setProfileError None) ;;;
     eff_finally
       (eff_catch
          (res <- call (fetch ("/api/talent-user?id=" ++ to_string identifier))
                       (fun x => x) ;;
           data <- (if ok res
                    then match json res with
                         | inl d => Done d
                         | inr e => Raise e
                         end
                    else Done None) ;;
           match data with
           | None => emit (setProfileError (Some "Profile not found"))
           | Some _ => Done tt
           end ;;;
           emit (setProfile data))
          (fun _ => emit (setProfileError (Some "Profile not found"))))
       (emit (setProfileLoading false)))%eff.

Section Score.
(** [Number(s)] on a string and [n.toLocaleString()]. *)
Variable Number_of_string : string -> JS.number.
Variable toLocaleString : Z -> string.

Definition Number (i : option Id) : JS.number :=
  match i with
  | Some (IdNumber n) => n
  | Some (IdString s) => Number_of_string s
  | None => JS.NaN
  end.

(** What follows the wallet lookup in [fetchScore]. *)
Definition scoreOfWallets (walletData : WalletData) : Body unit :=
  if JS.truthy (error walletData) then
    (emit (setCreatorScore None) ;;; emit (setScoreLoading false))%eff
  else if 0 <? Z.of_nat (List.length (addresses walletData)) then
    (scoreData <- call (getCreatorScore (addresses walletData))
                       (fun x => x) ;;
     emit (setCreatorScore
             (Some match score scoreData with
                   | Some z => toLocaleString z
                   | None => "0"
                   end)))%eff
  else emit (setCreatorScore (Some "0")).

Definition fetchScore (fidProp : option Id) (walletProp : option string)
  (profile : option ProfileData) : Body unit :=
  let effectiveFid :=
    or fidProp
       (option_map IdNumber
                   (match profile with Some p => fid p | None => None end)) in
  let effectiveWallet :=
    JS.or walletProp
          (match profile with Some p => wallet p | None => None end) in
  if negb (truthy effectiveFid) && negb (JS.truthy effectiveWallet) then
    (emit (setCreatorScore None) ;;; emit (setScoreLoading false))%eff
  else
    (emit (setScoreLoading true) ;;;
     eff_finally
       (eff_catch
          (if truthy effectiveFid then
             walletData <- call (getUserWalletAddresses (Number effectiveFid))
                                (fun x => x) ;;
             scoreOfWallets walletData
           else if JS.truthy effectiveWallet then
             walletData <- call (getUserWalletAddressesByWallet
                                   (JS.or_lit effectiveWallet ""))
                                (fun x => x) ;;
             scoreOfWallets walletData
           else
             emit (setCreatorScore None) ;;; emit (setScoreLoading false))
          (fun _ => emit (setCreatorScore None)))
       (emit (setScoreLoading false)))%eff.
End Score.

(** The state the two effects write, and the events so far (latest
    first). *)
Record State : Type := {
  profile : option ProfileData;
  profileLoading : bool;
  profileError : option string;
  creatorScore : option string;
  scoreLoading : bool;
  events : list Event
}.

(** [useState(null)], [useState(false)] and so on. *)
Definition initial : State :=
  {| profile := None; profileLoading := false; profileError := None;
     creatorScore := None; scoreLoading := false; events := [] |}.

(** The outside: the page's API and the three services. *)
Record World : Type := {
  api : string -> FetchResponse + Exception;
  walletsOfFid : JS.number -> WalletData + Exception;
  walletsOfWallet : string -> WalletData + Exception;
  scoreOf : list string -> ScoreResult + Exception
}.

Definition handle (w : World) (ev : Event) (s : State) : Resp ev * State :=
  let evs := ev :: events s in
  match ev return Resp ev * State with
  | setProfile p =>
      (tt, {| profile := p; profileLoading := profileLoading s;
              profileError := profileError s;
              creatorScore := creatorScore s;
              scoreLoading := scoreLoading s; events := evs |})
  | setProfileLoading b =>
      (tt, {| profile := profile s; profileLoading := b;
              profileError := profileError s;
              creatorScore := creatorScore s;
              scoreLoading := scoreLoading s; events := evs |})
  | setProfileError e =>
      (tt, {| profile := profile s; profileLoading := profileLoading s;
              profileError := e; creatorScore := creatorScore s;
              scoreLoading := scoreLoading s; events := evs |})
  | setCreatorScore v =>
      (tt, {| profile := profile s; profileLoading := profileLoading s;
              profileError := profileError s; creatorScore := v;
              scoreLoading := scoreLoading s; events := evs |})
  | setScoreLoading b =>
      (tt, {| profile := profile s; profileLoading := profileLoading s;
              profileError := profileError s;
              creatorScore := creatorScore s; scoreLoading := b;
              events := evs |})
  | fetch url =>
      (api w url,
       {| profile := profile s; profileLoading := profileLoading s;
          profileError := profileError s; creatorScore := creatorScore s;
          scoreLoading := scoreLoading s; events := evs |})
  | getUserWalletAddresses fid =>
      (walletsOfFid w fid,
       {| profile := profile s; profileLoading := profileLoading s;
          profileError := profileError s; creatorScore := creatorScore s;
          scoreLoading := scoreLoading s; events := evs |})
  | getUserWalletAddressesByWallet a =>
      (walletsOfWallet w a,
       {| profile := profile s; profileLoading := profileLoading s;
          profileError := profileError s; creatorScore := creatorScore s;
          scoreLoading := scoreLoading s; events := evs |})
  | getCreatorScore l =>
      (scoreOf w l,
       {| profile := profile s; profileLoading := profileLoading s;
          profileError := profileError s; creatorScore := creatorScore s;
          scoreLoading := scoreLoading s; events := evs |})
  end.

(** The outside calls among events given latest first, earliest first. *)
Definition outside_calls (evs : list Event) : list Event :=
  filter (fun ev => match ev with
                    | fetch _ | getUserWalletAddresses _
                    | getUserWalletAddressesByWallet _
                    | getCreatorScore _ => true
                    | _ => false
                    end)
         (rev evs).

Section Accounts.
(** A social account (the type is [talentService]'s) and its
    [followerCount]. *)
Variable SocialAccount : Type.
Variable followerCount : SocialAccount -> option Z.

(** [(a, b) => (b.followerCount ?? 0) - (a.followerCount ?? 0)]. *)
Definition by_followers_desc (a b : SocialAccount) : Z :=
  JS.nullish (followerCount b) 0 - JS.nullish (followerCount a) 0.

(** What [fetchAccounts] gives to [setSocialAccounts], by the outcome of
    [getSocialAccountsForFarcaster]. *)
Definition fetchAccounts (outcome : list SocialAccount + Exception)
  : list SocialAccount :=
  match outcome with
  | inl accounts => Array_sort by_followers_desc accounts
  | inr _ => []
  end.

(** [socialAccounts.reduce((sum, acc) => sum + (acc.followerCount ?? 0), 0)]. *)
Definition totalFollowers (socialAccounts : list SocialAccount) : Z :=
  fold_left (fun sum acc => sum + JS.nullish (followerCount acc) 0)
            socialAccounts 0.
End Accounts.

End ProfileScreen.
(** ** Properties *)

(** *** [Math.max] *)

Lemma Math_max_fold (xs : list Z) (a : Z) :
  fold_left
    (fun acc x => Some (match acc with Some a => Z.max a x | None => x end))
    xs (Some a)
  = Some (fold_left Z.max xs a).
Proof.
  revert a; induction xs as [|x xs IH]; intros a; simpl; [reflexivity|].
  apply IH.
Qed.

Lemma Math_max_cons (x : Z) (xs : list Z) :
  JS.Math_max (x :: xs) = Some (fold_left Z.max xs x).
Proof. unfold JS.Math_max; simpl. apply Math_max_fold. Qed.

Lemma fold_max_ge (xs : list Z) (a : Z) :
  a <= fold_left Z.max xs a /\ Forall (fun x => x <= fold_left Z.max xs a) xs.
Proof.
  revert a; induction xs as [|x xs IH]; intros a; simpl.
  - split; [lia | constructor].
  - destruct (IH (Z.max a x)) as [Ha Hxs]. split; [lia|].
    constructor; [lia | exact Hxs].
Qed.

Lemma fold_max_in (xs : list Z) (a : Z) :
  fold_left Z.max xs a = a \/ In (fold_left Z.max xs a) xs.
Proof.
  revert a; induction xs as [|x xs IH]; intros a; simpl; [now left|].
  destruct (IH (Z.max a x)) as [H | H]; [|now right; right].
  rewrite H. destruct (Z.max_spec a x) as [[_ E] | [_ E]]; rewrite E; auto.
Qed.

(** The score of a profile with a matching entry is the greatest of the
    matching points; without one it is 0. *)
Lemma profile_score_spec (p : Profile.t) :
  (creatorScores p = [] -> profile_score p = 0)
  /\ (creatorScores p <> [] ->
      In (profile_score p) (creatorScores p)
      /\ Forall (fun x => x <= profile_score p) (creatorScores p)).
Proof.
  unfold profile_score. destruct (creatorScores p) as [|x xs].
  - split; [reflexivity | congruence].
  - split; [discriminate | intros _].
    replace (0 <? Z.of_nat (List.length (x :: xs))) with true
      by (symmetry; apply Z.ltb_lt; simpl List.length; lia).
    rewrite Math_max_cons.
    destruct (fold_max_ge xs x) as [Hx Hxs].
    split.
    + destruct (fold_max_in xs x) as [E | E]; [rewrite E; now left | now right].
    + constructor; assumption.
Qed.

(** [creatorScores] holds exactly the points that count. *)
Lemma creatorScores_In (p : Profile.t) (v : Z) :
  In v (creatorScores p) <-> matching_points p v.
Proof.
  unfold matching_points, creatorScores. destruct (Profile.scores p) as [ss|].
  - rewrite in_map_iff. split.
    + intros [s [E H]]. apply filter_In in H. destruct H as [H1 H2].
      apply String.eqb_eq in H2. exists ss, s. repeat split; auto.
    + intros [ss' [s [E [H1 [H2 H3]]]]]. inversion E; subst ss'.
      exists s. split; [symmetry; exact H3|].
      apply filter_In. split; [exact H1 | now apply String.eqb_eq].
  - split; [intros [] | intros [ss [s [E _]]]; discriminate].
Qed.
(** *** Sorting *)

Lemma insert_perm (x : Entry.t) (l : list Entry.t) :
  Permutation (insert by_score_desc x l) (x :: l).
Proof.
  induction l as [|y r IH]; simpl; [reflexivity|].
  destruct (0 <? by_score_desc x y); [|reflexivity].
  rewrite IH. apply perm_swap.
Qed.

Lemma Array_sort_perm (l : list Entry.t) :
  Permutation (Array_sort by_score_desc l) l.
Proof.
  induction l as [|x r IH]; simpl; [reflexivity|].
  rewrite insert_perm. now constructor.
Qed.

Lemma insert_sorted (x : Entry.t) (l : list Entry.t) :
  StronglySorted score_desc l ->
  StronglySorted score_desc (insert by_score_desc x l).
Proof.
  induction 1 as [|y r Hr IH Hy]; simpl.
  - repeat constructor.
  - unfold by_score_desc at 1.
    destruct (Z.ltb_spec 0 (Entry.score y - Entry.score x)) as [Hlt | Hge].
    + constructor; [exact IH|].
      eapply Permutation_Forall; [symmetry; apply insert_perm|].
      constructor; [unfold score_desc; lia | exact Hy].
    + constructor; [now constructor|].
      constructor; [unfold score_desc; lia|].
      eapply Forall_impl; [|exact Hy].
      unfold score_desc; intros; lia.
Qed.

Lemma Array_sort_sorted (l : list Entry.t) :
  StronglySorted score_desc (Array_sort by_score_desc l).
Proof.
  induction l as [|x r IH]; simpl; [constructor | now apply insert_sorted].
Qed.

(** *** Rank assignment *)

Lemma map_rank_entries (mapped : list Entry.t) :
  forall st idx, map Ranked.entry (map_rank st idx mapped) = mapped.
Proof.
  induction mapped as [|e r IH]; intros st idx; simpl; [reflexivity|].
  destruct (rank_entry st e idx) as [x st'] eqn:E. simpl.
  rewrite IH. f_equal.
  unfold rank_entry in E. destruct (same_score e st); inversion E; reflexivity.
Qed.

Lemma map_rank_length (mapped : list Entry.t) (st : RankState) (idx : Z) :
  List.length (map_rank st idx mapped) = List.length mapped.
Proof.
  rewrite <- (map_rank_entries mapped st idx) at 2. now rewrite length_map.
Qed.

Lemma map_rank_competition (mapped : list Entry.t) :
  forall st idx, rank_inv st idx ->
    map Ranked.rank (map_rank st idx mapped)
    = competition (lastScore st) (lastRank st) idx (map Entry.score mapped).
Proof.
  induction mapped as [|e r IH]; intros st idx [Hties Hsome]; simpl;
    [reflexivity|].
  unfold rank_entry, same_score.
  destruct (lastScore st) as [p|] eqn:Els.
  - assert (Hpos : 0 < ties st) by (apply Hsome; discriminate).
    destruct (Entry.score e =? p) eqn:Eeq; simpl.
    + apply Z.eqb_eq in Eeq. rewrite IH; simpl; [now rewrite Eeq|].
      split; simpl; intros; lia.
    + replace (0 <? ties st) with true by (symmetry; now apply Z.ltb_lt).
      rewrite IH; simpl.
      * f_equal; [lia|]. f_equal. lia.
      * split; simpl; intros; lia.
  - destruct (Z.ltb_spec 0 (ties st)) as [Hpos | Hnp]; simpl.
    + rewrite IH; simpl.
      * f_equal; [lia|]. f_equal. lia.
      * split; simpl; intros; lia.
    + rewrite IH; simpl; [reflexivity|].
      split; simpl; intros; lia.
Qed.

Lemma assign_ranks_competition (mapped : list Entry.t) :
  map Ranked.rank (assign_ranks mapped)
  = competition None 0 0 (map Entry.score mapped).
Proof.
  unfold assign_ranks. rewrite map_rank_competition; [reflexivity|].
  split; simpl; [lia | congruence].
Qed.

(** Every rank is at most the position (counted from 1). *)
Lemma competition_le (scores : list Z) :
  forall ps pr idx i, pr <= idx ->
    (i < List.length scores)%nat ->
    nth i (competition ps pr idx scores) 0 <= idx + Z.of_nat i + 1.
Proof.
  induction scores as [|s r IH]; intros ps pr idx i Hpr Hi; simpl in *;
    [lia|].
  destruct i as [|i].
  - destruct (match ps with Some p => s =? p | None => false end); lia.
  - specialize (IH (Some s)
                   (if match ps with Some p => s =? p | None => false end
                    then pr else idx + 1)
                   (idx + 1) i).
    etransitivity; [apply IH|]; try lia.
    destruct (match ps with Some p => s =? p | None => false end); lia.
Qed.

(** The rank of an entry after the first: its predecessor's on an equal
    score, its own position otherwise. *)
Lemma competition_step (scores : list Z) :
  forall ps pr idx i,
    (S i < List.length scores)%nat ->
    nth (S i) (competition ps pr idx scores) 0
    = if nth (S i) scores 0 =? nth i scores 0
      then nth i (competition ps pr idx scores) 0
      else idx + Z.of_nat (S i) + 1.
Proof.
  induction scores as [|s r IH]; intros ps pr idx i Hi; simpl in Hi; [lia|].
  destruct i as [|i].
  - destruct r as [|s' r]; simpl in Hi; [lia|]. simpl.
    destruct (s' =? s); [reflexivity | lia].
  - change (competition ps pr idx (s :: r))
      with (let rank :=
              if match ps with Some p => s =? p | None => false end
              then pr else idx + 1 in
            rank :: competition (Some s) rank (idx + 1) r).
    cbv zeta.
    change (nth (S (S i)) (s :: r) 0) with (nth (S i) r 0).
    change (nth (S i) (s :: r) 0) with (nth i r 0).
    cbn [nth]. rewrite IH by lia.
    destruct (nth (S i) r 0 =? nth i r 0); [reflexivity | lia].
Qed.

(** C1 -- Rank assignment.  On entries sorted non-increasingly by score the
    ranked entries are the same entries in the same order, each with a rank:
    the first rank is 1; two consecutive entries have equal ranks exactly
    when they have equal scores; an entry whose score differs from its
    predecessor's has its 1-based position as rank, which is the rank of the
    first entry [j] of the preceding tied group plus the size of that group.
    Scores [90, 90, 80, 70] give ranks [1, 1, 3, 4], no entry gives no rank
    and a single entry gives rank 1. *)
Theorem rank_assignment_competition (mapped : list Entry.t) :
  StronglySorted score_desc mapped ->
  let ranked := assign_ranks mapped in
  let score := fun i => nth i (map Entry.score mapped) 0 in
  let rank := fun i => nth i (map Ranked.rank ranked) 0 in
  (List.length ranked = List.length mapped
   /\ map Ranked.entry ranked = mapped)
  /\ (mapped <> [] -> rank 0%nat = 1)
  /\ (forall i, (S i < List.length mapped)%nat ->
        (rank (S i) = rank i <-> score (S i) = score i))
  /\ (forall i, (S i < List.length mapped)%nat ->
        score (S i) <> score i ->
        rank (S i) = Z.of_nat (S i) + 1
        /\ forall j, (j <= i)%nat ->
             (forall k, (j <= k <= i)%nat -> score k = score i) ->
             (j = 0%nat \/ score (Nat.pred j) <> score j) ->
             rank (S i) = rank j + Z.of_nat (S i - j))
  /\ (map Entry.score mapped = [90; 90; 80; 70] ->
      map Ranked.rank ranked = [1; 1; 3; 4])
  /\ (mapped = [] -> ranked = [])
  /\ (forall e, mapped = [e] -> map Ranked.rank ranked = [1]).
Proof.
  intros _ ranked score rank.
  assert (Hrank : forall i, rank i
            = nth i (competition None 0 0 (map Entry.score mapped)) 0).
  { intros i. unfold rank, ranked. now rewrite assign_ranks_competition. }
  assert (Hlen : List.length (map Entry.score mapped) = List.length mapped)
    by apply length_map.
  assert (Hfirst : mapped <> [] -> rank 0%nat = 1).
  { intros Hne. rewrite Hrank. destruct mapped as [|e r]; [congruence|].
    reflexivity. }
  assert (Hstep : forall i, (S i < List.length mapped)%nat ->
            rank (S i) = if score (S i) =? score i then rank i
                         else Z.of_nat (S i) + 1).
  { intros i Hi. rewrite !Hrank. unfold score.
    rewrite competition_step by (rewrite Hlen; exact Hi). reflexivity. }
  assert (Hle : forall i, (i < List.length mapped)%nat ->
            rank i <= Z.of_nat i + 1).
  { intros i Hi. rewrite Hrank.
    pose proof (competition_le (map Entry.score mapped) None 0 0 i) as H.
    rewrite Hlen in H. specialize (H (Z.le_refl 0) Hi). lia. }
  split; [|split; [|split; [|split; [|split; [|split]]]]].
  - split; [apply map_rank_length | apply map_rank_entries].
  - exact Hfirst.
  - intros i Hi. rewrite (Hstep i Hi).
    destruct (Z.eqb_spec (score (S i)) (score i)) as [E | N].
    + tauto.
    + assert (rank i <= Z.of_nat i + 1) by (apply Hle; lia).
      split; [lia | tauto].
  - intros i Hi Hne.
    assert (Hpos : rank (S i) = Z.of_nat (S i) + 1).
    { rewrite (Hstep i Hi).
      destruct (Z.eqb_spec (score (S i)) (score i)); [tauto | reflexivity]. }
    split; [exact Hpos|].
    intros j Hj _ Hstart.
    assert (Hrj : rank j = Z.of_nat j + 1).
    { destruct j as [|j].
      - apply Hfirst. intros E; rewrite E in Hi; simpl in Hi; lia.
      - destruct Hstart as [E | Hd]; [discriminate|]. simpl in Hd.
        rewrite (Hstep j) by lia.
        destruct (Z.eqb_spec (score (S j)) (score j)); [congruence | lia]. }
    rewrite Hpos, Hrj. lia.
  - intros E. unfold ranked. rewrite assign_ranks_competition, E. reflexivity.
  - intros E. unfold ranked. now rewrite E.
  - intros e E. unfold ranked. rewrite assign_ranks_competition, E.
    reflexivity.
Qed.

Lemma rank_assignment_competition_witness :
  StronglySorted score_desc sample_mapped
  /\ map Ranked.rank (assign_ranks sample_mapped) = [1; 1; 3; 4].
Proof.
  assert (H : StronglySorted score_desc sample_mapped).
  { unfold sample_mapped, score_desc.
    repeat (constructor; simpl); lia. }
  split; [exact H|].
  apply (rank_assignment_competition sample_mapped H). reflexivity.
Defined.

(** C2 -- Score extraction.  The score of a profile is the greatest points
    value among its entries of slug [creator_score] (a missing value counting
    as 0) when there is such an entry, and 0 when there is none; the entry
    built for the profile carries that score.  Entries
    [creator_score: 50, creator_score: 80, other: 999] give 80 and a profile
    without the slug gives 0. *)
Theorem creator_score_extraction :
  (forall p : Profile.t,
      ((exists v, matching_points p v) ->
       matching_points p (profile_score p)
       /\ forall v, matching_points p v -> v <= profile_score p)
      /\ ((forall v, ~ matching_points p v) -> profile_score p = 0)
      /\ Entry.score (map_profile p) = profile_score p)
  /\ profile_score profile_50_80 = 80
  /\ profile_score profile_other = 0.
Proof.
  split; [|split; reflexivity].
  intros p. destruct (profile_score_spec p) as [Hnil Hcons].
  split; [|split; [|reflexivity]].
  - intros [v Hv]. apply creatorScores_In in Hv.
    assert (Hne : creatorScores p <> []) by (intros E; now rewrite E in Hv).
    destruct (Hcons Hne) as [Hin Hall]. split.
    + now apply creatorScores_In.
    + intros w Hw. apply creatorScores_In in Hw.
      rewrite Forall_forall in Hall. now apply Hall.
  - intros Hnone. apply Hnil.
    destruct (creatorScores p) as [|x xs] eqn:E; [reflexivity|].
    exfalso. apply (Hnone x). apply creatorScores_In. rewrite E. now left.
Qed.

(** *** The shape of [GET] and of its runs *)

Lemma GET_without_key (env : Env) (searchParams : SearchParams) :
  JS.truthy (TALENT_API_KEY env) = false ->
  GET env searchParams
  = Ret {| NextResponse.body := ErrorBody "Missing Talent API key";
           NextResponse.status := 500 |}.
Proof. intros H. unfold GET. now rewrite H. Qed.

(** With a key the handler starts by the primary call and goes on by its
    outcome. *)
Lemma GET_with_key (env : Env) (searchParams : SearchParams) :
  JS.truthy (TALENT_API_KEY env) = true ->
  exists k,
    GET env searchParams
    = Fetch (primary_request (JS.or_lit (TALENT_API_KEY env) "") searchParams)
            k
    /\ (forall e, k (Rejected e) = Throw e)
    /\ (forall res, Response.ok res = false ->
          k (Resolved res)
          = construct
              (NextResponse.json_init (ErrorBody (Response.text res))
                                      (Response.status res)))
    /\ (forall res, Response.ok res = true -> Response.json res = None ->
          k (Resolved res) = Throw JsonSyntaxError)
    /\ (forall res json, Response.ok res = true ->
          Response.json res = Some json ->
          k (Resolved res)
          = if parse_statsOnly searchParams
            then stats (JS.or_lit (TALENT_API_KEY env) "") json
            else Ret (listing json)).
Proof.
  intros H. unfold GET. rewrite H. simpl.
  eexists. split; [reflexivity|].
  split; [reflexivity|].
  split; [|split].
  - intros res Hok. simpl. now rewrite Hok.
  - intros res Hok Hj. simpl. rewrite Hok. unfold res_json. now rewrite Hj.
  - intros res json Hok Hj. simpl. rewrite Hok. unfold res_json.
    now rewrite Hj.
Qed.

(** The statistics make one call and always answer. *)
Lemma run_stats (apiKey : string) (json : ProviderJson)
      (provider : Provider) (n : nat) :
  let totalCreators := JS.or_num (pagination_total json) 0 in
  let o := provider n (eligible_request apiKey) in
  run_from (stats apiKey json) provider n
  = {| result :=
         Returned (NextResponse.json
                     (StatsBody 100 totalCreators
                                (eligible_count totalCreators o)));
       calls := [eligible_request apiKey];
       logged := match eligible_error o with
                 | Some e => [("Failed to fetch eligible creators count:", e)]
                 | None => []
                 end |}.
Proof.
  intros totalCreators o. unfold stats, fetch.
  cbn [bind try_catch run_from result calls logged].
  change (provider n {| url := baseUrl ++ "?" ++ eligibleQueryString;
                        headers := request_headers apiKey |}) with o.
  fold totalCreators.
  destruct o as [e | r]; cbn [bind try_catch run_from result calls logged
                              eligible_count eligible_error];
    [reflexivity|].
  unfold res_json.
  destruct (Response.ok r); [destruct (Response.json r)|]; reflexivity.
Qed.

Section RunGET.
Variables (env : Env) (searchParams : SearchParams) (provider : Provider).

Let apiKey : string := JS.or_lit (TALENT_API_KEY env) "".
Let primary : Request := primary_request apiKey searchParams.

Lemma run_GET_without_key :
  JS.truthy (TALENT_API_KEY env) = false ->
  run (GET env searchParams) provider
  = {| result :=
         Returned {| NextResponse.body := ErrorBody "Missing Talent API key";
                     NextResponse.status := 500 |};
       calls := [];
       logged := [] |}.
Proof. intros H. now rewrite GET_without_key. Qed.

Hypothesis key_present : JS.truthy (TALENT_API_KEY env) = true.

Lemma run_GET_rejected (e : Exn) :
  provider 0%nat primary = Rejected e ->
  run (GET env searchParams) provider
  = {| result := Thrown e; calls := [primary]; logged := [] |}.
Proof.
  intros Ho. destruct (GET_with_key env searchParams key_present)
    as (k & -> & Hrej & _).
  unfold run. cbn [run_from]. fold apiKey. fold primary.
  rewrite Ho, Hrej. reflexivity.
Qed.

Lemma run_GET_not_ok (res : Response.t) :
  provider 0%nat primary = Resolved res ->
  Response.ok res = false ->
  run (GET env searchParams) provider
  = {| result :=
         completed (NextResponse.json_init (ErrorBody (Response.text res))
                                           (Response.status res));
       calls := [primary];
       logged := [] |}.
Proof.
  intros Ho Hok. destruct (GET_with_key env searchParams key_present)
    as (k & -> & _ & Hbad & _).
  unfold run. cbn [run_from]. fold apiKey. fold primary.
  rewrite Ho, (Hbad res Hok).
  now destruct (NextResponse.json_init _ _).
Qed.

Lemma run_GET_not_json (res : Response.t) :
  provider 0%nat primary = Resolved res ->
  Response.ok res = true ->
  Response.json res = None ->
  run (GET env searchParams) provider
  = {| result := Thrown JsonSyntaxError; calls := [primary]; logged := [] |}.
Proof.
  intros Ho Hok Hj. destruct (GET_with_key env searchParams key_present)
    as (k & -> & _ & _ & Hnj & _).
  unfold run. cbn [run_from]. fold apiKey. fold primary.
  rewrite Ho, (Hnj res Hok Hj). reflexivity.
Qed.

Lemma run_GET_listing (res : Response.t) (json : ProviderJson) :
  provider 0%nat primary = Resolved res ->
  Response.ok res = true ->
  Response.json res = Some json ->
  parse_statsOnly searchParams = false ->
  run (GET env searchParams) provider
  = {| result := Returned (listing json);
       calls := [primary];
       logged := [] |}.
Proof.
  intros Ho Hok Hj Hs. destruct (GET_with_key env searchParams key_present)
    as (k & -> & _ & _ & _ & Hgood).
  unfold run. cbn [run_from]. fold apiKey. fold primary.
  rewrite Ho, (Hgood res json Hok Hj), Hs. reflexivity.
Qed.

Lemma run_GET_stats (res : Response.t) (json : ProviderJson) :
  provider 0%nat primary = Resolved res ->
  Response.ok res = true ->
  Response.json res = Some json ->
  parse_statsOnly searchParams = true ->
  let totalCreators := JS.or_num (pagination_total json) 0 in
  let o := provider 1%nat (eligible_request apiKey) in
  run (GET env searchParams) provider
  = {| result :=
         Returned (NextResponse.json
                     (StatsBody 100 totalCreators
                                (eligible_count totalCreators o)));
       calls := [primary; eligible_request apiKey];
       logged :=
         match eligible_error o with
         | Some e => [("Failed to fetch eligible creators count:", e)]
         | None => []
         end |}.
Proof.
  intros Ho Hok Hj Hs totalCreators o.
  destruct (GET_with_key env searchParams key_present)
    as (k & -> & _ & _ & _ & Hgood).
  unfold run. cbn [run_from]. fold apiKey. fold primary.
  rewrite Ho, (Hgood res json Hok Hj), Hs. fold apiKey.
  rewrite run_stats. reflexivity.
Qed.

(** Whatever the provider does, a run ends in one of these five ways. *)
Lemma run_GET_result :
  match result (run (GET env searchParams) provider) with
  | Thrown _ => True
  | Returned r =>
      (exists res, provider 0%nat primary = Resolved res
                   /\ Response.ok res = false
                   /\ r = {| NextResponse.body :=
                              ErrorBody (Response.text res);
                            NextResponse.status := Response.status res |})
      \/ (exists res json, provider 0%nat primary = Resolved res
                   /\ Response.json res = Some json
                   /\ parse_statsOnly searchParams = false
                   /\ r = listing json)
      \/ (exists res json e, provider 0%nat primary = Resolved res
                   /\ Response.json res = Some json
                   /\ parse_statsOnly searchParams = true
                   /\ r = NextResponse.json
                            (StatsBody 100
                               (JS.or_num (pagination_total json) 0) e))
  end.
Proof.
  destruct (provider 0%nat primary) as [e | res] eqn:Ho.
  - now rewrite (run_GET_rejected e Ho).
  - destruct (Response.ok res) eqn:Hok.
    + destruct (Response.json res) as [json|] eqn:Hj.
      * destruct (parse_statsOnly searchParams) eqn:Hs.
        -- rewrite (run_GET_stats res json Ho Hok Hj Hs). cbn [result].
           right; right. exists res, json. eexists. repeat split; eauto.
        -- rewrite (run_GET_listing res json Ho Hok Hj Hs). cbn [result].
           right; left. exists res, json. repeat split; auto.
      * now rewrite (run_GET_not_json res Ho Hok Hj).
    + rewrite (run_GET_not_ok res Ho Hok). cbn [result].
      unfold NextResponse.json_init.
      destruct (negb _); [exact I|].
      destruct (NextResponse.null_body_status _); [exact I|].
      left. exists res. repeat split; auto.
Qed.
End RunGET.

(** In listing mode the handler makes the primary call and nothing else. *)
Lemma run_GET_listing_effects (env : Env) (searchParams : SearchParams)
      (provider : Provider) :
  JS.truthy (TALENT_API_KEY env) = true ->
  parse_statsOnly searchParams = false ->
  calls (run (GET env searchParams) provider)
  = [primary_request (JS.or_lit (TALENT_API_KEY env) "") searchParams]
  /\ logged (run (GET env searchParams) provider) = [].
Proof.
  intros Hkey Hs.
  destruct (provider 0%nat
              (primary_request (JS.or_lit (TALENT_API_KEY env) "")
                               searchParams)) as [e | res] eqn:Ho.
  - rewrite (run_GET_rejected env searchParams provider Hkey e Ho). now split.
  - destruct (Response.ok res) eqn:Hok.
    + destruct (Response.json res) as [json|] eqn:Hj.
      * rewrite (run_GET_listing env searchParams provider Hkey res json
                                 Ho Hok Hj Hs). now split.
      * rewrite (run_GET_not_json env searchParams provider Hkey res
                                  Ho Hok Hj). now split.
    + rewrite (run_GET_not_ok env searchParams provider Hkey res Ho Hok).
      now split.
Qed.

(** C4 (amended) -- Failure of the primary query.  When the provider
    answers the primary query (the same in listing and in statistics mode)
    by a non-success status, the handler has made that one call and no other,
    has logged nothing, and returns neither entries nor statistics.  For a
    status from 300 to 599 other than 304 it returns an error response of
    that status whose error is the provider's body.  For the status 304,
    which allows no body, and for a status below 200 or above 599, which
    no response can take, building the error response throws: the handler
    returns nothing. *)
Theorem primary_failure_propagates (env : Env) (searchParams : SearchParams)
        (provider : Provider) (res : Response.t) :
  JS.truthy (TALENT_API_KEY env) = true ->
  provider 0%nat
    (primary_request (JS.or_lit (TALENT_API_KEY env) "") searchParams)
  = Resolved res ->
  Response.ok res = false ->
  let r := run (GET env searchParams) provider in
  (300 <= Response.status res <= 599 -> Response.status res <> 304 ->
     result r
     = Returned {| NextResponse.body := ErrorBody (Response.text res);
                   NextResponse.status := Response.status res |})
  /\ (Response.status res = 304 -> result r = Thrown TypeError)
  /\ (Response.status res < 200 \/ 599 < Response.status res ->
        result r = Thrown RangeError)
  /\ calls r
     = [primary_request (JS.or_lit (TALENT_API_KEY env) "") searchParams]
  /\ logged r = []
  /\ (forall resp, result r = Returned resp ->
        response_entries resp = [] /\ response_totalCreators resp = None).
Proof.
  intros Hkey Ho Hok r. unfold r.
  rewrite (run_GET_not_ok env searchParams provider Hkey res Ho Hok).
  cbn [result calls logged].
  unfold NextResponse.json_init, NextResponse.null_body_status.
  cbn [existsb].
  repeat split.
  - intros Hr Hn.
    replace ((200 <=? Response.status res) && (Response.status res <=? 599))
      with true by (symmetry; apply andb_true_iff; split; apply Z.leb_le; lia).
    repeat match goal with
           | |- context [Response.status res =? ?c] =>
               replace (Response.status res =? c) with false
                 by (symmetry; apply Z.eqb_neq; lia)
           end.
    reflexivity.
  - intros ->. reflexivity.
  - intros Hr.
    replace ((200 <=? Response.status res) && (Response.status res <=? 599))
      with false; [reflexivity|].
    symmetry. apply andb_false_iff.
    destruct Hr; [left; apply Z.leb_gt | right; apply Z.leb_gt]; lia.
  - destruct (negb _); [discriminate|].
    destruct (_ || _); [discriminate|].
    cbn [completed] in H. inversion H. reflexivity.
  - destruct (negb _); [discriminate|].
    destruct (_ || _); [discriminate|].
    cbn [completed] in H. inversion H. reflexivity.
Qed.

Lemma primary_failure_propagates_witness :
  let r := run (GET env_with_key [("statsOnly", "true")])
               (provider_of (Resolved (error_response 503 "unavailable"))
                            (Rejected FetchFailed)) in
  result r = Returned {| NextResponse.body := ErrorBody "unavailable";
                         NextResponse.status := 503 |}
  /\ List.length (calls r) = 1%nat.
Proof.
  destruct (primary_failure_propagates
              env_with_key [("statsOnly", "true")]
              (provider_of (Resolved (error_response 503 "unavailable"))
                           (Rejected FetchFailed))
              (error_response 503 "unavailable")
              eq_refl eq_refl eq_refl) as (Hret & _ & _ & Hcalls & _).
  split.
  - apply Hret; cbn; lia.
  - cbn zeta. rewrite Hcalls. reflexivity.
Defined.

(** C4 (counterexample) -- A status no response with a body can take: the
    provider answers 304 (or 600), the handler throws and returns no error
    response. *)
Lemma not_modified_counterexample :
  let run_at := fun status =>
    run (GET env_with_key [])
        (provider_of (Resolved (error_response status "not modified"))
                     (Rejected FetchFailed)) in
  Response.ok (error_response 304 "not modified") = false
  /\ result (run_at 304) = Thrown TypeError
  /\ result (run_at 304)
     <> Returned {| NextResponse.body := ErrorBody "not modified";
                    NextResponse.status := 304 |}
  /\ result (run_at 600) = Thrown RangeError.
Proof.
  cbn zeta. repeat split; try reflexivity. discriminate.
Qed.

(** C5 -- Missing credential.  Without an API key in the environment the
    handler, whatever the page, page size and statistics flag of the
    request, is the immediate return of the error
    [Missing Talent API key] with status 500: it makes no provider call. *)
Theorem missing_key_configuration_error (env : Env)
        (searchParams : SearchParams) :
  JS.truthy (TALENT_API_KEY env) = false ->
  GET env searchParams
  = Ret {| NextResponse.body := ErrorBody "Missing Talent API key";
           NextResponse.status := 500 |}
  /\ forall provider,
       run (GET env searchParams) provider
       = {| result :=
              Returned {| NextResponse.body :=
                            ErrorBody "Missing Talent API key";
                          NextResponse.status := 500 |};
            calls := [];
            logged := [] |}.
Proof.
  intros H. split.
  - now rewrite GET_without_key.
  - intros provider. now rewrite run_GET_without_key.
Qed.

Lemma missing_key_configuration_error_witness :
  JS.truthy (TALENT_API_KEY {| TALENT_API_KEY := None |}) = false
  /\ GET {| TALENT_API_KEY := None |}
         [("page", "3"); ("per_page", "50"); ("statsOnly", "true")]
     = Ret {| NextResponse.body := ErrorBody "Missing Talent API key";
              NextResponse.status := 500 |}.
Proof.
  split; [reflexivity|].
  apply (missing_key_configuration_error
           {| TALENT_API_KEY := None |}
           [("page", "3"); ("per_page", "50"); ("statsOnly", "true")]).
  reflexivity.
Defined.

Lemma listing_entries (json : ProviderJson) :
  response_entries (listing json)
  = assign_ranks
      (Array_sort by_score_desc
         (map map_profile
              (match profiles json with Some ps => ps | None => [] end))).
Proof. reflexivity. Qed.

Lemma listing_length (json : ProviderJson) :
  List.length (response_entries (listing json))
  = List.length (match profiles json with Some ps => ps | None => [] end).
Proof.
  rewrite listing_entries. unfold assign_ranks. rewrite map_rank_length.
  rewrite (Permutation_length (Array_sort_perm _)). apply length_map.
Qed.

(** C10 -- [totalCreators].  After a successful primary query, the listing
    reports the pagination total of the provider when there is one and it
    is not 0, and otherwise (no pagination, no total, or a total of 0) the
    number of entries of the page, one per profile; the statistics report
    the pagination total, and 0 when there is none. *)
Theorem totalCreators_fallback (env : Env) (searchParams : SearchParams)
        (provider : Provider) (res : Response.t) (json : ProviderJson) :
  JS.truthy (TALENT_API_KEY env) = true ->
  provider 0%nat
    (primary_request (JS.or_lit (TALENT_API_KEY env) "") searchParams)
  = Resolved res ->
  Response.ok res = true ->
  Response.json res = Some json ->
  let r := result (run (GET env searchParams) provider) in
  (parse_statsOnly searchParams = false ->
   exists resp,
     r = Returned resp
     /\ List.length (response_entries resp)
        = List.length (match profiles json with Some ps => ps | None => [] end)
     /\ (forall p t, pagination json = Some p -> total p = Some t ->
           t <> 0 -> response_totalCreators resp = Some t)
     /\ (pagination json = None
         \/ (exists p, pagination json = Some p
                       /\ (total p = None \/ total p = Some 0)) ->
         response_totalCreators resp
         = Some (Z.of_nat (List.length (response_entries resp)))))
  /\ (parse_statsOnly searchParams = true ->
      exists resp,
        r = Returned resp
        /\ response_entries resp = []
        /\ (forall p t, pagination json = Some p -> total p = Some t ->
              response_totalCreators resp = Some t)
        /\ (pagination json = None
            \/ (exists p, pagination json = Some p /\ total p = None) ->
            response_totalCreators resp = Some 0)).
Proof.
  intros Hkey Ho Hok Hj r. unfold r. split; intros Hs.
  - rewrite (run_GET_listing env searchParams provider Hkey res json
                             Ho Hok Hj Hs).
    exists (listing json). split; [reflexivity|].
    split; [apply listing_length|].
    unfold listing, response_totalCreators, response_entries, JS.or_num,
      pagination_total.
    cbn [NextResponse.body NextResponse.json].
    split.
    + intros p t -> -> Ht.
      destruct (Z.eqb_spec t 0); [contradiction | reflexivity].
    + intros [-> | (p & -> & [-> | ->])]; reflexivity.
  - rewrite (run_GET_stats env searchParams provider Hkey res json
                           Ho Hok Hj Hs).
    eexists. split; [reflexivity|]. split; [reflexivity|].
    unfold response_totalCreators, JS.or_num, pagination_total.
    cbn [NextResponse.body NextResponse.json].
    split.
    + intros p t -> ->. destruct (Z.eqb_spec t 0); congruence.
    + intros [-> | (p & -> & ->)]; reflexivity.
Qed.

(** A provider that reports one profile and a total of 7: the listing and
    the statistics report 7.  Without pagination the listing reports its
    one entry and the statistics 0. *)
Lemma totalCreators_fallback_witness :
  let answer := fun searchParams json =>
    result (run (GET env_with_key searchParams)
                (provider_of (Resolved (ok_response json))
                             (Rejected FetchFailed))) in
  let counted := json_of [profile_50_80] (Some 7) in
  let bare := {| profiles := Some [profile_50_80]; pagination := None |} in
  (exists resp, answer [] counted = Returned resp
                /\ response_totalCreators resp = Some 7)
  /\ (exists resp, answer [("statsOnly", "true")] counted = Returned resp
                   /\ response_totalCreators resp = Some 7)
  /\ (exists resp, answer [] bare = Returned resp
                   /\ response_totalCreators resp = Some 1)
  /\ (exists resp, answer [("statsOnly", "true")] bare = Returned resp
                   /\ response_totalCreators resp = Some 0).
Proof.
  intros answer counted bare.
  assert (H : forall searchParams json,
            let r := answer searchParams json in
            (parse_statsOnly searchParams = false ->
             exists resp,
               r = Returned resp
               /\ List.length (response_entries resp)
                  = List.length (match profiles json with
                                 | Some ps => ps
                                 | None => []
                                 end)
               /\ (forall p t, pagination json = Some p -> total p = Some t ->
                     t <> 0 -> response_totalCreators resp = Some t)
               /\ (pagination json = None
                   \/ (exists p, pagination json = Some p
                                 /\ (total p = None \/ total p = Some 0)) ->
                   response_totalCreators resp
                   = Some (Z.of_nat (List.length (response_entries resp)))))
            /\ (parse_statsOnly searchParams = true ->
                exists resp,
                  r = Returned resp
                  /\ response_entries resp = []
                  /\ (forall p t, pagination json = Some p ->
                        total p = Some t ->
                        response_totalCreators resp = Some t)
                  /\ (pagination json = None
                      \/ (exists p, pagination json = Some p
                                    /\ total p = None) ->
                      response_totalCreators resp = Some 0))).
  { intros searchParams json.
    apply (totalCreators_fallback
             env_with_key searchParams
             (provider_of (Resolved (ok_response json)) (Rejected FetchFailed))
             (ok_response json) json); reflexivity. }
  repeat split.
  - destruct (H [] counted) as [Hl _].
    destruct (Hl eq_refl) as (resp & E & _ & Ht & _).
    exists resp. split; [exact E|].
    apply (Ht {| total := Some 7 |} 7); [reflexivity | reflexivity | lia].
  - destruct (H [("statsOnly", "true")] counted) as [_ Hst].
    destruct (Hst eq_refl) as (resp & E & _ & Ht & _).
    exists resp. split; [exact E|].
    apply (Ht {| total := Some 7 |} 7); reflexivity.
  - destruct (H [] bare) as [Hl _].
    destruct (Hl eq_refl) as (resp & E & Hlen & _ & Hn).
    exists resp. split; [exact E|].
    rewrite Hn by (left; reflexivity). rewrite Hlen. reflexivity.
  - destruct (H [("statsOnly", "true")] bare) as [_ Hst].
    destruct (Hst eq_refl) as (resp & E & _ & _ & Hn).
    exists resp. split; [exact E|].
    apply Hn. left. reflexivity.
Defined.

(** *** [Math.floor(t * 0.3)] *)

Lemma round_shift_near (m s : Z) :
  0 <= m -> 0 < s ->
  m - 2 ^ (s - 1) <= JS.round_shift m s * 2 ^ s <= m + 2 ^ (s - 1).
Proof.
  intros Hm Hs. unfold JS.round_shift.
  replace (s <=? 0) with false by (symmetry; apply Z.leb_gt; lia).
  rewrite Z.shiftr_div_pow2, !Z.shiftl_mul_pow2 by lia.
  assert (Hpow : 2 ^ s = 2 * 2 ^ (s - 1)).
  { replace s with (Z.succ (s - 1)) at 1 by lia. apply Z.pow_succ_r. lia. }
  assert (Hp : 0 < 2 ^ (s - 1)) by (apply Z.pow_pos_nonneg; lia).
  pose proof (Z.div_mod m (2 ^ s)) as Hdm.
  pose proof (Z.mod_pos_bound m (2 ^ s)) as Hmod.
  set (q := m / 2 ^ s) in *. set (r := m mod 2 ^ s) in *.
  set (P := 2 ^ (s - 1)) in *.
  assert (Hm' : m = 2 ^ s * q + r) by (apply Hdm; lia).
  assert (Hr : 0 <= r < 2 ^ s) by (apply Hmod; lia).
  rewrite Z.mul_1_l.
  replace (m - q * 2 ^ s) with r by lia.
  destruct (Z.ltb_spec r P); [lia|].
  destruct (Z.ltb_spec P r); [lia|].
  destruct (Z.even q); lia.
Qed.

Lemma c_0_3_tenfold : 10 * JS.c_0_3 = 3 * 2 ^ 54 - 2.
Proof. reflexivity. Qed.

(** On counts below [2^51] the binary64 product and its floor give the
    exact integer part of three tenths. *)
Lemma floor_times_0_3_exact (t : Z) :
  0 <= t < 2 ^ 51 -> JS.floor_times_0_3 t = 3 * t / 10.
Proof.
  intros [H0 Ht].
  destruct (Z.eq_dec t 0) as [-> | Hne]; [reflexivity|].
  assert (H1 : 1 <= t) by lia.
  unfold JS.floor_times_0_3.
  rewrite (Z.abs_eq t) by lia.
  replace (Z.sgn t) with 1 by (symmetry; apply Z.sgn_pos; lia).
  rewrite Z.mul_1_l.
  pose proof c_0_3_tenfold as Hc.
  assert (Hc52 : 2 ^ 52 <= JS.c_0_3 < 2 ^ 53)
    by (split; [apply Z.leb_le | apply Z.ltb_lt]; reflexivity).
  remember (t * JS.c_0_3) as m eqn:Em.
  assert (Hm52 : t * 2 ^ 52 <= m)
    by (subst m; apply Z.mul_le_mono_nonneg_l; lia).
  assert (Hm104 : m < 2 ^ 104).
  { change (2 ^ 104) with (2 ^ 51 * 2 ^ 53). subst m.
    apply Z.mul_lt_mono_nonneg; lia. }
  assert (Hmpos : 0 < m) by lia.
  destruct (Z.log2_spec m Hmpos) as [Hlo Hhi].
  assert (Hl52 : 52 <= Z.log2 m) by (apply Z.log2_le_pow2; lia).
  assert (Hl103 : Z.log2 m <= 103).
  { assert (Z.log2 m < 104) by (apply Z.log2_lt_pow2; lia). lia. }
  rewrite Z.max_r by lia.
  remember (Z.log2 m - 52) as s eqn:Es.
  assert (Hs : 0 <= s <= 51) by lia.
  assert (Hts : t * 2 ^ 52 < 2 ^ (s + 1) * 2 ^ 52).
  { rewrite <- Z.pow_add_r by lia.
    replace (s + 1 + 52) with (Z.succ (Z.log2 m)) by lia. lia. }
  assert (Hts' : t < 2 ^ (s + 1)).
  { apply Z.mul_lt_mono_pos_r in Hts; [exact Hts | reflexivity]. }
  pose proof (Z.div_mod (3 * t) 10) as Hdm.
  pose proof (Z.mod_pos_bound (3 * t) 10) as Hmod.
  remember (3 * t / 10) as q eqn:Eq. remember ((3 * t) mod 10) as r eqn:Er.
  assert (Hq : 3 * t = 10 * q + r) by (apply Hdm; lia).
  assert (Hr : 0 <= r < 10) by (apply Hmod; lia).
  assert (H10m : 10 * m = 3 * t * 2 ^ 54 - 2 * t).
  { subst m. rewrite (Z.mul_comm t), Z.mul_assoc, Hc. ring. }
  clear Em Eq Er Hdm Hmod Hlo Hhi Hc Hc52.
  destruct (Z.eq_dec s 0) as [E0 | E0].
  - (* the product is exact and below 1 *)
    rewrite E0 in *. unfold JS.round_shift. change (0 <=? 0) with true.
    cbv iota. rewrite Z.shiftr_div_pow2 by lia. change (54 - 0) with 54.
    change (2 ^ 54) with 18014398509481984 in *.
    change (2 ^ (0 + 1)) with 2 in Hts'.
    assert (t = 1) by lia. subst t.
    assert (q = 0) by lia. subst q.
    apply Z.div_small. lia.
  - assert (Hs1 : 0 < s) by lia.
    pose proof (round_shift_near m s (Z.lt_le_incl _ _ Hmpos) Hs1) as Hnear.
    remember (JS.round_shift m s) as R eqn:ER. clear ER.
    rewrite Z.shiftr_div_pow2 by lia.
    assert (Hpow : 2 ^ s = 2 * 2 ^ (s - 1)).
    { replace s with (Z.succ (s - 1)) at 1 by lia. apply Z.pow_succ_r. lia. }
    assert (Hpow1 : 2 ^ (s + 1) = 2 * 2 ^ s).
    { replace (s + 1) with (Z.succ s) by lia. apply Z.pow_succ_r. lia. }
    assert (HK : 2 ^ (54 - s) * 2 ^ s = 2 ^ 54).
    { rewrite <- Z.pow_add_r by lia. f_equal. lia. }
    assert (Hp51 : 2 ^ (s - 1) <= 2 ^ 50) by (apply Z.pow_le_mono_r; lia).
    assert (HP : 0 < 2 ^ (s - 1)) by (apply Z.pow_pos_nonneg; lia).
    assert (HD : 0 < 2 ^ (54 - s)) by (apply Z.pow_pos_nonneg; lia).
    remember (2 ^ (s - 1)) as P eqn:EP.
    remember (2 ^ (54 - s)) as D eqn:ED.
    remember (2 ^ s) as S2 eqn:ES2.
    remember (2 ^ (s + 1)) as S4 eqn:ES4.
    clear EP ED ES2 ES4 Es.
    change (2 ^ 54) with 18014398509481984 in *.
    change (2 ^ 50) with 1125899906842624 in *.
    change (2 ^ 52) with 4503599627370496 in *.
    symmetry. apply Z.div_unique with (r := R - q * D); [|lia].
    left. split.
    + (* [q * D <= R] *)
      apply Z.le_0_sub. apply Z.nlt_ge. intros Hlt.
      assert (HX : R * S2 <= (q * D - 1) * S2)
        by (apply Z.mul_le_mono_nonneg_r; lia).
      replace ((q * D - 1) * S2) with (q * (D * S2) - S2) in HX by ring.
      rewrite HK in HX. lia.
    + (* [R < (q + 1) * D] *)
      apply Z.nle_gt. intros Hge.
      assert (HX : (q + 1) * D * S2 <= R * S2)
        by (apply Z.mul_le_mono_nonneg_r; lia).
      replace ((q + 1) * D * S2) with ((q + 1) * (D * S2)) in HX by ring.
      rewrite HK in HX. lia.
Qed.

Example floor_times_0_3_1000 : JS.floor_times_0_3 1000 = 300.
Proof. reflexivity. Qed.

(** *** Statistics by the outcome of the second call *)

Section StatsOutcome.
Variables (env : Env) (searchParams : SearchParams) (provider : Provider).
Variables (res : Response.t) (json : ProviderJson).

Let apiKey : string := JS.or_lit (TALENT_API_KEY env) "".
Let totalCreators : Z := JS.or_num (pagination_total json) 0.

Hypothesis key_present : JS.truthy (TALENT_API_KEY env) = true.
Hypothesis stats_only : parse_statsOnly searchParams = true.
Hypothesis primary_resolved :
  provider 0%nat (primary_request apiKey searchParams) = Resolved res.
Hypothesis primary_ok : Response.ok res = true.
Hypothesis primary_json : Response.json res = Some json.

(** The second call throws (no response, or a body that is not JSON): the
    estimate is reported and the error is logged. *)
Lemma stats_estimate_on_throw (e : Exn) :
  eligible_error (provider 1%nat (eligible_request apiKey)) = Some e ->
  run (GET env searchParams) provider
  = {| result :=
         Returned
           {| NextResponse.body :=
                StatsBody 100 totalCreators
                          (JS.floor_times_0_3 totalCreators);
              NextResponse.status := 200 |};
       calls := [primary_request apiKey searchParams;
                 eligible_request apiKey];
       logged := [("Failed to fetch eligible creators count:", e)] |}.
Proof.
  intros He.
  rewrite (run_GET_stats env searchParams provider key_present res json
                         primary_resolved primary_ok primary_json
                         stats_only).
  fold apiKey. fold totalCreators. rewrite He.
  destruct (provider 1%nat (eligible_request apiKey)) as [e' | r2];
    [reflexivity|].
  simpl in He |- *. destruct (Response.ok r2); [|discriminate].
  destruct (Response.json r2); [discriminate | reflexivity].
Qed.

(** The second call is answered by a non-success status: 0 is reported
    and nothing is logged. *)
Lemma stats_zero_on_error_status (r2 : Response.t) :
  provider 1%nat (eligible_request apiKey) = Resolved r2 ->
  Response.ok r2 = false ->
  run (GET env searchParams) provider
  = {| result :=
         Returned
           {| NextResponse.body := StatsBody 100 totalCreators 0;
              NextResponse.status := 200 |};
       calls := [primary_request apiKey searchParams;
                 eligible_request apiKey];
       logged := [] |}.
Proof.
  intros Ho Hok.
  rewrite (run_GET_stats env searchParams provider key_present res json
                         primary_resolved primary_ok primary_json
                         stats_only).
  fold apiKey. fold totalCreators. rewrite Ho. simpl. rewrite Hok.
  reflexivity.
Qed.

(** The second call succeeds: its pagination total is reported. *)
Lemma stats_count_on_success (r2 : Response.t) (j2 : ProviderJson) :
  provider 1%nat (eligible_request apiKey) = Resolved r2 ->
  Response.ok r2 = true ->
  Response.json r2 = Some j2 ->
  run (GET env searchParams) provider
  = {| result :=
         Returned
           {| NextResponse.body :=
                StatsBody 100 totalCreators
                          (JS.or_num (pagination_total j2) 0);
              NextResponse.status := 200 |};
       calls := [primary_request apiKey searchParams;
                 eligible_request apiKey];
       logged := [] |}.
Proof.
  intros Ho Hok Hj.
  rewrite (run_GET_stats env searchParams provider key_present res json
                         primary_resolved primary_ok primary_json
                         stats_only).
  fold apiKey. fold totalCreators. rewrite Ho. simpl. rewrite Hok, Hj.
  reflexivity.
Qed.
End StatsOutcome.

(** C3 -- Statistics when the eligible-count query fails.  The primary query
    reports a total of 1000 and the provider answers the eligible-count query
    by status 500: the handler returns the statistics with
    [eligibleCreators = 0], not the estimate 300, and logs nothing.  (When
    the call throws instead, the estimate is reported:
    [stats_estimate_on_throw].) *)
Theorem stats_error_status_reports_zero :
  run (GET env_with_key [("statsOnly", "true")])
      (provider_of (Resolved (ok_response (json_of [] (Some 1000))))
                   (Resolved (error_response 500 "Internal Server Error")))
  = {| result :=
         Returned {| NextResponse.body := StatsBody 100 1000 0;
                     NextResponse.status := 200 |};
       calls := [primary_request "secret" [("statsOnly", "true")];
                 eligible_request "secret"];
       logged := [] |}
  /\ JS.floor_times_0_3 1000 = 300
  /\ result
       (run (GET env_with_key [("statsOnly", "true")])
            (provider_of (Resolved (ok_response (json_of [] (Some 1000))))
                         (Rejected FetchFailed)))
     = Returned {| NextResponse.body := StatsBody 100 1000 300;
                   NextResponse.status := 200 |}.
Proof.
  split; [|split; [reflexivity|]].
  - apply (stats_zero_on_error_status
             env_with_key [("statsOnly", "true")]
             (provider_of (Resolved (ok_response (json_of [] (Some 1000))))
                          (Resolved (error_response 500
                                                    "Internal Server Error")))
             (ok_response (json_of [] (Some 1000)))
             (json_of [] (Some 1000))
             eq_refl eq_refl eq_refl eq_refl eq_refl
             (error_response 500 "Internal Server Error"));
      reflexivity.
  - rewrite (stats_estimate_on_throw
               env_with_key [("statsOnly", "true")]
               (provider_of (Resolved (ok_response (json_of [] (Some 1000))))
                            (Rejected FetchFailed))
               (ok_response (json_of [] (Some 1000)))
               (json_of [] (Some 1000))
               eq_refl eq_refl eq_refl eq_refl eq_refl FetchFailed eq_refl).
    reflexivity.
Qed.

(** *** The listing *)

Lemma ranked_desc_of_entries (l : list Ranked.t) :
  StronglySorted score_desc (map Ranked.entry l) ->
  StronglySorted ranked_desc l.
Proof.
  induction l as [|x r IH]; simpl; intros H; [constructor|].
  inversion H as [|? ? Hr Hx]; subst. constructor; [now apply IH|].
  rewrite Forall_map in Hx. exact Hx.
Qed.

Lemma listing_strongly_sorted (json : ProviderJson) :
  StronglySorted ranked_desc (response_entries (listing json)).
Proof.
  apply ranked_desc_of_entries. rewrite listing_entries.
  unfold assign_ranks. rewrite map_rank_entries. apply Array_sort_sorted.
Qed.

(** The entries of a listing are those built from the profiles. *)
Lemma listing_entry_of_profile (json : ProviderJson) (e : Entry.t) :
  In e (map Ranked.entry (response_entries (listing json)))
  <-> exists p,
        In p (match profiles json with Some ps => ps | None => [] end)
        /\ e = map_profile p.
Proof.
  rewrite listing_entries. unfold assign_ranks. rewrite map_rank_entries.
  split.
  - intros H. apply (Permutation_in _ (Array_sort_perm _)) in H.
    apply in_map_iff in H. destruct H as [p [E Hp]]. now exists p.
  - intros [p [Hp E]].
    apply (Permutation_in _ (Permutation_sym (Array_sort_perm _))).
    apply in_map_iff. now exists p.
Qed.

(** C7 -- Order of the listing.  The entries of a listing are ordered
    non-increasingly by score: every entry has a score at least that of each
    later entry, of the next one in particular.  So are the entries of any
    response the handler returns, whatever the environment, the request and
    the provider. *)
Theorem listing_sorted_by_score :
  (forall json : ProviderJson,
      StronglySorted ranked_desc (response_entries (listing json))
      /\ Sorted ranked_desc (response_entries (listing json)))
  /\ (forall (env : Env) (searchParams : SearchParams) (provider : Provider),
         match result (run (GET env searchParams) provider) with
         | Returned r => Sorted ranked_desc (response_entries r)
         | Thrown _ => True
         end).
Proof.
  split.
  - intros json. split; [apply listing_strongly_sorted|].
    apply StronglySorted_Sorted, listing_strongly_sorted.
  - intros env searchParams provider.
    destruct (JS.truthy (TALENT_API_KEY env)) eqn:Hkey.
    + pose proof (run_GET_result env searchParams provider Hkey) as H.
      destruct (result (run (GET env searchParams) provider)) as [r | e];
        [|exact I].
      destruct H as [(res & _ & _ & ->) | [(res & json & _ & _ & _ & ->)
                                          | (res & json & e & _ & _ & _ & ->)]].
      * constructor.
      * apply StronglySorted_Sorted, listing_strongly_sorted.
      * constructor.
    + rewrite (run_GET_without_key env searchParams provider Hkey).
      constructor.
Qed.





(** *** Request parameters *)

(** [parseInt] reads back the decimal numeral of any integer. *)
Lemma digits_of_uint_acc (d : Decimal.uint) :
  forall p : positive,
    JS.digits (NilEmpty.string_of_uint d) (Some (Z.pos p))
    = Some (Z.pos (Pos.of_uint_acc d p)).
Proof.
  induction d; intros p; cbn [NilEmpty.string_of_uint Pos.of_uint_acc];
    [reflexivity | ..];
    (cbn [JS.digits]; match goal with
     | |- context [JS.digit ?c] =>
         let v := eval vm_compute in (JS.digit c) in
         change (JS.digit c) with v
     end; cbv iota; cbn [JS.nullish];
     match goal with
     | |- JS.digits _ (Some ?a) = Some (Z.pos (Pos.of_uint_acc _ ?q)) =>
         replace a with (Z.pos q) by lia
     end; apply IHd).
Qed.

Lemma digits_of_uint (d : Decimal.uint) :
  forall acc, acc = None \/ acc = Some 0 ->
    JS.digits (NilEmpty.string_of_uint d) acc
    = match d with
      | Decimal.Nil => acc
      | _ => Some (Z.of_N (Pos.of_uint d))
      end.
Proof.
  induction d; intros acc Hacc; [reflexivity | ..];
    cbn [NilEmpty.string_of_uint JS.digits Pos.of_uint];
    match goal with
    | |- context [JS.digit ?c] =>
        let v := eval vm_compute in (JS.digit c) in
        change (JS.digit c) with v
    end; cbv iota;
    (replace (JS.nullish acc 0) with 0
       by (destruct Hacc; subst acc; reflexivity));
    cbn [Z.mul Z.add Z.of_N];
    try apply digits_of_uint_acc.
  (* a leading 0 *)
  rewrite IHd by (now right). destruct d; reflexivity.
Qed.

Lemma trim_start_digit (c : ascii) (s : string) :
  JS.digit c <> None -> JS.trim_start (String c s) = String c s.
Proof.
  intros H. cbn [JS.trim_start].
  replace (JS.is_space c) with false; [reflexivity|].
  unfold JS.digit, JS.is_space in *.
  destruct ((48 <=? JS.code c) && (JS.code c <=? 57)) eqn:E; [|congruence].
  apply andb_prop in E. destruct E as [E1 E2].
  apply Z.leb_le in E1. apply Z.leb_le in E2.
  symmetry. apply orb_false_intro; [apply orb_false_intro|].
  - apply andb_false_intro2. apply Z.leb_gt. lia.
  - apply Z.eqb_neq. lia.
  - apply Z.eqb_neq. lia.
Qed.

Lemma parseInt_of_uint (d : Decimal.uint) :
  d <> Decimal.Nil ->
  JS.parseInt (NilEmpty.string_of_uint d)
  = JS.of_integer 1 (Z.of_N (Pos.of_uint d))
  /\ JS.parseInt (String "-" (NilEmpty.string_of_uint d))
     = JS.of_integer (-1) (Z.of_N (Pos.of_uint d)).
Proof.
  intros Hd.
  pose proof (digits_of_uint d None (or_introl eq_refl)) as Hdig.
  split.
  - unfold JS.parseInt.
    destruct d; [congruence | ..];
      cbn [NilEmpty.string_of_uint] in *;
      (rewrite trim_start_digit by (vm_compute; discriminate));
      cbv iota beta; rewrite Hdig; reflexivity.
  - unfold JS.parseInt.
    change (JS.trim_start (String "-" (NilEmpty.string_of_uint d)))
      with (String "-" (NilEmpty.string_of_uint d)).
    cbv iota beta. rewrite Hdig.
    destruct d; [congruence | ..]; reflexivity.
Qed.

(** The numeral of any integer parses to the double nearest to it. *)
Lemma parseInt_decimal (z : Z) :
  JS.parseInt (JS.decimal z)
  = JS.of_integer (if z <? 0 then -1 else 1) (Z.abs z).
Proof.
  unfold JS.decimal. destruct z as [|p|p]; [reflexivity | ..];
    cbn [Z.to_int NilEmpty.string_of_int Z.ltb Z.compare Z.abs];
    destruct (parseInt_of_uint (Pos.to_uint p)
                               (DecimalPos.Unsigned.to_uint_nonnil p))
      as [Hpos Hneg];
    rewrite DecimalPos.Unsigned.of_to in *; assumption.
Qed.

(** An integer up to [2^53] is a double. *)
Lemma round53_small (m : Z) : 0 <= m <= 2 ^ 53 -> JS.round53 m = m.
Proof.
  intros H. destruct (Z.eq_dec m (2 ^ 53)) as [-> | Hn]; [reflexivity|].
  unfold JS.round53.
  assert (Hlog : Z.log2 m <= 52).
  { destruct (Z.eq_dec m 0) as [-> | H0]; [cbn; lia|].
    apply Z.lt_succ_r. apply Z.log2_lt_pow2; lia. }
  rewrite Z.max_l by lia. unfold JS.round_shift.
  change (0 <=? 0) with true. cbv iota. change (2 ^ 0) with 1. lia.
Qed.

Lemma of_integer_small (sign m : Z) :
  0 <= m <= 2 ^ 53 -> JS.of_integer sign m = JS.Num (sign * m).
Proof.
  intros H. unfold JS.of_integer. rewrite (round53_small m H). cbv zeta.
  replace (2 ^ 1024 <=? m) with false; [reflexivity|].
  symmetry. apply Z.leb_gt.
  apply Z.le_lt_trans with (2 ^ 53); [lia|].
  apply Z.pow_lt_mono_r; lia.
Qed.

(** Up to [2^53] the numeral of an integer parses to that integer. *)
Lemma parseInt_decimal_exact (z : Z) :
  Z.abs z <= 2 ^ 53 -> JS.parseInt (JS.decimal z) = JS.Num z.
Proof.
  intros H. rewrite parseInt_decimal, of_integer_small by lia.
  f_equal. destruct (Z.ltb_spec z 0); lia.
Qed.

Lemma parseInt_toString (z : Z) :
  Z.abs z <= 2 ^ 53 -> JS.parseInt (JS.toString (JS.Num z)) = JS.Num z.
Proof.
  intros H. unfold JS.toString.
  replace (Z.abs z <=? 2 ^ 53) with true by (symmetry; now apply Z.leb_le).
  now apply parseInt_decimal_exact.
Qed.

(** A value whose first character is neither white space, a sign nor a
    digit has no integer prefix. *)
Lemma parseInt_no_prefix (c : ascii) (s : string) :
  JS.is_space c = false -> c <> "-"%char -> c <> "+"%char ->
  JS.digit c = None ->
  JS.parseInt (String c s) = JS.NaN.
Proof.
  intros Hsp Hm Hp Hd.
  assert (Hdig : JS.digits (String c s) None = None)
    by (cbn [JS.digits]; now rewrite Hd).
  unfold JS.parseInt. cbn [JS.trim_start]. rewrite Hsp.
  destruct c as [[] [] [] [] [] [] [] []]; try congruence;
    cbv beta iota zeta; now rewrite Hdig.
Qed.

Lemma or_lit_truthy (v d : string) : v <> "" -> JS.or_lit (Some v) d = v.
Proof.
  intros Hv. unfold JS.or_lit, JS.or, JS.truthy.
  destruct (String.eqb_spec v ""); [congruence | reflexivity].
Qed.

Lemma or_lit_falsy (a : option string) (d : string) :
  JS.truthy a = false -> JS.or_lit a d = d.
Proof. intros H. unfold JS.or_lit, JS.or. now rewrite H. Qed.

Lemma decimal_nonempty (z : Z) : JS.decimal z <> "".
Proof.
  intros E. pose proof (parseInt_decimal z) as H. rewrite E in H.
  unfold JS.of_integer in H. cbv zeta in H.
  destruct (2 ^ 1024 <=? _); discriminate.
Qed.

(** Numbers as [parseInt] reads them and as a template literal prints
    them. *)
Example parseInt_examples :
  map JS.parseInt
      ["25"; "  -3"; "+7"; "12px"; "4.9"; ""; "px";
       "9007199254740993"; "9007199254740995"; "18446744073709551616";
       "123456789012345678901234567890"]
  = [JS.Num 25; JS.Num (-3); JS.Num 7; JS.Num 12; JS.Num 4; JS.NaN; JS.NaN;
     JS.Num 9007199254740992; JS.Num 9007199254740996;
     JS.Num 18446744073709551616;
     JS.Num 123456789012345677877719597056]
  /\ JS.parseInt ("1" ++ JS.zeros 308) = JS.Num (JS.round53 (10 ^ 308))
  /\ JS.parseInt ("-1" ++ JS.zeros 309) = JS.Inf true.
Proof. vm_compute. repeat split. Qed.

Example toString_examples :
  map JS.toString
      [JS.Num 25; JS.Num (-3); JS.Num 0; JS.Num (2 ^ 53); JS.Num (2 ^ 60);
       JS.Num (2 ^ 64); JS.Num 123456789012345683968; JS.Num (10 ^ 21);
       JS.Num (- 10 ^ 21); JS.Num 99999999999999991611392;
       JS.Num 123456789012345677877719597056; JS.NaN; JS.Inf false;
       JS.Inf true]
  = ["25"; "-3"; "0"; "9007199254740992"; "1152921504606847000";
     "18446744073709552000"; "123456789012345680000"; "1e+21"; "-1e+21";
     "1e+23"; "1.2345678901234568e+29"; "NaN"; "Infinity"; "-Infinity"].
Proof. vm_compute. reflexivity. Qed.

(** C6 -- Query descriptor.  For every page and page size the descriptor of
    the listing query is the score filter [min: 1, scorer: Creator Score],
    the sort by score descending for that scorer and then by id descending,
    and the page and page size as they are; its query string holds these
    four parameters and no other.  With a key, the handler is the call of
    that query (nothing happens before it), and in listing mode it is the
    only call and nothing is logged.  A page or page size given by the
    numeral of an integer of magnitude up to [2^53] is in the query string
    by that same numeral. *)
Theorem listing_query_descriptor (env : Env) (searchParams : SearchParams)
        (page perPage : JS.number) :
  JS.truthy (TALENT_API_KEY env) = true ->
  (Data.query (data page perPage)
   = JS.VObject
       [("score",
         JS.VObject [("min", JS.VNumber (JS.Num 1));
                     ("scorer", JS.VString "Creator Score")])]
   /\ Data.sort (data page perPage)
      = JS.VObject
          [("score",
            JS.VObject [("order", JS.VString "desc");
                        ("scorer", JS.VString "Creator Score")]);
           ("id", JS.VObject [("order", JS.VString "desc")])]
   /\ Data.page (data page perPage) = page
   /\ Data.per_page (data page perPage) = perPage)
  /\ queryString page perPage
     = "query=%7B%22score%22%3A%7B%22min%22%3A1%2C%22scorer%22%3A%22Creator%20Score%22%7D%7D&sort=%7B%22score%22%3A%7B%22order%22%3A%22desc%22%2C%22scorer%22%3A%22Creator%20Score%22%7D%2C%22id%22%3A%7B%22order%22%3A%22desc%22%7D%7D&page="
       ++ JS.toString page ++ "&per_page=" ++ JS.toString perPage
  /\ (exists k,
        GET env searchParams
        = Fetch {| url := "https://api.talentprotocol.com/search/advanced/profiles?"
                          ++ queryString (parse_page searchParams)
                                         (parse_perPage searchParams);
                   headers := [("Accept", "application/json");
                               ("X-API-KEY",
                                JS.or_lit (TALENT_API_KEY env) "")] |}
                k)
  /\ (parse_statsOnly searchParams = false ->
      forall provider,
        calls (run (GET env searchParams) provider)
        = [primary_request (JS.or_lit (TALENT_API_KEY env) "") searchParams]
        /\ logged (run (GET env searchParams) provider) = [])
  /\ (forall z, Z.abs z <= 2 ^ 53 ->
        JS.toString (JS.parseInt (JS.decimal z)) = JS.decimal z).
Proof.
  intros Hkey. split; [repeat split|]. split; [reflexivity|]. split; [|split].
  - destruct (GET_with_key env searchParams Hkey) as (k & E & _).
    exists k. exact E.
  - intros Hs provider. now apply run_GET_listing_effects.
  - intros z Hz. rewrite (parseInt_decimal_exact z Hz). unfold JS.toString.
    now replace (Z.abs z <=? 2 ^ 53) with true
      by (symmetry; now apply Z.leb_le).
Qed.

(** The call for page 2 of 10 entries; and the call for a page and a page
    size beyond the integers a double holds: the page is the nearest
    double, the page size is printed with an exponent. *)
Lemma listing_query_descriptor_witness :
  (exists k,
     GET env_with_key [("page", "2"); ("perPage", "10")]
     = Fetch {| url := "https://api.talentprotocol.com/search/advanced/profiles?query=%7B%22score%22%3A%7B%22min%22%3A1%2C%22scorer%22%3A%22Creator%20Score%22%7D%7D&sort=%7B%22score%22%3A%7B%22order%22%3A%22desc%22%2C%22scorer%22%3A%22Creator%20Score%22%7D%2C%22id%22%3A%7B%22order%22%3A%22desc%22%7D%7D&page=2&per_page=10";
                headers := [("Accept", "application/json");
                            ("X-API-KEY", "secret")] |}
             k)
  /\ (exists k,
        GET env_with_key [("page", "9007199254740993");
                          ("per_page", "1000000000000000000000")]
        = Fetch {| url := "https://api.talentprotocol.com/search/advanced/profiles?query=%7B%22score%22%3A%7B%22min%22%3A1%2C%22scorer%22%3A%22Creator%20Score%22%7D%7D&sort=%7B%22score%22%3A%7B%22order%22%3A%22desc%22%2C%22scorer%22%3A%22Creator%20Score%22%7D%2C%22id%22%3A%7B%22order%22%3A%22desc%22%7D%7D&page=9007199254740992&per_page=1e+21";
                   headers := [("Accept", "application/json");
                               ("X-API-KEY", "secret")] |}
                k).
Proof.
  split.
  - apply (listing_query_descriptor
             env_with_key [("page", "2"); ("perPage", "10")]
             (JS.Num 2) (JS.Num 10)).
    reflexivity.
  - apply (listing_query_descriptor
             env_with_key [("page", "9007199254740993");
                           ("per_page", "1000000000000000000000")]
             (JS.Num 2) (JS.Num 10)).
    reflexivity.
Defined.

(** C9 (counterexample) -- A page that is not a number is not replaced by
    the default: it is [NaN], and [NaN] is what the provider is asked for. *)
Lemma invalid_page_counterexample :
  parse_page [("page", "abc")] = JS.NaN
  /\ parse_page [("page", "abc")] <> JS.Num 1
  /\ parse_perPage [("per_page", "many")] <> JS.Num 25
  /\ url (primary_request "secret" [("page", "abc")])
     = "https://api.talentprotocol.com/search/advanced/profiles?query=%7B%22score%22%3A%7B%22min%22%3A1%2C%22scorer%22%3A%22Creator%20Score%22%7D%7D&sort=%7B%22score%22%3A%7B%22order%22%3A%22desc%22%2C%22scorer%22%3A%22Creator%20Score%22%7D%2C%22id%22%3A%7B%22order%22%3A%22desc%22%7D%7D&page=NaN&per_page=25".
Proof.
  split; [reflexivity|]. split; [discriminate|].
  split; [discriminate | reflexivity].
Qed.

(** C9 (amended) -- Request parameters.  A missing or empty [page] is 1; a
    missing or empty page size, read from [per_page] first and from
    [perPage] when that is missing or empty, is 25; any other value is what
    [parseInt] makes of it: the decimal numeral of an integer of magnitude
    up to [2^53] gives that integer, with no other bound (a longer numeral
    gives the double nearest to it: 9007199254740993 gives
    9007199254740992), and a value that does not start by an integer gives
    [NaN], not the default.  [statsOnly] holds exactly when the parameter
    is the string [true]. *)
Theorem request_parameter_parsing (searchParams : SearchParams) :
  (JS.truthy (get searchParams "page") = false ->
   parse_page searchParams = JS.Num 1)
  /\ (forall v, get searchParams "page" = Some v -> v <> "" ->
        parse_page searchParams = JS.parseInt v)
  /\ (JS.truthy (get searchParams "per_page") = false ->
      JS.truthy (get searchParams "perPage") = false ->
      parse_perPage searchParams = JS.Num 25)
  /\ (forall v, get searchParams "per_page" = Some v -> v <> "" ->
        parse_perPage searchParams = JS.parseInt v)
  /\ (forall v, JS.truthy (get searchParams "per_page") = false ->
        get searchParams "perPage" = Some v -> v <> "" ->
        parse_perPage searchParams = JS.parseInt v)
  /\ (parse_statsOnly searchParams = true
      <-> get searchParams "statsOnly" = Some "true")
  /\ (get searchParams "statsOnly" = None ->
      parse_statsOnly searchParams = false)
  /\ (forall z, Z.abs z <= 2 ^ 53 ->
        get searchParams "page" = Some (JS.decimal z) ->
        parse_page searchParams = JS.Num z)
  /\ (forall z, Z.abs z <= 2 ^ 53 ->
        get searchParams "per_page" = Some (JS.decimal z) ->
        parse_perPage searchParams = JS.Num z)
  /\ JS.parseInt "9007199254740993" = JS.Num 9007199254740992
  /\ JS.parseInt "1000000000000000000001" = JS.Num (10 ^ 21)
  /\ (forall c s, JS.is_space c = false -> c <> "-"%char -> c <> "+"%char ->
        JS.digit c = None -> JS.parseInt (String c s) = JS.NaN).
Proof.
  assert (Hpage : forall v, get searchParams "page" = Some v -> v <> "" ->
                    parse_page searchParams = JS.parseInt v).
  { intros v E Hv. unfold parse_page. rewrite E. now rewrite or_lit_truthy. }
  assert (Hper : forall v, get searchParams "per_page" = Some v -> v <> "" ->
                   parse_perPage searchParams = JS.parseInt v).
  { intros v E Hv. unfold parse_perPage. rewrite E. unfold JS.or at 1.
    replace (JS.truthy (Some v)) with true.
    - now rewrite or_lit_truthy.
    - unfold JS.truthy.
      destruct (String.eqb_spec v ""); [congruence | reflexivity]. }
  split; [|split; [exact Hpage|]].
  { intros H. unfold parse_page. now rewrite or_lit_falsy. }
  split; [|split; [exact Hper|]].
  { intros H1 H2. unfold parse_perPage. rewrite or_lit_falsy; [reflexivity|].
    unfold JS.or. now rewrite H1. }
  split.
  { intros v H1 E Hv. unfold parse_perPage. unfold JS.or at 1. rewrite H1, E.
    now rewrite or_lit_truthy. }
  split.
  { unfold parse_statsOnly. destruct (get searchParams "statsOnly") as [v|].
    - split; intros H.
      + apply String.eqb_eq in H. now subst v.
      + inversion H. reflexivity.
    - split; discriminate. }
  split.
  { intros H. unfold parse_statsOnly. now rewrite H. }
  split; [|split; [|split; [|split]]].
  - intros z Hz E. rewrite (Hpage _ E (decimal_nonempty z)).
    now apply parseInt_decimal_exact.
  - intros z Hz E. rewrite (Hper _ E (decimal_nonempty z)).
    now apply parseInt_decimal_exact.
  - reflexivity.
  - vm_compute. reflexivity.
  - apply parseInt_no_prefix.
Qed.

(** *** Ranks count the higher scores *)

Lemma ranks_first (mapped : list Entry.t) :
  mapped <> [] -> nth 0 (map Ranked.rank (assign_ranks mapped)) 0 = 1.
Proof.
  intros Hne. rewrite assign_ranks_competition.
  destruct mapped as [|e r]; [congruence | reflexivity].
Qed.

Lemma ranks_step (mapped : list Entry.t) (i : nat) :
  (S i < List.length mapped)%nat ->
  nth (S i) (map Ranked.rank (assign_ranks mapped)) 0
  = if nth (S i) (map Entry.score mapped) 0 =? nth i (map Entry.score mapped) 0
    then nth i (map Ranked.rank (assign_ranks mapped)) 0
    else Z.of_nat (S i) + 1.
Proof.
  intros Hi. rewrite assign_ranks_competition.
  rewrite competition_step by (now rewrite length_map). reflexivity.
Qed.

Lemma sorted_nth (mapped : list Entry.t) :
  StronglySorted score_desc mapped ->
  forall i j, (i <= j < List.length mapped)%nat ->
    nth j (map Entry.score mapped) 0 <= nth i (map Entry.score mapped) 0.
Proof.
  induction 1 as [|e r Hr IH He]; intros i j Hij; simpl in Hij; [lia|].
  destruct j as [|j].
  - assert (i = 0%nat) by lia. subst i. lia.
  - destruct i as [|i].
    + simpl. rewrite Forall_forall in He.
      assert (Hin : In (nth j r e) r) by (apply nth_In; lia).
      specialize (He _ Hin). unfold score_desc in He.
      rewrite (nth_indep _ 0 (Entry.score e)) by (rewrite length_map; lia).
      rewrite map_nth. exact He.
    + simpl. apply IH. lia.
Qed.

Lemma filter_all {A : Type} (f : A -> bool) (l : list A) :
  (forall x, In x l -> f x = true) -> filter f l = l.
Proof.
  intros H. apply forallb_filter_id. apply forallb_forall. exact H.
Qed.

Lemma filter_none {A : Type} (f : A -> bool) (l : list A) :
  (forall x, In x l -> f x = false) -> filter f l = [].
Proof.
  induction l as [|x r IH]; intros H; simpl; [reflexivity|].
  rewrite (H x) by now left. apply IH. intros y Hy. apply H. now right.
Qed.

(** In a sorted list the entries above the score at position [k] are the
    ones before the first position of that score. *)
Lemma higher_at_group_start (mapped : list Entry.t) (k : nat) :
  StronglySorted score_desc mapped ->
  (k < List.length mapped)%nat ->
  (forall i, (i < k)%nat ->
     nth k (map Entry.score mapped) 0 < nth i (map Entry.score mapped) 0) ->
  higher mapped (nth k (map Entry.score mapped) 0) = Z.of_nat k.
Proof.
  intros Hs Hk Hbefore. unfold higher.
  rewrite <- (firstn_skipn k mapped) at 1.
  rewrite filter_app, filter_all, filter_none.
  - rewrite app_nil_r, length_firstn. f_equal. lia.
  - intros x Hx. destruct (In_nth _ x x Hx) as [n [Hn E]].
    rewrite length_skipn in Hn. rewrite nth_skipn in E.
    assert (Hsc : nth (k + n) (map Entry.score mapped) 0 = Entry.score x).
    { rewrite (nth_indep _ 0 (Entry.score x)) by (rewrite length_map; lia).
      rewrite map_nth. now f_equal. }
    rewrite <- Hsc. apply Z.ltb_ge. apply sorted_nth; [exact Hs | lia].
  - intros x Hx. destruct (In_nth _ x x Hx) as [n [Hn E]].
    rewrite length_firstn in Hn. rewrite nth_firstn in E.
    replace (n <? k)%nat with true in E by (symmetry; apply Nat.ltb_lt; lia).
    assert (Hsc : nth n (map Entry.score mapped) 0 = Entry.score x).
    { rewrite (nth_indep _ 0 (Entry.score x)) by (rewrite length_map; lia).
      rewrite map_nth. now f_equal. }
    rewrite <- Hsc. apply Z.ltb_lt. apply Hbefore. lia.
Qed.

(** X1 -- Standard competition ranking: on sorted entries the rank of an
    entry is one more than the number of entries of a strictly higher
    score. *)
Theorem rank_counts_higher_scores (mapped : list Entry.t) :
  StronglySorted score_desc mapped ->
  forall i, (i < List.length mapped)%nat ->
    nth i (map Ranked.rank (assign_ranks mapped)) 0
    = 1 + higher mapped (nth i (map Entry.score mapped) 0).
Proof.
  intros Hs. induction i as [|i IH]; intros Hi.
  - rewrite ranks_first by (intros E; rewrite E in Hi; simpl in Hi; lia).
    rewrite higher_at_group_start; [reflexivity | exact Hs | exact Hi |].
    intros j Hj. lia.
  - rewrite ranks_step by exact Hi.
    destruct (Z.eqb_spec (nth (S i) (map Entry.score mapped) 0)
                         (nth i (map Entry.score mapped) 0)) as [E | N].
    + rewrite E. apply IH. lia.
    + rewrite higher_at_group_start; [lia | exact Hs | exact Hi |].
      intros j Hj.
      pose proof (sorted_nth mapped Hs j i) as H1.
      pose proof (sorted_nth mapped Hs i (S i)) as H2.
      specialize (H1 ltac:(lia)). specialize (H2 ltac:(lia)). lia.
Qed.

Lemma rank_counts_higher_scores_witness :
  nth 2 (map Ranked.rank (assign_ranks sample_mapped)) 0
  = 1 + higher sample_mapped 80.
Proof.
  apply (rank_counts_higher_scores sample_mapped).
  - unfold sample_mapped, score_desc. repeat (constructor; simpl); lia.
  - simpl. lia.
Defined.

(** *** The sort is stable *)

Lemma insert_filter_score (v : Z) (x : Entry.t) (l : list Entry.t) :
  filter (fun e => Entry.score e =? v) (insert by_score_desc x l)
  = filter (fun e => Entry.score e =? v) (x :: l).
Proof.
  induction l as [|y r IH]; [reflexivity|].
  cbn [insert]. unfold by_score_desc at 1.
  destruct (Z.ltb_spec 0 (Entry.score y - Entry.score x)) as [Hlt | Hge];
    [|reflexivity].
  cbn [filter] in *. rewrite IH.
  destruct (Z.eqb_spec (Entry.score x) v), (Z.eqb_spec (Entry.score y) v);
    try reflexivity.
  lia.
Qed.

(** X2 -- The sorted array holds the same entries, ordered non-increasingly
    by score, and the entries of any one score are in the order they had. *)
Theorem sort_stable_permutation (mapped : list Entry.t) :
  Permutation (Array_sort by_score_desc mapped) mapped
  /\ StronglySorted score_desc (Array_sort by_score_desc mapped)
  /\ forall v,
       filter (fun e => Entry.score e =? v) (Array_sort by_score_desc mapped)
       = filter (fun e => Entry.score e =? v) mapped.
Proof.
  split; [apply Array_sort_perm|]. split; [apply Array_sort_sorted|].
  intros v. induction mapped as [|x r IH]; [reflexivity|].
  cbn [Array_sort]. rewrite insert_filter_score. cbn [filter].
  now rewrite IH.
Qed.

(** *** Statistics: the estimate and the count *)

(** X3 -- When the eligible-count call throws, the statistics are returned
    all the same, with three tenths of the total (rounded down) as estimate,
    and the error is logged. *)
Theorem stats_estimate_when_call_throws (env : Env)
        (searchParams : SearchParams) (provider : Provider)
        (res : Response.t) (json : ProviderJson) (e : Exn) :
  JS.truthy (TALENT_API_KEY env) = true ->
  parse_statsOnly searchParams = true ->
  provider 0%nat
    (primary_request (JS.or_lit (TALENT_API_KEY env) "") searchParams)
  = Resolved res ->
  Response.ok res = true ->
  Response.json res = Some json ->
  eligible_error
    (provider 1%nat (eligible_request (JS.or_lit (TALENT_API_KEY env) "")))
  = Some e ->
  0 <= JS.or_num (pagination_total json) 0 < 2 ^ 51 ->
  run (GET env searchParams) provider
  = {| result :=
         Returned
           {| NextResponse.body :=
                StatsBody 100 (JS.or_num (pagination_total json) 0)
                          (3 * JS.or_num (pagination_total json) 0 / 10);
              NextResponse.status := 200 |};
       calls := [primary_request (JS.or_lit (TALENT_API_KEY env) "")
                                 searchParams;
                 eligible_request (JS.or_lit (TALENT_API_KEY env) "")];
       logged := [("Failed to fetch eligible creators count:", e)] |}.
Proof.
  intros Hkey Hs Ho Hok Hj He HT.
  rewrite (stats_estimate_on_throw env searchParams provider res json
                                   Hkey Hs Ho Hok Hj e He).
  now rewrite floor_times_0_3_exact.
Qed.

Lemma stats_estimate_when_call_throws_witness :
  result
    (run (GET env_with_key [("statsOnly", "true")])
         (provider_of (Resolved (ok_response (json_of [] (Some 1000))))
                      (Rejected FetchFailed)))
  = Returned {| NextResponse.body := StatsBody 100 1000 300;
                NextResponse.status := 200 |}.
Proof.
  rewrite (stats_estimate_when_call_throws
             env_with_key [("statsOnly", "true")]
             (provider_of (Resolved (ok_response (json_of [] (Some 1000))))
                          (Rejected FetchFailed))
             (ok_response (json_of [] (Some 1000)))
             (json_of [] (Some 1000)) FetchFailed
             eq_refl eq_refl eq_refl eq_refl eq_refl eq_refl).
  - reflexivity.
  - simpl. lia.
Defined.

(** X4 -- When the eligible-count call succeeds, the statistics report the
    pagination total of its answer (0 when there is none) and nothing is
    logged; the call asks for one profile of a score of at least 80. *)
Theorem stats_count_when_call_succeeds (env : Env)
        (searchParams : SearchParams) (provider : Provider)
        (res r2 : Response.t) (json j2 : ProviderJson) :
  JS.truthy (TALENT_API_KEY env) = true ->
  parse_statsOnly searchParams = true ->
  provider 0%nat
    (primary_request (JS.or_lit (TALENT_API_KEY env) "") searchParams)
  = Resolved res ->
  Response.ok res = true ->
  Response.json res = Some json ->
  provider 1%nat (eligible_request (JS.or_lit (TALENT_API_KEY env) ""))
  = Resolved r2 ->
  Response.ok r2 = true ->
  Response.json r2 = Some j2 ->
  run (GET env searchParams) provider
  = {| result :=
         Returned
           {| NextResponse.body :=
                StatsBody 100
                          (match pagination_total json with
                           | Some t => t
                           | None => 0
                           end)
                          (match pagination_total j2 with
                           | Some t => t
                           | None => 0
                           end);
              NextResponse.status := 200 |};
       calls := [primary_request (JS.or_lit (TALENT_API_KEY env) "")
                                 searchParams;
                 {| url := "https://api.talentprotocol.com/search/advanced/profiles?query=%7B%22score%22%3A%7B%22min%22%3A80%2C%22scorer%22%3A%22Creator%20Score%22%7D%7D&page=1&per_page=1";
                    headers := [("Accept", "application/json");
                                ("X-API-KEY",
                                 JS.or_lit (TALENT_API_KEY env) "")] |}];
       logged := [] |}.
Proof.
  intros Hkey Hs Ho Hok Hj Ho2 Hok2 Hj2.
  rewrite (stats_count_on_success env searchParams provider res json
                                  Hkey Hs Ho Hok Hj r2 j2 Ho2 Hok2 Hj2).
  assert (Hor : forall n, JS.or_num n 0
                          = match n with Some t => t | None => 0 end).
  { intros [t|]; [|reflexivity]. unfold JS.or_num.
    destruct (Z.eqb_spec t 0); congruence. }
  rewrite !Hor. reflexivity.
Qed.

Lemma stats_count_when_call_succeeds_witness :
  result
    (run (GET env_with_key [("statsOnly", "true")])
         (provider_of (Resolved (ok_response (json_of [] (Some 1000))))
                      (Resolved (ok_response (json_of [] (Some 120))))))
  = Returned {| NextResponse.body := StatsBody 100 1000 120;
                NextResponse.status := 200 |}.
Proof.
  rewrite (stats_count_when_call_succeeds
             env_with_key [("statsOnly", "true")]
             (provider_of (Resolved (ok_response (json_of [] (Some 1000))))
                          (Resolved (ok_response (json_of [] (Some 120)))))
             (ok_response (json_of [] (Some 1000)))
             (ok_response (json_of [] (Some 120)))
             (json_of [] (Some 1000)) (json_of [] (Some 120))
             eq_refl eq_refl eq_refl eq_refl eq_refl eq_refl eq_refl eq_refl).
  reflexivity.
Defined.

(** X5 -- When the primary call gets no response, or a success whose body
    is not JSON, the handler throws: it returns no response and makes no
    other call. *)
Theorem primary_throw_is_not_caught (env : Env) (searchParams : SearchParams)
        (provider : Provider) :
  JS.truthy (TALENT_API_KEY env) = true ->
  (forall e,
      provider 0%nat
        (primary_request (JS.or_lit (TALENT_API_KEY env) "") searchParams)
      = Rejected e ->
      run (GET env searchParams) provider
      = {| result := Thrown e;
           calls := [primary_request (JS.or_lit (TALENT_API_KEY env) "")
                                     searchParams];
           logged := [] |})
  /\ (forall res,
        provider 0%nat
          (primary_request (JS.or_lit (TALENT_API_KEY env) "") searchParams)
        = Resolved res ->
        Response.ok res = true -> Response.json res = None ->
        run (GET env searchParams) provider
        = {| result := Thrown JsonSyntaxError;
             calls := [primary_request (JS.or_lit (TALENT_API_KEY env) "")
                                       searchParams];
             logged := [] |}).
Proof.
  intros Hkey. split.
  - intros e Ho. exact (run_GET_rejected env searchParams provider Hkey e Ho).
  - intros res Ho Hok Hj.
    exact (run_GET_not_json env searchParams provider Hkey res Ho Hok Hj).
Qed.

Lemma primary_throw_is_not_caught_witness :
  result (run (GET env_with_key [])
              (provider_of (Rejected FetchFailed) (Rejected FetchFailed)))
  = Thrown FetchFailed.
Proof.
  destruct (primary_throw_is_not_caught
              env_with_key []
              (provider_of (Rejected FetchFailed) (Rejected FetchFailed))
              eq_refl) as [H _].
  rewrite (H FetchFailed eq_refl). reflexivity.
Defined.

(** *** What every run of [GET] does and does not do *)

(** X6 -- The handler makes at most two provider calls, each with the
    [Accept] and [X-API-KEY] headers; a second call is made only in
    statistics mode after a successful primary answer; and a line is logged
    only when that second call throws (it gets no response, or a success
    whose body is not JSON), at most once, the line of what was thrown, and
    then the statistics are returned all the same, with the estimate.  A
    non-success status of the second call is not a throw: nothing is
    logged. *)
Theorem handler_call_budget (env : Env) (searchParams : SearchParams)
        (provider : Provider) :
  let r := run (GET env searchParams) provider in
  let apiKey := JS.or_lit (TALENT_API_KEY env) "" in
  (List.length (calls r) <= 2)%nat
  /\ Forall (fun rq => headers rq = [("Accept", "application/json");
                                     ("X-API-KEY", apiKey)])
            (calls r)
  /\ (forall rq, nth_error (calls r) 1 = Some rq ->
        rq = eligible_request apiKey
        /\ parse_statsOnly searchParams = true
        /\ exists res json,
             provider 0%nat (primary_request apiKey searchParams)
             = Resolved res
             /\ Response.ok res = true /\ Response.json res = Some json)
  /\ (List.length (logged r) <= 1)%nat
  /\ (logged r <> [] ->
      List.length (calls r) = 2%nat
      /\ exists totalCreators,
           result r
           = Returned
               {| NextResponse.body :=
                    StatsBody 100 totalCreators
                              (JS.floor_times_0_3 totalCreators);
                  NextResponse.status := 200 |})
  /\ (logged r <> [] ->
      exists e,
        logged r = [("Failed to fetch eligible creators count:", e)]
        /\ (provider 1%nat (eligible_request apiKey) = Rejected e
            \/ (e = JsonSyntaxError
                /\ exists r2,
                     provider 1%nat (eligible_request apiKey) = Resolved r2
                     /\ Response.ok r2 = true
                     /\ Response.json r2 = None)))
  /\ (forall r2,
        provider 1%nat (eligible_request apiKey) = Resolved r2 ->
        Response.ok r2 = false ->
        logged r = []).
Proof.
  intros r apiKey. unfold r.
  destruct (JS.truthy (TALENT_API_KEY env)) eqn:Hkey.
  2:{ rewrite (run_GET_without_key env searchParams provider Hkey).
      cbn [calls logged List.length nth_error].
      repeat split; try lia; try constructor; try discriminate; congruence. }
  destruct (provider 0%nat (primary_request apiKey searchParams))
    as [e | res] eqn:Ho.
  { rewrite (run_GET_rejected env searchParams provider Hkey e Ho).
    cbn [calls logged List.length nth_error].
    repeat split; try lia; try discriminate; try congruence.
    repeat constructor. }
  destruct (Response.ok res) eqn:Hok.
  2:{ rewrite (run_GET_not_ok env searchParams provider Hkey res Ho Hok).
      cbn [calls logged List.length nth_error].
      repeat split; try lia; try discriminate; try congruence.
      repeat constructor. }
  destruct (Response.json res) as [json|] eqn:Hj.
  2:{ rewrite (run_GET_not_json env searchParams provider Hkey res Ho Hok Hj).
      cbn [calls logged List.length nth_error].
      repeat split; try lia; try discriminate; try congruence.
      repeat constructor. }
  destruct (parse_statsOnly searchParams) eqn:Hs.
  2:{ rewrite (run_GET_listing env searchParams provider Hkey res json
                               Ho Hok Hj Hs).
      cbn [calls logged List.length nth_error].
      repeat split; try lia; try discriminate; try congruence.
      repeat constructor. }
  rewrite (run_GET_stats env searchParams provider Hkey res json
                         Ho Hok Hj Hs).
  fold apiKey. cbn [calls logged result List.length nth_error].
  split; [lia|]. split; [repeat constructor|]. split.
  { intros rq E. inversion E; subst rq. split; [reflexivity|].
    split; [reflexivity|]. now exists res, json. }
  destruct (provider 1%nat (eligible_request apiKey)) as [e | r2].
  - cbn [eligible_error eligible_count List.length].
    split; [lia|]. split; [|split].
    + intros _. split; [reflexivity|]. now eexists.
    + intros _. exists e. split; [reflexivity|]. now left.
    + discriminate.
  - cbn [eligible_error eligible_count].
    destruct (Response.ok r2) eqn:Hok2;
      [destruct (Response.json r2) eqn:Hj2|];
      cbn [List.length]; (split; [lia|]); (split; [|split]);
      try (intros H; congruence).
    + intros _. split; [reflexivity|]. now eexists.
    + intros _. exists JsonSyntaxError. split; [reflexivity|].
      right. split; [reflexivity|]. now exists r2.
Qed.

(** *** Fields and ranks of the listing *)

Lemma or_lit_nonempty (a : option string) (d : string) :
  d <> "" -> JS.or_lit a d <> "".
Proof.
  intros Hd. unfold JS.or_lit, JS.or.
  destruct (JS.truthy a) eqn:E; [|exact Hd].
  destruct a as [s|]; [|discriminate]. unfold JS.truthy in E.
  destruct (String.eqb_spec s ""); [discriminate | assumption].
Qed.

Lemma map_profile_fields (p : Profile.t) :
  Entry.name (map_profile p) <> ""
  /\ Entry.pfp (map_profile p) <> Some ""
  /\ Entry.rewards (map_profile p) = "-"
  /\ Entry.id (map_profile p) = Profile.id p
  /\ Entry.talent_protocol_id (map_profile p) = Profile.id p.
Proof.
  split; [|split; [|repeat split]].
  - apply or_lit_nonempty. discriminate.
  - cbn [map_profile Entry.pfp]. unfold JS.or.
    destruct (JS.truthy (Profile.image_url p)) eqn:E; [|discriminate].
    intros H. rewrite H in E. discriminate.
Qed.

(** X7 -- The entries of a listing carry the identifiers of the profiles of
    the response, each once (as many times as the provider gave it); every
    entry has a non-empty name, a picture that is absent rather than empty,
    the placeholder [-] as reward and its identifier also as
    [talent_protocol_id]. *)
Theorem listing_entry_fields (json : ProviderJson) :
  Permutation
    (map (fun r => Entry.id (Ranked.entry r))
         (response_entries (listing json)))
    (map Profile.id
         (match profiles json with Some ps => ps | None => [] end))
  /\ forall r, In r (response_entries (listing json)) ->
       Entry.name (Ranked.entry r) <> ""
       /\ Entry.pfp (Ranked.entry r) <> Some ""
       /\ Entry.rewards (Ranked.entry r) = "-"
       /\ Entry.talent_protocol_id (Ranked.entry r)
          = Entry.id (Ranked.entry r).
Proof.
  split.
  - rewrite <- (map_map Ranked.entry Entry.id).
    rewrite listing_entries. unfold assign_ranks. rewrite map_rank_entries.
    rewrite (Permutation_map Entry.id (Array_sort_perm _)).
    rewrite map_map. try apply Permutation_refl.
  - intros r Hr.
    assert (He : In (Ranked.entry r)
                    (map Ranked.entry (response_entries (listing json))))
      by (now apply in_map).
    apply listing_entry_of_profile in He. destruct He as [p [_ E]].
    rewrite E. destruct (map_profile_fields p) as (H1 & H2 & H3 & H4 & H5).
    repeat split; try assumption; congruence.
Qed.

Lemma competition_ge (scores : list Z) :
  forall ps pr idx i, 0 <= idx -> 1 <= pr \/ ps = None ->
    (i < List.length scores)%nat ->
    1 <= nth i (competition ps pr idx scores) 0.
Proof.
  induction scores as [|s r IH]; intros ps pr idx i Hidx Hpr Hi;
    simpl in *; [lia|].
  assert (Hrk : 1 <= (if match ps with Some p => s =? p | None => false end
                      then pr else idx + 1)).
  { destruct ps as [p|]; [destruct (s =? p)|]; try lia.
    destruct Hpr as [H | H]; [lia | discriminate]. }
  destruct i as [|i]; [exact Hrk|].
  apply IH; [lia | now left | lia].
Qed.

(** X8 -- Whatever the provider answers, the ranks of a listing start at
    1, never decrease along the entries, and the rank of an entry is at
    least 1 and at most its position. *)
Theorem listing_ranks_bounded (json : ProviderJson) :
  let ranks := map Ranked.rank (response_entries (listing json)) in
  (forall i, (i < List.length ranks)%nat ->
     1 <= nth i ranks 0 <= Z.of_nat i + 1)
  /\ (forall i, (S i < List.length ranks)%nat ->
        nth i ranks 0 <= nth (S i) ranks 0)
  /\ (ranks <> [] -> nth 0 ranks 0 = 1).
Proof.
  intros ranks. unfold ranks. rewrite listing_entries.
  set (mapped := Array_sort by_score_desc _).
  rewrite length_map.
  assert (Hlen : List.length (assign_ranks mapped) = List.length mapped)
    by apply map_rank_length.
  rewrite Hlen.
  assert (Hb : forall i, (i < List.length mapped)%nat ->
                 1 <= nth i (map Ranked.rank (assign_ranks mapped)) 0
                 <= Z.of_nat i + 1).
  { intros i Hi. rewrite assign_ranks_competition. split.
    - apply competition_ge; [lia | now right | now rewrite length_map].
    - pose proof (competition_le (map Entry.score mapped) None 0 0 i) as H.
      rewrite length_map in H. specialize (H (Z.le_refl 0) Hi). lia. }
  split; [exact Hb|]. split.
  - intros i Hi. rewrite (ranks_step mapped i Hi).
    destruct (_ =? _); [lia|].
    specialize (Hb i ltac:(lia)). lia.
  - intros Hne. apply ranks_first. intros E. apply Hne. now rewrite E.
Qed.

(** *** [useScoreRefresh] *)

Lemma run_timers_idle (w : ScoreRefresh.World) (fuel : nat)
      (s : ScoreRefresh.State) :
  ScoreRefresh.timers s = [] -> ScoreRefresh.run_timers w fuel s = s.
Proof.
  intros H. destruct fuel; [reflexivity|]. cbn [ScoreRefresh.run_timers].
  now rewrite H.
Qed.

(** The part of [l] before its tail [base]. *)
Ltac list_prefix l base :=
  lazymatch l with
  | base => constr:(@nil ScoreRefresh.Event)
  | ?x :: ?r => let p := list_prefix r base in constr:(x :: p)
  end.

(** X9 -- A call of [refreshScore] without a talent id, or from a render
    that saw a refresh in progress, does nothing at all.  Any other call
    asks the service once and, once its timers have run, leaves the hook not
    refreshing, whatever the service and the refetch do: on success the
    message is [Calculation enqueued] with no error, and the refetch callback
    (when given) has been called once; on a failure or a thrown error there
    is no message, the error is the one reported (or
    [Failed to trigger calculation]) and the refetch is not called. *)
Theorem refresh_settles (w : ScoreRefresh.World) (fuel : nat)
        (talentUUID : string) (has_onSuccess : bool)
        (s : ScoreRefresh.State) :
  ScoreRefresh.timers s = [] ->
  (2 <= fuel)%nat ->
  let s' := ScoreRefresh.refresh w fuel talentUUID has_onSuccess s in
  (talentUUID = "" \/ ScoreRefresh.isRefreshing s = true -> s' = s)
  /\ (talentUUID <> "" -> ScoreRefresh.isRefreshing s = false ->
      ScoreRefresh.isRefreshing s' = false
      /\ ScoreRefresh.timers s' = []
      /\ (exists new,
            ScoreRefresh.events s' = (new ++ ScoreRefresh.events s)%list
            /\ ScoreRefresh.outside_calls new
               = ScoreRefresh.triggerScoreCalculation talentUUID
                 :: match ScoreRefresh.trigger w talentUUID with
                    | inl r =>
                        if ScoreRefresh.success r && has_onSuccess
                        then [ScoreRefresh.onSuccess] else []
                    | inr _ => []
                    end)
      /\ match ScoreRefresh.trigger w talentUUID with
         | inl r =>
             if ScoreRefresh.success r
             then ScoreRefresh.successMessage s'
                  = Some "Calculation enqueued"
                  /\ ScoreRefresh.error_state s' = None
             else ScoreRefresh.successMessage s' = None
                  /\ ScoreRefresh.error_state s'
                     = Some (JS.or_lit (ScoreRefresh.error r)
                                       "Failed to trigger calculation")
         | inr (ErrorObject message) =>
             ScoreRefresh.successMessage s' = None
             /\ ScoreRefresh.error_state s' = Some message
         | inr NonError =>
             ScoreRefresh.successMessage s' = None
             /\ ScoreRefresh.error_state s'
                = Some "Failed to trigger calculation"
         end).
Proof.
  intros Ht Hfuel s'. unfold s', ScoreRefresh.refresh. split.
  - intros Hguard.
    assert (E : ScoreRefresh.refreshScore talentUUID
                  (ScoreRefresh.isRefreshing s) has_onSuccess = Done tt).
    { unfold ScoreRefresh.refreshScore.
      destruct Hguard as [-> | ->]; [reflexivity|].
      now rewrite orb_true_r. }
    rewrite E. cbn [exec snd].
    destruct fuel; [reflexivity|]. cbn [ScoreRefresh.run_timers].
    now rewrite Ht.
  - intros Hne Hfalse.
    assert (Hg : negb (JS.truthy (Some talentUUID)) = false).
    { unfold JS.truthy. destruct (String.eqb_spec talentUUID "");
        [congruence | reflexivity]. }
    unfold ScoreRefresh.refreshScore. rewrite Hfalse, Hg. cbn [orb].
    destruct fuel as [|[|fuel]]; [lia | lia |].
    destruct s as [r0 m0 e0 h0 t0 ev0]. cbn in Ht, Hfalse. subst t0 r0.
    destruct (ScoreRefresh.trigger w talentUUID) as [[[] er] | [msg|]] eqn:Etr;
      destruct has_onSuccess;
      destruct (ScoreRefresh.refetch w) as [[] | e] eqn:Erf;
      cbn; rewrite ?Etr; cbn; rewrite ?Erf; cbn;
      rewrite ?run_timers_idle by reflexivity; cbn;
      (split; [reflexivity|]); (split; [reflexivity|]);
      (split; [|split; reflexivity]);
      match goal with
      | |- exists new, ?l = (new ++ ev0)%list /\ _ =>
          let p := list_prefix l ev0 in exists p
      end; split; reflexivity.
Qed.

Lemma refresh_settles_witness :
  ScoreRefresh.isRefreshing
    (ScoreRefresh.refresh
       {| ScoreRefresh.trigger :=
            fun _ => inl {| ScoreRefresh.success := true;
                            ScoreRefresh.error := None |};
          ScoreRefresh.refetch := inr (ErrorObject "offline") |}
       2 "talent-1" true ScoreRefresh.initial)
  = false.
Proof.
  apply (refresh_settles
           {| ScoreRefresh.trigger :=
                fun _ => inl {| ScoreRefresh.success := true;
                                ScoreRefresh.error := None |};
              ScoreRefresh.refetch := inr (ErrorObject "offline") |}
           2 "talent-1" true ScoreRefresh.initial eq_refl (le_n 2)).
  - discriminate.
  - reflexivity.
Defined.

(** *** [useProfileActions] *)

Lemma round_div_near (a b : Z) :
  0 <= a -> 0 < b ->
  2 * a - b <= 2 * (ProfileActions.round_div a b * b) <= 2 * a + b.
Proof.
  intros Ha Hb. unfold ProfileActions.round_div.
  pose proof (Z.div_mod a b ltac:(lia)) as Hdm.
  pose proof (Z.mod_pos_bound a b Hb) as Hr.
  remember (a / b) as q eqn:Eq. remember (a mod b) as r eqn:Er.
  clear Eq Er.
  assert (Hqb : q * b = a - r) by lia.
  destruct (Z.ltb_spec (2 * r) b).
  - lia.
  - destruct (Z.ltb_spec b (2 * r)).
    + replace ((q + 1) * b) with (q * b + b) by ring. lia.
    + destruct (Z.even q).
      * lia.
      * replace ((q + 1) * b) with (q * b + b) by ring. lia.
Qed.

Lemma round_div_exact (n b : Z) :
  0 < b -> ProfileActions.round_div (n * b) b = n.
Proof.
  intros Hb. unfold ProfileActions.round_div.
  rewrite Z.div_mul, Z.mod_mul by lia.
  replace (2 * 0 <? b) with true by (symmetry; apply Z.ltb_lt; lia).
  reflexivity.
Qed.

(** The quotient is scaled so that the mantissa has 53 bits: the shift is
    not negative and [q * 2^52 <= p * 2^s]. *)
Lemma quotient_shift (p q : Z) :
  0 < p < 2 ^ 53 -> 0 < q ->
  let s := snd (ProfileActions.quotient p q) in
  0 <= s /\ q * 2 ^ 52 <= p * 2 ^ s
  /\ fst (ProfileActions.quotient p q)
     = ProfileActions.round_div (p * 2 ^ s) q.
Proof.
  intros [Hp0 Hp] Hq. unfold ProfileActions.quotient. cbn [fst snd].
  destruct (Z.log2_spec p Hp0) as [Hlp1 Hlp2].
  destruct (Z.log2_spec q Hq) as [Hlq1 Hlq2].
  assert (Hlp : 0 <= Z.log2 p <= 52).
  { split; [apply Z.log2_nonneg|].
    assert (Z.log2 p < 53) by (apply Z.log2_lt_pow2; lia). lia. }
  assert (Hlq : 0 <= Z.log2 q) by apply Z.log2_nonneg.
  remember (Z.log2 p) as lp eqn:Elp. remember (Z.log2 q) as lq eqn:Elq.
  clear Elp Elq.
  remember (52 + lq - lp) as s0 eqn:Es0.
  assert (Hs0 : 0 <= s0) by lia.
  assert (Hpow : 2 ^ lp * 2 ^ s0 = 2 ^ lq * 2 ^ 52).
  { rewrite <- !Z.pow_add_r by lia. f_equal. lia. }
  assert (Hps0 : 2 ^ lq * 2 ^ 52 <= p * 2 ^ s0).
  { rewrite <- Hpow. apply Z.mul_le_mono_nonneg_r; [|lia].
    apply Z.pow_nonneg. lia. }
  assert (Hq2 : q * 2 ^ 52 < 2 * (2 ^ lq * 2 ^ 52)).
  { replace (Z.succ lq) with (lq + 1) in Hlq2 by lia.
    rewrite Z.pow_add_r in Hlq2 by lia. change (2 ^ 1) with 2 in Hlq2.
    replace (2 * (2 ^ lq * 2 ^ 52)) with (2 ^ lq * 2 * 2 ^ 52) by ring.
    apply Z.mul_lt_mono_pos_r; [reflexivity | exact Hlq2]. }
  destruct (Z.ltb_spec (p * 2 ^ s0) (q * 2 ^ 52)) as [Hlt | Hge].
  - split; [lia|]. split; [|reflexivity].
    rewrite Z.pow_add_r by lia. change (2 ^ 1) with 2. lia.
  - split; [lia|]. split; [exact Hge | reflexivity].
Qed.

(** On integers below [2^53] the ceiling of the binary64 quotient is the
    ceiling of the exact quotient. *)
Lemma Math_ceil_div_exact (p q : Z) :
  0 < p < 2 ^ 53 -> 0 < q ->
  ProfileActions.Math_ceil_div p q = (p + q - 1) / q.
Proof.
  intros Hp Hq. unfold ProfileActions.Math_ceil_div.
  replace (p =? 0) with false by (symmetry; apply Z.eqb_neq; lia).
  rewrite Z.abs_eq by lia.
  destruct (quotient_shift p q Hp Hq) as (Hs & HN & Hm).
  destruct (ProfileActions.quotient p q) as [m s]. cbn [fst snd] in *.
  replace (0 <? p) with true by (symmetry; apply Z.ltb_lt; lia).
  assert (HS : 0 < 2 ^ s) by (apply Z.pow_pos_nonneg; lia).
  remember (2 ^ s) as S2 eqn:ES. clear ES s Hs.
  change (2 ^ 52) with 4503599627370496 in *.
  change (2 ^ 53) with 9007199254740992 in *.
  (* [q < 2 * S2] *)
  assert (HqS : q < 2 * S2).
  { apply Z.nle_gt. intros Hle.
    assert (p * S2 <= 9007199254740991 * S2)
      by (apply Z.mul_le_mono_nonneg_r; lia).
    lia. }
  assert (Hnear : 2 * (p * S2) - q <= 2 * (m * q) <= 2 * (p * S2) + q).
  { subst m. apply round_div_near; [|lia].
    apply Z.mul_nonneg_nonneg; lia. }
  pose proof (Z.div_mod p q ltac:(lia)) as Hdm.
  pose proof (Z.mod_pos_bound p q Hq) as Hf.
  remember (p / q) as n eqn:En. remember (p mod q) as f eqn:Ef.
  clear En Ef.
  assert (Hn : 0 <= n) by nia.
  destruct (Z.eq_dec f 0) as [-> | Hf0].
  - (* exact quotient *)
    assert (Em : m = n * S2).
    { subst m. replace (p * S2) with ((n * S2) * q) by (rewrite Hdm; ring).
      now apply round_div_exact. }
    rewrite Em. replace (- (n * S2)) with ((- n) * S2) by ring.
    rewrite Z.div_mul by lia. rewrite Z.opp_involutive.
    apply Z.div_unique with (r := q - 1); [lia|].
    rewrite Hdm. ring.
  - (* a fraction: the quotient lies strictly between [n] and [n + 1] *)
    assert (HpS : p * S2 = q * (n * S2) + f * S2) by (rewrite Hdm; ring).
    assert (HfS1 : S2 <= f * S2) by nia.
    assert (HfS2 : f * S2 <= (q - 1) * S2)
      by (apply Z.mul_le_mono_nonneg_r; lia).
    replace ((q - 1) * S2) with (q * S2 - S2) in HfS2 by ring.
    assert (Hlo : n * S2 < m).
    { apply Z.nle_gt. intros Hle.
      assert (m * q <= n * S2 * q) by (apply Z.mul_le_mono_nonneg_r; lia).
      lia. }
    assert (Hhi : m < (n + 1) * S2).
    { apply Z.nle_gt. intros Hle.
      assert ((n + 1) * S2 * q <= m * q)
        by (apply Z.mul_le_mono_nonneg_r; lia).
      replace ((n + 1) * S2 * q) with (q * (n * S2) + q * S2) in H by ring.
      lia. }
    assert (E1 : (- m) / S2 = - (n + 1)).
    { symmetry. apply Z.div_unique with (r := (n + 1) * S2 - m); [lia|].
      ring. }
    rewrite E1, Z.opp_involutive.
    apply Z.div_unique with (r := f - 1); [lia|]. rewrite Hdm. ring.
Qed.

Section Cooldown.
Variable Date_getTime : string -> JS.number.

Lemma cooldown_none (lastCalculatedAt : ProfileActions.nullable)
      (currentTime : Z) :
  match lastCalculatedAt with
  | ProfileActions.Str s => s = "" \/ Date_getTime s = JS.NaN
  | _ => True
  end ->
  ProfileActions.calculateCooldownTime Date_getTime lastCalculatedAt
                                       currentTime
  = None.
Proof.
  unfold ProfileActions.calculateCooldownTime.
  destruct lastCalculatedAt as [| |s]; try reflexivity.
  intros [-> | E]; [reflexivity|].
  rewrite E. cbn. now destruct (negb _).
Qed.

Lemma cooldown_of_time (s : string) (last currentTime : Z) :
  s <> "" -> Date_getTime s = JS.Num last ->
  ProfileActions.calculateCooldownTime Date_getTime (ProfileActions.Str s)
                                       currentTime
  = if currentTime <? last + 3600000
    then Some (ProfileActions.Math_ceil_div (last + 3600000 - currentTime)
                                            60000)
    else None.
Proof.
  intros Hs E. unfold ProfileActions.calculateCooldownTime.
  cbn [ProfileActions.truthy]. unfold JS.truthy.
  destruct (String.eqb_spec s ""); [congruence|]. cbn [negb].
  rewrite E. cbn [ProfileActions.add ProfileActions.lt ProfileActions.sub].
  change (60 * 60 * 1000) with 3600000. change (60 * 1000) with 60000.
  reflexivity.
Qed.

(** X10 -- The cooldown shown for a last calculation at time [last]: while
    less than an hour has passed it is the number of minutes left, rounded
    up (so at least 1, and at most 60 when [last] is not in the future);
    from one hour on there is none. *)
Theorem cooldown_minutes (s : string) (last currentTime : Z) :
  s <> "" -> Date_getTime s = JS.Num last ->
  last + 3600000 - currentTime < 2 ^ 53 ->
  let cooldown :=
    ProfileActions.calculateCooldownTime Date_getTime (ProfileActions.Str s)
                                         currentTime in
  (last + 3600000 <= currentTime -> cooldown = None)
  /\ (currentTime < last + 3600000 ->
      exists m, cooldown = Some m
                /\ 60000 * (m - 1) < last + 3600000 - currentTime <= 60000 * m
                /\ 1 <= m
                /\ (last <= currentTime -> m <= 60)).
Proof.
  intros Hs E Hbound cooldown. unfold cooldown.
  rewrite (cooldown_of_time s last currentTime Hs E). split.
  - intros H. now replace (currentTime <? last + 3600000) with false
      by (symmetry; apply Z.ltb_ge; lia).
  - intros H. replace (currentTime <? last + 3600000) with true
      by (symmetry; apply Z.ltb_lt; lia).
    eexists. split; [reflexivity|].
    rewrite Math_ceil_div_exact by lia.
    remember (last + 3600000 - currentTime) as rem eqn:Er.
    assert (Hrem : 0 < rem) by lia.
    pose proof (Z.div_mod (rem + 60000 - 1) 60000 ltac:(lia)) as Hdm.
    pose proof (Z.mod_pos_bound (rem + 60000 - 1) 60000 ltac:(lia)) as Hm.
    remember ((rem + 60000 - 1) / 60000) as m eqn:Em.
    repeat split; lia.
Qed.
End Cooldown.

Lemma cooldown_minutes_witness :
  exists m,
    ProfileActions.calculateCooldownTime
      (fun _ => JS.Num 1000000) (ProfileActions.Str "t") 1000001
    = Some m
    /\ 60000 * (m - 1) < 1000000 + 3600000 - 1000001 <= 60000 * m
    /\ 1 <= m
    /\ (1000000 <= 1000001 -> m <= 60).
Proof.
  apply (cooldown_minutes (fun _ => JS.Num 1000000) "t" 1000000 1000001).
  - discriminate.
  - reflexivity.
  - reflexivity.
  - reflexivity.
Defined.

(** X11 -- The refresh button, by the state [cooldownMinutes] of the
    render (null at first, then what the effect set when it last ran: on
    mount, on a change of [lastCalculatedAt], and every 60 s).  The text is
    [Calculate Score] exactly when the score was never calculated
    ([lastCalculatedAt] is [null]).  While the state holds a positive
    number of minutes, a click does nothing and the text is
    [Refresh in <m>min]; while it holds none (or none that is positive),
    the text is [Refresh Score] and a click is the hook's [refreshScore],
    unless a calculation or a refresh is under way.  So after a run of the
    effect at a time [t0] less than an hour after the last calculation the
    button shows the minutes that were left at [t0], rounded up, and is
    blocked until the effect runs again; after a run at a later time it is
    live. *)
Theorem refresh_button (Date_getTime : string -> JS.number)
        (lastCalculatedAt : ProfileActions.nullable)
        (cooldownMinutes : option Z)
        (talentUUID : string) (calculating : option bool)
        (isRefreshing has_refetchScore : bool) :
  let text := ProfileActions.buttonText lastCalculatedAt cooldownMinutes in
  let click :=
    ProfileActions.handleRefreshScore talentUUID calculating isRefreshing
                                      cooldownMinutes has_refetchScore in
  let live :=
    if ProfileActions.isCalculatingOrRefreshing calculating isRefreshing
    then Done tt
    else ScoreRefresh.refreshScore talentUUID isRefreshing has_refetchScore in
  (text = "Calculate Score" <-> lastCalculatedAt = ProfileActions.Null)
  /\ (forall m, cooldownMinutes = Some m -> 0 < m ->
        click = Done tt
        /\ (lastCalculatedAt <> ProfileActions.Null ->
            text = "Refresh in " ++ JS.toString (JS.Num m) ++ "min"))
  /\ (cooldownMinutes = None
      \/ (exists m, cooldownMinutes = Some m /\ m <= 0) ->
      click = live
      /\ (lastCalculatedAt <> ProfileActions.Null -> text = "Refresh Score"))
  /\ (forall s last t0,
        lastCalculatedAt = ProfileActions.Str s -> s <> "" ->
        Date_getTime s = JS.Num last ->
        last + 3600000 - t0 < 2 ^ 53 ->
        cooldownMinutes
        = ProfileActions.calculateCooldownTime Date_getTime lastCalculatedAt
                                               t0 ->
        (t0 < last + 3600000 ->
         exists m, 1 <= m
                   /\ 60000 * (m - 1) < last + 3600000 - t0 <= 60000 * m
                   /\ cooldownMinutes = Some m
                   /\ text = "Refresh in " ++ JS.toString (JS.Num m) ++ "min"
                   /\ click = Done tt)
        /\ (last + 3600000 <= t0 ->
            cooldownMinutes = None
            /\ text = "Refresh Score" /\ click = live)).
Proof.
  intros text click live.
  assert (Hpos : forall m, cooldownMinutes = Some m -> 0 < m ->
            click = Done tt
            /\ (lastCalculatedAt <> ProfileActions.Null ->
                text = "Refresh in " ++ JS.toString (JS.Num m) ++ "min")).
  { intros m -> Hm. subst text click.
    unfold ProfileActions.buttonText, ProfileActions.handleRefreshScore.
    assert (Hin : ProfileActions.isInCooldown (Some m) = true)
      by (apply Z.ltb_lt; lia).
    rewrite Hin, orb_true_r. split; [reflexivity|].
    intros Hnn. destruct lastCalculatedAt; try reflexivity. congruence. }
  assert (Hnone : cooldownMinutes = None
                  \/ (exists m, cooldownMinutes = Some m /\ m <= 0) ->
            click = live
            /\ (lastCalculatedAt <> ProfileActions.Null ->
                text = "Refresh Score")).
  { intros H. subst text click live.
    unfold ProfileActions.buttonText, ProfileActions.handleRefreshScore.
    assert (Hin : ProfileActions.isInCooldown cooldownMinutes = false).
    { destruct H as [-> | (m & -> & Hm)]; [reflexivity|].
      apply Z.ltb_ge. lia. }
    rewrite Hin, orb_false_r. split; [reflexivity|].
    intros Hnn. destruct lastCalculatedAt; try reflexivity. congruence. }
  split; [|split; [exact Hpos|split; [exact Hnone|]]].
  - unfold text, ProfileActions.buttonText.
    destruct lastCalculatedAt; cbn [ProfileActions.hasNeverCalculated];
      try (split; [|discriminate]); try (split; reflexivity);
      destruct (ProfileActions.isInCooldown cooldownMinutes); discriminate.
  - intros s last t0 Hl Hs E Hbound Hstate.
    assert (Hnn : lastCalculatedAt <> ProfileActions.Null)
      by (rewrite Hl; discriminate).
    rewrite Hl in Hstate.
    rewrite (cooldown_of_time Date_getTime s last t0 Hs E) in Hstate.
    split.
    + intros Hlt.
      replace (t0 <? last + 3600000) with true in Hstate
        by (symmetry; apply Z.ltb_lt; lia).
      rewrite Math_ceil_div_exact in Hstate by lia.
      remember (last + 3600000 - t0) as rem eqn:Er.
      assert (Hrem : 0 < rem) by lia.
      pose proof (Z.div_mod (rem + 60000 - 1) 60000 ltac:(lia)) as Hdm.
      pose proof (Z.mod_pos_bound (rem + 60000 - 1) 60000 ltac:(lia)) as Hmb.
      remember ((rem + 60000 - 1) / 60000) as m eqn:Em.
      assert (Hm : 1 <= m) by lia.
      destruct (Hpos m Hstate ltac:(lia)) as [Hc Ht].
      exists m. split; [exact Hm|]. split; [lia|].
      split; [exact Hstate|]. split; [now apply Ht | exact Hc].
    + intros Hge.
      replace (t0 <? last + 3600000) with false in Hstate
        by (symmetry; apply Z.ltb_ge; lia).
      destruct (Hnone (or_introl Hstate)) as [Hc Ht].
      split; [exact Hstate|]. split; [now apply Ht | exact Hc].
Qed.

(** *** [useProfileCreatorScore] *)

(** The part of [l] before its tail [base]. *)
Ltac score_events_prefix l base :=
  lazymatch l with
  | base => constr:(@nil ProfileCreatorScore.Event)
  | ?x :: ?r => let p := score_events_prefix r base in constr:(x :: p)
  end.

(** X12 -- The effect of [useProfileCreatorScore] for a talent id.  It
    always ends not loading.  On a cache hit the state takes the cached
    score and date, the service is not called, nothing is written to the
    cache and the error of the state is left as it was.  On a miss the
    service is called once: a result without error fills the state, clears
    the error and is written to the cache under the key of the talent id; a
    result with an error, or a thrown error, leaves no score, sets the error
    and writes nothing. *)
Theorem creator_score_effect (SCORE_BREAKDOWN : Z)
        (w : ProfileCreatorScore.World) (talentUUID : string)
        (s : ProfileCreatorScore.State) :
  talentUUID <> "" ->
  let key := "creator_score_data_" ++ talentUUID in
  let s' := snd (exec (ProfileCreatorScore.handle w)
                      (ProfileCreatorScore.effect SCORE_BREAKDOWN talentUUID)
                      s) in
  ProfileCreatorScore.loading s' = false
  /\ exists new,
       ProfileCreatorScore.events s'
       = (new ++ ProfileCreatorScore.events s)%list
       /\ match ProfileCreatorScore.cache w key SCORE_BREAKDOWN with
          | Some c =>
              ProfileCreatorScore.creatorScore s'
              = Some (ProfileCreatorScore.Cache.score c)
              /\ ProfileCreatorScore.lastCalculatedAt_state s'
                 = ProfileCreatorScore.Cache.lastCalculatedAt c
              /\ ProfileCreatorScore.error_state s'
                 = ProfileCreatorScore.error_state s
              /\ ProfileCreatorScore.outside_calls new = []
          | None =>
              match ProfileCreatorScore.service w talentUUID with
              | inl d =>
                  if JS.truthy (ProfileCreatorScore.error d) then
                    ProfileCreatorScore.creatorScore s' = None
                    /\ ProfileCreatorScore.lastCalculatedAt_state s' = None
                    /\ ProfileCreatorScore.error_state s'
                       = ProfileCreatorScore.error d
                    /\ ProfileCreatorScore.outside_calls new
                       = [ProfileCreatorScore.getCreatorScoreForTalentId
                            talentUUID]
                  else
                    ProfileCreatorScore.creatorScore s'
                    = Some (ProfileCreatorScore.score d)
                    /\ ProfileCreatorScore.lastCalculatedAt_state s'
                       = ProfileCreatorScore.lastCalculatedAt d
                    /\ ProfileCreatorScore.error_state s' = None
                    /\ ProfileCreatorScore.outside_calls new
                       = [ProfileCreatorScore.getCreatorScoreForTalentId
                            talentUUID;
                          ProfileCreatorScore.setCachedData key
                            {| ProfileCreatorScore.Cache.score :=
                                 ProfileCreatorScore.score d;
                               ProfileCreatorScore.Cache.lastCalculatedAt :=
                                 ProfileCreatorScore.lastCalculatedAt d |}]
              | inr e =>
                  ProfileCreatorScore.creatorScore s' = None
                  /\ ProfileCreatorScore.lastCalculatedAt_state s' = None
                  /\ ProfileCreatorScore.error_state s'
                     = Some match e with
                            | ErrorObject message => message
                            | NonError => "Failed to fetch creator score"
                            end
                  /\ ProfileCreatorScore.outside_calls new
                     = [ProfileCreatorScore.getCreatorScoreForTalentId
                          talentUUID]
              end
          end.
Proof.
  intros Hne key s'. subst s'. unfold ProfileCreatorScore.effect.
  replace (JS.truthy (Some talentUUID)) with true
    by (unfold JS.truthy; destruct (String.eqb_spec talentUUID "");
        [congruence | reflexivity]).
  unfold ProfileCreatorScore.fetchScore. fold key.
  destruct s as [c0 l0 ld0 e0 ev0].
  cbn [exec eff_bind ProfileCreatorScore.emit perform
       ProfileCreatorScore.handle].
  destruct (ProfileCreatorScore.cache w key SCORE_BREAKDOWN) as [c|] eqn:Ec.
  - cbn. split; [reflexivity|].
    match goal with
    | |- exists new, ?l = (new ++ ev0)%list /\ _ =>
        let p := score_events_prefix l ev0 in exists p
    end. repeat split; reflexivity.
  - destruct (ProfileCreatorScore.service w talentUUID)
      as [d | e] eqn:Es.
    + destruct (JS.truthy (ProfileCreatorScore.error d)) eqn:Et;
        cbn; rewrite Es; cbn; rewrite Et; cbn;
        (split; [reflexivity|]);
        match goal with
        | |- exists new, ?l = (new ++ ev0)%list /\ _ =>
            let p := score_events_prefix l ev0 in exists p
        end; repeat split; reflexivity.
    + cbn; rewrite Es; cbn. split; [reflexivity|].
      match goal with
      | |- exists new, ?l = (new ++ ev0)%list /\ _ =>
          let p := score_events_prefix l ev0 in exists p
      end. repeat split; reflexivity.
Qed.

Lemma creator_score_effect_witness :
  ProfileCreatorScore.loading
    (snd (exec (ProfileCreatorScore.handle
                  {| ProfileCreatorScore.cache := fun _ _ => None;
                     ProfileCreatorScore.service :=
                       fun _ => inl {| ProfileCreatorScore.score := 72;
                                       ProfileCreatorScore.lastCalculatedAt :=
                                         None;
                                       ProfileCreatorScore.error := None |}
                  |})
               (ProfileCreatorScore.effect 300000 "talent-1")
               ProfileCreatorScore.initial))
  = false.
Proof.
  apply (creator_score_effect
           300000
           {| ProfileCreatorScore.cache := fun _ _ => None;
              ProfileCreatorScore.service :=
                fun _ => inl {| ProfileCreatorScore.score := 72;
                                ProfileCreatorScore.lastCalculatedAt := None;
                                ProfileCreatorScore.error := None |} |}
           "talent-1" ProfileCreatorScore.initial).
  discriminate.
Defined.

(** *** [ProfileScreen] *)

(** The part of [l] before its tail [base]. *)
Ltac screen_events_prefix l base :=
  lazymatch l with
  | base => constr:(@nil ProfileScreen.Event)
  | ?x :: ?r => let p := screen_events_prefix r base in constr:(x :: p)
  end.

Ltac screen_new_events :=
  match goal with
  | |- exists new, ?l = (new ++ ?base)%list /\ _ =>
      let p := screen_events_prefix l base in exists p
  end.

(** X13 -- Which profile the page shows: the [fid] prop when it is given
    and truthy; else the [wallet] prop when there is no [fid] prop; else the
    [github] prop when there is neither; and the current user's fid when no
    prop is truthy. *)
Theorem identifier_precedence (fidProp : option ProfileScreen.Id)
        (walletProp githubProp : option string)
        (user_fid : option JS.number) :
  let identifier :=
    ProfileScreen.identifier fidProp walletProp githubProp user_fid in
  (ProfileScreen.truthy fidProp = true -> identifier = fidProp)
  /\ (fidProp = None -> JS.truthy walletProp = true ->
      identifier = ProfileScreen.of_string walletProp)
  /\ (fidProp = None -> walletProp = None -> JS.truthy githubProp = true ->
      identifier = ProfileScreen.of_string githubProp)
  /\ (ProfileScreen.truthy fidProp = false -> JS.truthy walletProp = false ->
      JS.truthy githubProp = false ->
      identifier = option_map ProfileScreen.IdNumber user_fid).
Proof.
  intros identifier. subst identifier.
  unfold ProfileScreen.identifier, ProfileScreen.hasIdentifier,
    ProfileScreen.or.
  split; [|split; [|split]].
  - intros H. destruct fidProp as [i|]; [|discriminate].
    rewrite !H. reflexivity.
  - intros -> H. destruct walletProp as [a|]; [|discriminate].
    do 3 (cbn [ProfileScreen.of_string option_map ProfileScreen.truthy
               ProfileScreen.nullish]; rewrite ?H).
    reflexivity.
  - intros -> -> H. destruct githubProp as [g|]; [|discriminate].
    do 3 (cbn [ProfileScreen.of_string option_map ProfileScreen.truthy
               ProfileScreen.nullish]; rewrite ?H).
    reflexivity.
  - intros H1 H2 H3. rewrite H1.
    assert (Hw : ProfileScreen.truthy (ProfileScreen.of_string walletProp)
                 = false)
      by (destruct walletProp; [exact H2 | reflexivity]).
    assert (Hg : ProfileScreen.truthy (ProfileScreen.of_string githubProp)
                 = false)
      by (destruct githubProp; [exact H3 | reflexivity]).
    now rewrite Hw, Hg.
Qed.

(** X14 -- Loading the profile.  Without a truthy identifier nothing
    happens.  With one, the page asks [/api/talent-user?id=<identifier>]
    once and ends not loading: an answer with a profile sets it and leaves
    no error; an error status or an empty answer sets the error
    [Profile not found] and clears the profile; a failed request or an
    unreadable body sets that error and leaves the profile as it was. *)
Theorem profile_load (w : ProfileScreen.World)
        (identifier : option ProfileScreen.Id) (s : ProfileScreen.State) :
  let url := "/api/talent-user?id=" ++ ProfileScreen.to_string identifier in
  let s' := snd (exec (ProfileScreen.handle w)
                      (ProfileScreen.loadProfile identifier) s) in
  (ProfileScreen.truthy identifier = false -> s' = s)
  /\ (ProfileScreen.truthy identifier = true ->
      ProfileScreen.profileLoading s' = false
      /\ ProfileScreen.creatorScore s' = ProfileScreen.creatorScore s
      /\ ProfileScreen.scoreLoading s' = ProfileScreen.scoreLoading s
      /\ (exists new,
            ProfileScreen.events s' = (new ++ ProfileScreen.events s)%list
            /\ ProfileScreen.outside_calls new = [ProfileScreen.fetch url])
      /\ match ProfileScreen.api w url with
         | inl res =>
             if ProfileScreen.ok res then
               match ProfileScreen.json res with
               | inl (Some d) =>
                   ProfileScreen.profile s' = Some d
                   /\ ProfileScreen.profileError s' = None
               | inl None =>
                   ProfileScreen.profile s' = None
                   /\ ProfileScreen.profileError s'
                      = Some "Profile not found"
               | inr _ =>
                   ProfileScreen.profile s' = ProfileScreen.profile s
                   /\ ProfileScreen.profileError s'
                      = Some "Profile not found"
               end
             else
               ProfileScreen.profile s' = None
               /\ ProfileScreen.profileError s' = Some "Profile not found"
         | inr _ =>
             ProfileScreen.profile s' = ProfileScreen.profile s
             /\ ProfileScreen.profileError s' = Some "Profile not found"
         end).
Proof.
  intros url s'. subst s'. unfold ProfileScreen.loadProfile. split.
  - intros H. now rewrite H.
  - intros H. rewrite H. cbn [negb]. fold url.
    destruct s as [p0 pl0 pe0 c0 sl0 ev0].
    remember url as u eqn:Eu. clear Eu.
    destruct (ProfileScreen.api w u) as [[[] [[d|] | e]] | e] eqn:Ea;
      cbn; rewrite Ea; cbn;
      repeat (split; [reflexivity|]);
      (split; [screen_new_events; split; reflexivity|]);
      split; reflexivity.
Qed.

(** X15 -- Fetching the score of the profile.  The identifiers are the
    props, or else those of the loaded profile, the fid before the wallet.
    Without any, the score is cleared without a call.  Otherwise the wallets
    are looked up once, by fid when there is one and by wallet only when
    there is none; an error of the lookup or a thrown error clears the
    score; no address gives the score [0] without asking for it; with
    addresses the score is asked once and shown in the locale's format ([0]
    when there is none).  In every case the page ends not loading the
    score and the profile state is left alone. *)
Theorem score_fetch (Number_of_string : string -> JS.number)
        (toLocaleString : Z -> string) (w : ProfileScreen.World)
        (fidProp : option ProfileScreen.Id) (walletProp : option string)
        (loaded : option ProfileScreen.ProfileData)
        (s : ProfileScreen.State) :
  let effectiveFid :=
    ProfileScreen.or fidProp
      (option_map ProfileScreen.IdNumber
         (match loaded with Some p => ProfileScreen.fid p | None => None end))
  in
  let effectiveWallet :=
    JS.or walletProp
      (match loaded with Some p => ProfileScreen.wallet p | None => None end)
  in
  let byFid := ProfileScreen.truthy effectiveFid in
  let fid := ProfileScreen.Number Number_of_string effectiveFid in
  let wallet := JS.or_lit effectiveWallet "" in
  let lookup :=
    if byFid then ProfileScreen.getUserWalletAddresses fid
    else ProfileScreen.getUserWalletAddressesByWallet wallet in
  let answer :=
    if byFid then ProfileScreen.walletsOfFid w fid
    else ProfileScreen.walletsOfWallet w wallet in
  let s' :=
    snd (exec (ProfileScreen.handle w)
              (ProfileScreen.fetchScore Number_of_string toLocaleString
                                        fidProp walletProp loaded) s) in
  ProfileScreen.scoreLoading s' = false
  /\ ProfileScreen.profile s' = ProfileScreen.profile s
  /\ ProfileScreen.profileLoading s' = ProfileScreen.profileLoading s
  /\ ProfileScreen.profileError s' = ProfileScreen.profileError s
  /\ exists new,
       ProfileScreen.events s' = (new ++ ProfileScreen.events s)%list
       /\ if negb byFid && negb (JS.truthy effectiveWallet) then
            ProfileScreen.creatorScore s' = None
            /\ ProfileScreen.outside_calls new = []
          else
            match answer with
            | inr _ =>
                ProfileScreen.creatorScore s' = None
                /\ ProfileScreen.outside_calls new = [lookup]
            | inl wd =>
                if JS.truthy (ProfileScreen.error wd) then
                  ProfileScreen.creatorScore s' = None
                  /\ ProfileScreen.outside_calls new = [lookup]
                else
                  match ProfileScreen.addresses wd with
                  | [] =>
                      ProfileScreen.creatorScore s' = Some "0"
                      /\ ProfileScreen.outside_calls new = [lookup]
                  | _ =>
                      ProfileScreen.outside_calls new
                      = [lookup;
                         ProfileScreen.getCreatorScore
                           (ProfileScreen.addresses wd)]
                      /\ ProfileScreen.creatorScore s'
                         = match ProfileScreen.scoreOf
                                   w (ProfileScreen.addresses wd) with
                           | inl r =>
                               Some match ProfileScreen.score r with
                                    | Some z => toLocaleString z
                                    | None => "0"
                                    end
                           | inr _ => None
                           end
                  end
            end.
Proof.
  intros effectiveFid effectiveWallet byFid fid wallet lookup answer s'.
  subst s'. unfold ProfileScreen.fetchScore.
  fold effectiveFid. fold effectiveWallet. fold byFid.
  fold fid. fold wallet.
  destruct s as [p0 pl0 pe0 c0 sl0 ev0].
  clearbody fid wallet.
  destruct byFid eqn:Eb; subst lookup answer; cbv iota.
  - destruct (ProfileScreen.walletsOfFid w fid) as [[ads er] | e] eqn:Ea.
    + cbn; rewrite Ea; cbn. unfold ProfileScreen.scoreOfWallets. cbn.
      destruct (JS.truthy er) eqn:Et.
      * cbn. repeat (split; [reflexivity|]).
        screen_new_events. repeat split; reflexivity.
      * destruct ads as [|a ads].
        -- cbn. repeat (split; [reflexivity|]).
           screen_new_events. repeat split; reflexivity.
        -- replace (0 <? Z.of_nat (List.length (a :: ads))) with true
             by (symmetry; apply Z.ltb_lt; cbn [List.length]; lia).
           destruct (ProfileScreen.scoreOf w (a :: ads)) as [r | e] eqn:Es;
             cbn; rewrite Es; cbn;
             repeat (split; [reflexivity|]);
             screen_new_events; repeat split; reflexivity.
    + cbn; rewrite Ea; cbn. repeat (split; [reflexivity|]).
      screen_new_events. repeat split; reflexivity.
  - destruct (JS.truthy effectiveWallet) eqn:Ew; cbn [negb andb].
    + destruct (ProfileScreen.walletsOfWallet w wallet)
        as [[ads er] | e] eqn:Ea.
      * cbn; rewrite Ea; cbn. unfold ProfileScreen.scoreOfWallets. cbn.
        destruct (JS.truthy er) eqn:Et.
        -- cbn. repeat (split; [reflexivity|]).
           screen_new_events. repeat split; reflexivity.
        -- destruct ads as [|a ads].
           ++ cbn. repeat (split; [reflexivity|]).
              screen_new_events. repeat split; reflexivity.
           ++ replace (0 <? Z.of_nat (List.length (a :: ads))) with true
                by (symmetry; apply Z.ltb_lt; cbn [List.length]; lia).
              destruct (ProfileScreen.scoreOf w (a :: ads))
                as [r | e] eqn:Es;
                cbn; rewrite Es; cbn;
                repeat (split; [reflexivity|]);
                screen_new_events; repeat split; reflexivity.
      * cbn; rewrite Ea; cbn. repeat (split; [reflexivity|]).
        screen_new_events. repeat split; reflexivity.
    + cbn. repeat (split; [reflexivity|]).
      screen_new_events. repeat split; reflexivity.
Qed.

(** *** Sorting by a key, descending *)

Section SortByKey.
Context {A : Type} (key : A -> Z) (compareFn : A -> A -> Z).
Hypothesis compareFn_key : forall a b, compareFn a b = key b - key a.

Lemma insert_key_perm (x : A) (l : list A) :
  Permutation (insert compareFn x l) (x :: l).
Proof.
  induction l as [|y r IH]; simpl; [reflexivity|].
  destruct (0 <? compareFn x y); [|reflexivity].
  rewrite IH. apply perm_swap.
Qed.

Lemma sort_key_perm (l : list A) : Permutation (Array_sort compareFn l) l.
Proof.
  induction l as [|x r IH]; simpl; [reflexivity|].
  rewrite insert_key_perm. now constructor.
Qed.

Lemma insert_key_sorted (x : A) (l : list A) :
  StronglySorted (fun a b => key b <= key a) l ->
  StronglySorted (fun a b => key b <= key a) (insert compareFn x l).
Proof.
  induction 1 as [|y r Hr IH Hy]; simpl.
  - repeat constructor.
  - rewrite compareFn_key.
    destruct (Z.ltb_spec 0 (key y - key x)) as [Hlt | Hge].
    + constructor; [exact IH|].
      eapply Permutation_Forall; [symmetry; apply insert_key_perm|].
      constructor; [lia | exact Hy].
    + constructor; [now constructor|].
      constructor; [lia|].
      eapply Forall_impl; [|exact Hy]. cbv beta. intros; lia.
Qed.

Lemma sort_key_sorted (l : list A) :
  StronglySorted (fun a b => key b <= key a) (Array_sort compareFn l).
Proof.
  induction l as [|x r IH]; simpl; [constructor | now apply insert_key_sorted].
Qed.

Lemma insert_key_stable (v : Z) (x : A) (l : list A) :
  filter (fun a => key a =? v) (insert compareFn x l)
  = filter (fun a => key a =? v) (x :: l).
Proof.
  induction l as [|y r IH]; [reflexivity|].
  cbn [insert]. rewrite compareFn_key.
  destruct (Z.ltb_spec 0 (key y - key x)) as [Hlt | Hge]; [|reflexivity].
  cbn [filter] in *. rewrite IH.
  destruct (Z.eqb_spec (key x) v), (Z.eqb_spec (key y) v); try reflexivity.
  lia.
Qed.

Lemma sort_key_stable (v : Z) (l : list A) :
  filter (fun a => key a =? v) (Array_sort compareFn l)
  = filter (fun a => key a =? v) l.
Proof.
  induction l as [|x r IH]; [reflexivity|].
  cbn [Array_sort]. rewrite insert_key_stable. cbn [filter]. now rewrite IH.
Qed.
End SortByKey.

Section Followers.
Variable SocialAccount : Type.
Variable followerCount : SocialAccount -> option Z.

Let count (a : SocialAccount) : Z := JS.nullish (followerCount a) 0.

Lemma totalFollowers_from (l : list SocialAccount) (z : Z) :
  fold_left (fun sum acc => sum + JS.nullish (followerCount acc) 0) l z
  = z + ProfileScreen.totalFollowers SocialAccount followerCount l.
Proof.
  unfold ProfileScreen.totalFollowers. revert z.
  induction l as [|a r IH]; intros z; cbn [fold_left]; [lia|].
  rewrite IH, (IH (0 + _)). lia.
Qed.

Lemma totalFollowers_cons (a : SocialAccount) (l : list SocialAccount) :
  ProfileScreen.totalFollowers SocialAccount followerCount (a :: l)
  = count a + ProfileScreen.totalFollowers SocialAccount followerCount l.
Proof.
  unfold ProfileScreen.totalFollowers at 1. cbn [fold_left].
  rewrite totalFollowers_from. reflexivity.
Qed.

Lemma totalFollowers_perm (l l' : list SocialAccount) :
  Permutation l l' ->
  ProfileScreen.totalFollowers SocialAccount followerCount l
  = ProfileScreen.totalFollowers SocialAccount followerCount l'.
Proof.
  induction 1 as [| x l l' _ IH | x y l | l l' l'' _ IH1 _ IH2];
    rewrite ?totalFollowers_cons; lia.
Qed.

(** X16 -- The social accounts shown are the accounts the service gave,
    ordered by follower count descending (a missing count as 0), accounts
    of one count in the order given; the total of followers is the sum of
    their counts and does not depend on the order.  When the service
    throws, no account is shown and the total is 0. *)
Theorem accounts_sorted_total
        (outcome : list SocialAccount + Exception) :
  let shown := ProfileScreen.fetchAccounts SocialAccount followerCount
                                           outcome in
  match outcome with
  | inl accounts =>
      Permutation shown accounts
      /\ StronglySorted (fun a b => count b <= count a) shown
      /\ (forall v, filter (fun a => count a =? v) shown
                    = filter (fun a => count a =? v) accounts)
      /\ ProfileScreen.totalFollowers SocialAccount followerCount shown
         = ProfileScreen.totalFollowers SocialAccount followerCount accounts
      /\ ProfileScreen.totalFollowers SocialAccount followerCount accounts
         = fold_right (fun a sum => count a + sum) 0 accounts
  | inr _ =>
      shown = []
      /\ ProfileScreen.totalFollowers SocialAccount followerCount shown = 0
  end.
Proof.
  intros shown. subst shown. destruct outcome as [accounts | e];
    cbn [ProfileScreen.fetchAccounts]; [|now split].
  assert (Hcmp : forall a b,
             ProfileScreen.by_followers_desc SocialAccount followerCount a b
             = count b - count a) by reflexivity.
  split; [apply sort_key_perm|].
  split; [apply (sort_key_sorted count _ Hcmp)|].
  split; [intros v; apply (sort_key_stable count _ Hcmp)|].
  split; [apply totalFollowers_perm, sort_key_perm|].
  induction accounts as [|a r IH]; [reflexivity|].
  rewrite totalFollowers_cons, IH. reflexivity.
Qed.
End Followers.
